(** * mask_rcnn_pytorch/imageutils.cpp: image molding and detection unmolding

    A shallow embedding of [ResizeImage], [UnmoldMask], [UnmoldDetections]
    and [ResizeMasks], followed by the properties established about them.

    - C++ [float] is IEEE binary32, modelled with the Standard Library's
      [SpecFloat] at precision 24 and maximal exponent 128.
    - C++ [int] / [int32_t] values are integers of [Z]; a scalar operation
      whose mathematical result leaves the 32-bit range is undefined in C++
      and is reported as the error [UndefinedBehaviour].  Element-wise
      arithmetic on 32-bit integer tensors wraps modulo 2^32.
    - OpenCV assertions and libtorch exceptions are errors of the [result]
      monad. *)

From Stdlib Require Import ZArith List Bool Lia.
From Stdlib Require Import Floats.SpecFloat.
Import ListNotations.
Local Open Scope Z_scope.

(** ** Errors *)

Inductive error : Type :=
| UndefinedBehaviour   (* signed overflow, float-to-int conversion out of range *)
| CvAssert             (* a CV_Assert of OpenCV failed *)
| TorchError.          (* libtorch raised c10::Error *)

Inductive result (A : Type) : Type :=
| Ok (a : A)
| Err (e : error).
Arguments Ok {A} a.
Arguments Err {A} e.

Definition bind {A B : Type} (r : result A) (k : A -> result B) : result B :=
  match r with
  | Ok a => k a
  | Err e => Err e
  end.

Notation "x <- c ;; k" := (bind c (fun x => k))
  (at level 61, c at next level, right associativity).

Fixpoint mapM {A B : Type} (f : A -> result B) (l : list A) : result (list B) :=
  match l with
  | [] => Ok []
  | a :: l' => b <- f a ;; bs <- mapM f l' ;; Ok (b :: bs)
  end.

(** ** 32-bit integers *)

Module Int32.
Definition min_signed : Z := - 2 ^ 31.
Definition max_signed : Z := 2 ^ 31 - 1.

Definition in_range (z : Z) : bool := (min_signed <=? z) && (z <=? max_signed).

(** A scalar result: defined only inside the 32-bit range. *)
Definition check (z : Z) : result Z :=
  if in_range z then Ok z else Err UndefinedBehaviour.

Definition add (a b : Z) : result Z := check (a + b).
Definition sub (a b : Z) : result Z := check (a - b).
(** C++ integer division truncates toward zero. *)
Definition div (a b : Z) : result Z :=
  if b =? 0 then Err UndefinedBehaviour else check (Z.quot a b).

(** Two's complement wrap-around, for tensor arithmetic. *)
Definition wrap (z : Z) : Z := (z + 2 ^ 31) mod 2 ^ 32 - 2 ^ 31.
Definition wsub (a b : Z) : Z := wrap (a - b).
Definition wmul (a b : Z) : Z := wrap (a * b).
End Int32.

(** ** binary32 *)

Module F32.
Definition prec : Z := 24.
Definition emax : Z := 128.
Definition float : Type := spec_float.

(** Conversion of an integer, rounding to nearest even. *)
Definition of_Z (z : Z) : float := binary_normalize prec emax z 0 false.

Definition zero : float := S754_zero false.
Definition one : float := Eval cbv in of_Z 1.

Definition mul : float -> float -> float := SFmul prec emax.
Definition div : float -> float -> float := SFdiv prec emax.
Definition sub : float -> float -> float := SFsub prec emax.

Definition half : float := Eval cbv in div (of_Z 1) (of_Z 2).

Definition eqb : float -> float -> bool := SFeqb.
Definition ltb : float -> float -> bool := SFltb.
Definition leb : float -> float -> bool := SFleb.
(** [a > b] and [a != b] of C++. *)
Definition gtb (a b : float) : bool := ltb b a.
Definition neqb (a b : float) : bool := negb (eqb a b).

(** [std::max(a, b)] is [(a < b) ? b : a]; [std::min(a, b)] is
    [(b < a) ? b : a]. *)
Definition max (a b : float) : float := if ltb a b then b else a.
Definition min (a b : float) : float := if ltb b a then b else a.

(** Integer part of the magnitude [m * 2^e], toward zero. *)
Definition trunc_mag (m : positive) (e : Z) : Z :=
  if 0 <=? e then Z.pos m * 2 ^ e else Z.pos m / 2 ^ (- e).

(** Magnitude [m * 2^e] rounded to the nearest integer, halves upward. *)
Definition round_mag (m : positive) (e : Z) : Z :=
  if 0 <=? e then Z.pos m * 2 ^ e
  else (2 * Z.pos m + 2 ^ (- e)) / 2 ^ (- e + 1).

(** [std::round]: nearest integer, halfway cases away from zero; the
    result is again a float. *)
Definition round (x : float) : float :=
  match x with
  | S754_finite s m e =>
      if 0 <=? e then x
      else binary_normalize prec emax (cond_Zopp s (round_mag m e)) 0 s
  | _ => x
  end.

(** The value a conversion to an integer type would produce, when the
    float is finite. *)
Definition trunc (x : float) : option Z :=
  match x with
  | S754_zero _ => Some 0
  | S754_finite s m e => Some (cond_Zopp s (trunc_mag m e))
  | _ => None
  end.

(** [static_cast<int>(x)]: truncation toward zero, undefined when the
    truncated value is not representable. *)
Definition to_int32 (x : float) : result Z :=
  match trunc x with
  | Some z => Int32.check z
  | None => Err UndefinedBehaviour
  end.

(** Conversion to a 64-bit integer ([.to(at::kLong)]). *)
Definition to_int64 (x : float) : result Z :=
  match trunc x with
  | Some z => if (- 2 ^ 63 <=? z) && (z <? 2 ^ 63) then Ok z
              else Err UndefinedBehaviour
  | None => Err UndefinedBehaviour
  end.
End F32.

(** ** Geometry types

    [Window] and [Padding] are declared in imageutils.h; their fields are
    the ones this file reads and writes. *)

Record Window : Type := mkWindow { y1 : Z; x1 : Z; y2 : Z; x2 : Z }.

Record Padding : Type := mkPadding {
  top_pad : Z; bottom_pad : Z; left_pad : Z; right_pad : Z;
  front_pad : Z; rear_pad : Z
}.

(** Modelled from the spec: the declaration of [Padding] (imageutils.h) is
    not part of the sources, so the value of a default-constructed
    [Padding padding;] is taken from the specification, which gives
    [{0,0,0,0}] for an image that is not padded. *)
Definition default_padding : Padding := mkPadding 0 0 0 0 0 0.

(** ** Matrices

    A [cv::Mat] with one element of type [A] per pixel: its extent and the
    element at (row, column).  Only indices inside the extent are
    meaningful. *)

Record Mat (A : Type) : Type := mkMat { rows : Z; cols : Z; px : Z -> Z -> A }.
Arguments mkMat {A} rows cols px.
Arguments rows {A} m.
Arguments cols {A} m.
Arguments px {A} m r c.

(** [cv::Size(width, height)]. *)
Record Size : Type := mkSize { width : Z; height : Z }.

Definition in_rect (top left bottom right r c : Z) : bool :=
  (top <=? r) && (r <? bottom) && (left <=? c) && (c <? right).

Section Image.
Context {A : Type}.

(** The border and canvas value, [cv::Scalar(0, 0, 0)]. *)
Variable zero : A.

(** The interpolation kernel of [cv::resize]: [interp src w h r c] is the
    pixel at row [r], column [c] of [src] resized to [w] columns and [h]
    rows.  OpenCV computes it; nothing is assumed about it here. *)
Variable interp : Mat A -> Z -> Z -> Z -> Z -> A.

(** [cv::resize(src, dst, dsize)]: asserts that source and target are
    not empty, and yields a matrix of exactly the requested size. *)
Definition cv_resize (src : Mat A) (dsize : Size) : result (Mat A) :=
  if (0 <? width dsize) && (0 <? height dsize)
     && (0 <? rows src) && (0 <? cols src)
  then Ok (mkMat (height dsize) (width dsize)
                 (interp src (width dsize) (height dsize)))
  else Err CvAssert.

(** [cv::copyMakeBorder(src, dst, top, bottom, left, right,
    cv::BORDER_CONSTANT, zero)]: asserts the four amounts are not
    negative. *)
Definition copyMakeBorder (src : Mat A) (top bottom left right : Z)
  : result (Mat A) :=
  if (0 <=? top) && (0 <=? bottom) && (0 <=? left) && (0 <=? right)
  then Ok (mkMat (rows src + top + bottom) (cols src + left + right)
             (fun r c =>
                if in_rect top left (top + rows src) (left + cols src) r c
                then px src (r - top) (c - left) else zero))
  else Err CvAssert.

(** The scale chosen by [ResizeImage] for an [h] by [w] image. *)
Definition resize_scale (h w min_dim max_dim : Z) : F32.float :=
  let scale := F32.one in
  (* Scale up but not down *)
  let scale :=
    if negb (min_dim =? 0)
    then F32.max F32.one (F32.div (F32.of_Z min_dim) (F32.of_Z (Z.min h w)))
    else scale in
  (* Does it exceed max dim? *)
  if negb (max_dim =? 0)
  then
    let image_max := Z.max h w in
    if F32.gtb (F32.round (F32.mul (F32.of_Z image_max) scale))
               (F32.of_Z max_dim)
    then F32.div (F32.of_Z max_dim) (F32.of_Z image_max)
    else scale
  else scale.

(** The resizing step of [ResizeImage] and of [ResizeMasks]:
    [cv::Size(static_cast<int>(std::round(cols * scale)),
              static_cast<int>(std::round(rows * scale)))]. *)
Definition scaled_size (m : Mat A) (scale : F32.float) : result Size :=
  w' <- F32.to_int32 (F32.round (F32.mul (F32.of_Z (cols m)) scale)) ;;
  h' <- F32.to_int32 (F32.round (F32.mul (F32.of_Z (rows m)) scale)) ;;
  Ok (mkSize w' h').

Definition resize_by (m : Mat A) (scale : F32.float) : result (Mat A) :=
  dsize <- scaled_size m scale ;;
  cv_resize m dsize.

(** The image after the "Resize image and mask" step. *)
Definition resize_step (image : Mat A) (scale : F32.float) : result (Mat A) :=
  if F32.neqb scale F32.one then resize_by image scale else Ok image.

Definition ResizeImage (image : Mat A) (min_dim max_dim : Z) (do_padding : bool)
  : result (Mat A * Window * F32.float * Padding) :=
  (* Default window (y1, x1, y2, x2) and default scale == 1. *)
  let h := rows image in
  let w := cols image in
  let window := mkWindow 0 0 h w in
  let padding := default_padding in
  let scale := resize_scale h w min_dim max_dim in
  image <- resize_step image scale ;;
  (* Need padding? *)
  if do_padding then
    (* Get new height and width *)
    let h := rows image in
    let w := cols image in
    top_pad <- (d <- Int32.sub max_dim h ;; Int32.div d 2) ;;
    bottom_pad <- (d <- Int32.sub max_dim h ;; Int32.sub d top_pad) ;;
    left_pad <- (d <- Int32.sub max_dim w ;; Int32.div d 2) ;;
    right_pad <- (d <- Int32.sub max_dim w ;; Int32.sub d left_pad) ;;
    image <- copyMakeBorder image top_pad bottom_pad left_pad right_pad ;;
    let padding := mkPadding top_pad bottom_pad left_pad right_pad 0 0 in
    y2' <- Int32.add h top_pad ;;
    x2' <- Int32.add w left_pad ;;
    let window := mkWindow top_pad left_pad y2' x2' in
    Ok (image, window, scale, padding)
  else
    Ok (image, window, scale, padding).

(** [ResizeMasks]: one output per input mask, in order. *)
Definition resize_mask (scale : F32.float) (padding : Padding) (mask : Mat A)
  : result (Mat A) :=
  m <- resize_by mask scale ;;
  copyMakeBorder m (top_pad padding) (bottom_pad padding)
                   (left_pad padding) (right_pad padding).

Definition ResizeMasks (masks : list (Mat A)) (scale : F32.float)
           (padding : Padding) : result (list (Mat A)) :=
  mapM (resize_mask scale padding) masks.
End Image.

(** A kernel used to run the functions on concrete inputs: the nearest
    source pixel. *)
Definition nearest {A : Type} (src : Mat A) (w h r c : Z) : A :=
  px src (r * rows src / h) (c * cols src / w).

Definition const_mat {A : Type} (h w : Z) (a : A) : Mat A := mkMat h w (fun _ _ => a).

(** ** Tensors

    A one-dimensional tensor is a list, a two-dimensional tensor the list
    of its rows. *)

Definition zrange (n : Z) : list Z := map Z.of_nat (seq 0 (Z.to_nat n)).

(** [t[i]]: raises when [i] is out of range. *)
Definition select {A : Type} (t : list A) (i : Z) : result A :=
  if (0 <=? i) && (i <? Z.of_nat (length t))
  then match nth_error t (Z.to_nat i) with
       | Some a => Ok a
       | None => Err TorchError
       end
  else Err TorchError.

(** [t.narrow(0, start, len)]. *)
Definition narrow0 {A : Type} (t : list A) (start len : Z) : result (list A) :=
  if (0 <=? start) && (0 <=? len) && (start + len <=? Z.of_nat (length t))
  then Ok (firstn (Z.to_nat len) (skipn (Z.to_nat start) t))
  else Err TorchError.

(** [t.narrow(1, start, len)]: the same columns of every row. *)
Definition narrow1 {A : Type} (t : list (list A)) (start len : Z)
  : result (list (list A)) :=
  mapM (fun row => narrow0 row start len) t.

(** [t.index_select(0, index)]. *)
Definition index_select0 {A : Type} (t : list A) (index : list Z)
  : result (list A) :=
  mapM (select t) index.

Definition map2 {A B C : Type} (f : A -> B -> C) (a : list A) (b : list B)
  : list C :=
  map (fun ab => f (fst ab) (snd ab)) (combine a b).

(** Element-wise operation on two tensors of one shape. *)
Definition tensor_map2 {A B C : Type} (f : A -> B -> C)
           (a : list (list A)) (b : list (list B)) : list (list C) :=
  map2 (map2 f) a b.

(** Element-wise operation of a two-dimensional tensor with a vector
    broadcast along its rows. *)
Definition broadcast_map2 {A B C : Type} (f : A -> B -> C)
           (a : list (list A)) (v : list B) : list (list C) :=
  map (fun row => map2 f row v) a.

Definition tensor_map {A B : Type} (f : A -> B) (a : list (list A))
  : list (list B) :=
  map (map f) a.

Definition tensor_mapM {A B : Type} (f : A -> result B) (a : list (list A))
  : result (list (list B)) :=
  mapM (mapM f) a.

Definition indexed {A : Type} (l : list A) : list (Z * A) :=
  combine (zrange (Z.of_nat (length l))) l.

(** [t.nonzero()] of a two-dimensional boolean tensor: the [row; column]
    index pairs of the true entries, in row-major order. *)
Definition nonzero (t : list (list bool)) : list (list Z) :=
  flat_map (fun ir : Z * list bool =>
              flat_map (fun jb : Z * bool =>
                          if snd jb then [[fst ir; fst jb]] else [])
                       (indexed (snd ir)))
           (indexed t).

(** The result of [squeeze()] on a tensor with one column: every extent
    of 1 is dropped, so a single row leaves a zero-dimensional tensor. *)
Inductive Squeezed (A : Type) : Type :=
| Scalar0 (a : A)
| Vec1 (l : list A).
Arguments Scalar0 {A} a.
Arguments Vec1 {A} l.

Definition squeeze {A : Type} (t : list (list A)) : Squeezed A :=
  match t with
  | [[a]] => Scalar0 a
  | _ => Vec1 (concat t)
  end.

Definition elements {A : Type} (t : Squeezed A) : list A :=
  match t with
  | Scalar0 a => [a]
  | Vec1 l => l
  end.

(** [t.size(0)]: a zero-dimensional tensor has no dimension 0. *)
Definition size0 {A : Type} (t : Squeezed A) : result Z :=
  match t with
  | Scalar0 _ => Err TorchError
  | Vec1 l => Ok (Z.of_nat (length l))
  end.

(** Modelled from the spec: [index_select_2d] (nnutils) is not part of the
    sources.  Following the specification and the comment at its call,
    [[np.arange(N), :, :, class_ids]], entry [k] of the result is the
    low-resolution mask of detection [row_ix[k]] for class [col_ix[k]];
    [masks_nc] holds, per detection, the masks of all classes. *)
Definition index_select_2d {A : Type} (row_ix col_ix : list Z)
           (masks_nc : list (list A)) : result (list A) :=
  if Nat.eqb (length row_ix) (length col_ix)
  then mapM (fun rc => per_class <- select masks_nc (fst rc) ;;
                       select per_class (snd rc))
            (combine row_ix col_ix)
  else Err TorchError.

(** ** Mask decoding *)

(** [saturate_cast<uchar>] of a float: nearest integer, ties to even,
    clamped to [0, 255].  (Only 0 and 255 are ever converted below.) *)
Definition round_even_mag (m : positive) (e : Z) : Z :=
  if 0 <=? e then Z.pos m * 2 ^ e
  else
    let q := Z.pos m / 2 ^ (- e) in
    let r := Z.pos m mod 2 ^ (- e) in
    match 2 * r ?= 2 ^ (- e) with
    | Lt => q
    | Gt => q + 1
    | Eq => if Z.even q then q else q + 1
    end.

Definition saturate_u8 (x : F32.float) : Z :=
  match x with
  | S754_finite false m e => Z.min 255 (round_even_mag m e)
  | _ => 0
  end.

Record Rect : Type := mkRect { rx : Z; ry : Z; rwidth : Z; rheight : Z }.

Section Masks.
(** The kernel of [cv::resize] on single-channel float matrices. *)
Variable interp : Mat F32.float -> Z -> Z -> Z -> Z -> F32.float.

(** [cv::threshold(m, m, thresh, maxval, cv::THRESH_BINARY)]. *)
Definition threshold_binary (thresh maxval : F32.float) (m : Mat F32.float)
  : Mat F32.float :=
  mkMat (rows m) (cols m)
        (fun r c => if F32.gtb (px m r c) thresh then maxval else F32.zero).

(** [m *= k]. *)
Definition mat_scale (k : F32.float) (m : Mat F32.float) : Mat F32.float :=
  mkMat (rows m) (cols m) (fun r c => F32.mul (px m r c) k).

(** [cv::Mat::zeros(size, CV_32FC1)]. *)
Definition mat_zeros (size : Size) : result (Mat F32.float) :=
  if (0 <=? width size) && (0 <=? height size)
  then Ok (mkMat (height size) (width size) (fun _ _ => F32.zero))
  else Err CvAssert.

(** [src.copyTo(dst(roi))].  Taking the region asserts that it lies
    inside [dst].  [copyTo] writes through the region when [src] has the
    region's size; otherwise it allocates a matrix of its own and [dst]
    stays as it was. *)
Definition copy_to_roi (src dst : Mat F32.float) (roi : Rect)
  : result (Mat F32.float) :=
  right <- Int32.add (rx roi) (rwidth roi) ;;
  bottom <- Int32.add (ry roi) (rheight roi) ;;
  if (0 <=? rx roi) && (0 <=? rwidth roi) && (right <=? cols dst)
     && (0 <=? ry roi) && (0 <=? rheight roi) && (bottom <=? rows dst)
  then
    if (rows src =? rheight roi) && (cols src =? rwidth roi)
    then Ok (mkMat (rows dst) (cols dst)
               (fun r c => if in_rect (ry roi) (rx roi) bottom right r c
                           then px src (r - ry roi) (c - rx roi)
                           else px dst r c))
    else Ok dst
  else Err CvAssert.

(** [m.convertTo(m, CV_8UC1)]. *)
Definition convert_u8 (m : Mat F32.float) : Mat Z :=
  mkMat (rows m) (cols m) (fun r c => saturate_u8 (px m r c)).

Definition mask_threshold : F32.float := F32.half.

Definition UnmoldMask (mask : Mat F32.float) (bbox : list Z)
           (image_shape : Size) : result (Mat Z) :=
  y1 <- select bbox 0 ;;
  x1 <- select bbox 1 ;;
  y2 <- select bbox 2 ;;
  x2 <- select bbox 3 ;;
  bw <- Int32.sub x2 x1 ;;
  bh <- Int32.sub y2 y1 ;;
  cv_mask <- cv_resize interp mask (mkSize bw bh) ;;
  let cv_mask := threshold_binary mask_threshold F32.one cv_mask in
  let cv_mask := mat_scale (F32.of_Z 255) cv_mask in
  full_mask <- mat_zeros image_shape ;;
  full_mask <- copy_to_roi cv_mask full_mask (mkRect x1 y1 bw bh) ;;
  Ok (convert_u8 full_mask).
End Masks.

(** ** Detection unmolding *)

(** What [UnmoldDetections] holds when it reaches the mask loop. *)
Record Selection : Type := mkSelection {
  sel_boxes : list (list Z);
  sel_class_ids : Squeezed Z;
  sel_scores : list (list F32.float);
  sel_masks : list (Mat F32.float);
  sel_N : Z
}.

Section Unmold.
Variable interp : Mat F32.float -> Z -> Z -> Z -> Z -> F32.float.

(** [*t.data<uint8_t>()] for a zero-dimensional tensor [t] that stores
    the 64-bit index [i].  The accessor belongs to libtorch; two
    readings of it are given after this section. *)
Variable data_u8 : Z -> result Z.

(** How many detections do we have?  The detections array is padded with
    zeros; find the first class_id == 0. *)
Definition detection_count (detections : list (list F32.float)) : result Z :=
  class_col <- narrow1 detections 4 1 ;;
  let zero_ix := nonzero (tensor_map (fun v => F32.eqb v F32.zero) class_col) in
  match zero_ix with
  | [] =>
      (* zero_ix.size(0) == 0 both times *)
      Ok (Z.of_nat (length detections))
  | first :: _ =>
      (* zero_ix = zero_ix[0]: the index pair of the first zero entry *)
      if 0 <? Z.of_nat (length first)
      then ix <- select first 0 ;; data_u8 ix
      else Ok (Z.of_nat (length detections))
  end.

(** The part of [UnmoldDetections] before the mask loop: extraction,
    translation to the image domain and the area filter.
    [mrcnn_mask] holds, per detection, the masks of all classes. *)
Definition select_detections (detections : list (list F32.float))
           (mrcnn_mask : list (list (Mat F32.float)))
           (image_shape : Size) (window : Window) : result Selection :=
  N <- detection_count detections ;;
  (* Extract boxes, class_ids, scores, and class-specific masks *)
  firstN <- narrow0 detections 0 N ;;
  boxes <- narrow1 firstN 0 4 ;;
  class_col <- narrow1 firstN 4 1 ;;
  class_long <- tensor_mapM F32.to_int64 class_col ;;
  let class_ids := squeeze class_long in
  scores <- narrow1 firstN 5 1 ;;
  masks <- index_select_2d (zrange N) (elements class_ids) mrcnn_mask ;;
  (* Compute scale and shift to translate coordinates to image domain. *)
  dy <- Int32.sub (y2 window) (y1 window) ;;
  dx <- Int32.sub (x2 window) (x1 window) ;;
  let h_scale := F32.div (F32.of_Z (height image_shape)) (F32.of_Z dy) in
  let w_scale := F32.div (F32.of_Z (width image_shape)) (F32.of_Z dx) in
  let scale := F32.min h_scale w_scale in
  let scales := [scale; scale; scale; scale] in
  let shifts := [F32.of_Z (y1 window); F32.of_Z (x1 window);
                 F32.of_Z (y1 window); F32.of_Z (x1 window)] in
  (* Translate bounding boxes to image domain *)
  boxes <- tensor_mapM F32.to_int32
             (broadcast_map2 F32.mul (broadcast_map2 F32.sub boxes shifts)
                             scales) ;;
  (* Filter out detections with zero area. *)
  col2 <- narrow1 boxes 2 1 ;;
  col0 <- narrow1 boxes 0 1 ;;
  col3 <- narrow1 boxes 3 1 ;;
  col1 <- narrow1 boxes 1 1 ;;
  let area := tensor_map2 Int32.wmul (tensor_map2 Int32.wsub col2 col0)
                          (tensor_map2 Int32.wsub col3 col1) in
  let include_ix := nonzero (tensor_map (fun a => 0 <? a) area) in
  include_col <- narrow1 include_ix 0 1 ;;
  let include_ix := squeeze include_col in
  k <- size0 include_ix ;;
  if 0 <? k then
    boxes <- index_select0 boxes (elements include_ix) ;;
    class_sel <- index_select0 (elements class_ids) (elements include_ix) ;;
    let class_ids := Vec1 class_sel in
    scores <- index_select0 scores (elements include_ix) ;;
    masks <- index_select0 masks (elements include_ix) ;;
    N <- size0 class_ids ;;
    Ok (mkSelection boxes class_ids scores masks N)
  else
    (* TODO: make  empty tensors *)
    Ok (mkSelection boxes class_ids scores masks N).

(** Resize masks to original image size and set boundary threshold. *)
Definition unmold_masks (sel : Selection) (image_shape : Size)
  : result (list (Mat Z)) :=
  mapM (fun i => mask <- select (sel_masks sel) i ;;
                 bbox <- select (sel_boxes sel) i ;;
                 UnmoldMask interp mask bbox image_shape)
       (zrange (sel_N sel)).

Definition UnmoldDetections (detections : list (list F32.float))
           (mrcnn_mask : list (list (Mat F32.float)))
           (image_shape : Size) (window : Window)
  : result (list (list Z) * Squeezed Z * list (list F32.float) * list (Mat Z)) :=
  sel <- select_detections detections mrcnn_mask image_shape window ;;
  full_masks_vec <- unmold_masks sel image_shape ;;
  Ok (sel_boxes sel, sel_class_ids sel, sel_scores sel, full_masks_vec).
End Unmold.

(** Two readings of [*t.data<uint8_t>()] on a tensor of 64-bit indices:
    the byte at the element's address on a little-endian host, and an
    accessor that checks the element type and raises. *)
Definition data_u8_low_byte (i : Z) : result Z := Ok (i mod 2 ^ 8).
Definition data_u8_checked (i : Z) : result Z := @Err Z TorchError.

(** ** The specification's wording, for comparison with the code *)

(** "scale = max(1, min_dim / min(height, width))". *)
Definition min_dim_scale (h w min_dim : Z) : F32.float :=
  F32.max F32.one (F32.div (F32.of_Z min_dim) (F32.of_Z (Z.min h w))).

(** The scale after the [min_dim] term. *)
Definition scale_after_min_dim (h w min_dim : Z) : F32.float :=
  if min_dim =? 0 then F32.one else min_dim_scale h w min_dim.

(** "round(max(height, width) * scale)". *)
Definition rounded_long_side (h w : Z) (scale : F32.float) : F32.float :=
  F32.round (F32.mul (F32.of_Z (Z.max h w)) scale).

(** "max_dim / max(height, width)". *)
Definition max_dim_scale (h w max_dim : Z) : F32.float :=
  F32.div (F32.of_Z max_dim) (F32.of_Z (Z.max h w)).

(** "round(cols * scale)", "round(rows * scale)": a side of [n] pixels
    scaled, rounded and converted to [int]. *)
Definition scaled_dim (n : Z) (scale : F32.float) : result Z :=
  F32.to_int32 (F32.round (F32.mul (F32.of_Z n) scale)).

(** *** Detections as typed rows

    A well-shaped detections tensor has six columns; its rows are read as
    records, and [detections_tensor] gives back the tensor. *)

Record Detection : Type := mkDetection {
  det_y1 : F32.float; det_x1 : F32.float; det_y2 : F32.float;
  det_x2 : F32.float; det_class_id : F32.float; det_score : F32.float
}.

Definition row_of (d : Detection) : list F32.float :=
  [det_y1 d; det_x1 d; det_y2 d; det_x2 d; det_class_id d; det_score d].

Definition detections_tensor (ds : list Detection) : list (list F32.float) :=
  map row_of ds.

(** A box of the 32-bit integer tensor [boxes]. *)
Record IntBox : Type := mkIntBox { b_y1 : Z; b_x1 : Z; b_y2 : Z; b_x2 : Z }.

Definition box_row (b : IntBox) : list Z := [b_y1 b; b_x1 b; b_y2 b; b_x2 b].

(** "the index of the first row whose class_id field equals zero (if none
    is zero, N = total rows)". *)
Fixpoint valid_count (ds : list Detection) : Z :=
  match ds with
  | [] => 0
  | d :: ds' =>
      if F32.eqb (det_class_id d) F32.zero then 0 else Z.succ (valid_count ds')
  end.

(** Positions of the true entries of a list, counted from [k]. *)
Fixpoint positions_from (k : Z) (bs : list bool) : list Z :=
  match bs with
  | [] => []
  | b :: bs' =>
      if b then k :: positions_from (Z.succ k) bs'
      else positions_from (Z.succ k) bs'
  end.

(** "h_scale = original_height / (window.y2 - window.y1), w_scale =
    original_width / (window.x2 - window.x1), scale = min(h_scale,
    w_scale)". *)
Definition unmold_scale (image_shape : Size) (window : Window) : F32.float :=
  let h_scale := F32.div (F32.of_Z (height image_shape))
                         (F32.of_Z (y2 window - y1 window)) in
  let w_scale := F32.div (F32.of_Z (width image_shape))
                         (F32.of_Z (x2 window - x1 window)) in
  F32.min h_scale w_scale.

(** One coordinate: shifted, scaled, truncated to integer. *)
Definition remap_coord (shift scale v : F32.float) : result Z :=
  F32.to_int32 (F32.mul (F32.sub v shift) scale).

(** A box shifted by [(sy, sx, sy, sx)] and scaled by one [scale]. *)
Definition remap_box_with (sy sx scale : F32.float) (d : Detection)
  : result IntBox :=
  a <- remap_coord sy scale (det_y1 d) ;;
  b <- remap_coord sx scale (det_x1 d) ;;
  c <- remap_coord sy scale (det_y2 d) ;;
  e <- remap_coord sx scale (det_x2 d) ;;
  Ok (mkIntBox a b c e).

(** "Boxes are shifted by (window.y1, window.x1, window.y1, window.x1)
    then scaled by scale on all four coordinates, truncated to
    integer." *)
Definition remap_box (image_shape : Size) (window : Window) (d : Detection)
  : result IntBox :=
  remap_box_with (F32.of_Z (y1 window)) (F32.of_Z (x1 window))
                 (unmold_scale image_shape window) d.

(** The test of the area filter on one box, in 32-bit arithmetic. *)
Definition positive_area (b : IntBox) : bool :=
  0 <? Int32.wmul (Int32.wsub (b_y2 b) (b_y1 b)) (Int32.wsub (b_x2 b) (b_x1 b)).

(** A detection whose remapped box passes the area filter. *)
Definition retained (image_shape : Size) (window : Window) (d : Detection)
  : bool :=
  match remap_box image_shape window d with
  | Ok b => positive_area b
  | Err _ => false
  end.

(** [subseq l1 l2]: [l1] is [l2] with some elements left out. *)
Inductive subseq {A : Type} : list A -> list A -> Prop :=
| subseq_nil : subseq [] []
| subseq_skip (a : A) (l1 l2 : list A) : subseq l1 l2 -> subseq l1 (a :: l2)
| subseq_keep (a : A) (l1 l2 : list A) : subseq l1 l2 -> subseq (a :: l1) (a :: l2).

(** A side of [n] pixels after two successive scalings, each rounded. *)
Definition scaled_twice (n : Z) (s1 s2 : F32.float) : result Z :=
  n1 <- scaled_dim n s1 ;; scaled_dim n1 s2.

(** A mask that [ResizeMasks] can resize by [scale]: it is not empty and
    neither are its scaled sides. *)
Definition resizable {A : Type} (scale : F32.float) (mask : Mat A) : Prop :=
  0 < rows mask /\ 0 < cols mask
  /\ exists w' h', scaled_dim (cols mask) scale = Ok w'
                  /\ scaled_dim (rows mask) scale = Ok h'
                  /\ 0 < w' /\ 0 < h'.

(** The box [y1, x1, y2, x2] has positive sides and lies inside an image
    of the given size. *)
Definition box_in_image (image_shape : Size) (y1 x1 y2 x2 : Z) : Prop :=
  0 <= x1 /\ x1 < x2 /\ x2 <= width image_shape
  /\ 0 <= y1 /\ y1 < y2 /\ y2 <= height image_shape.

(** Every pixel inside the extent of [m] equals [v]. *)
Definition all_px {A : Type} (v : A) (m : Mat A) : Prop :=
  forall r c, 0 <= r < rows m -> 0 <= c < cols m -> px m r c = v.

(** The one property of the interpolation kernel that the all-ones case
    rests on: resizing a non-empty matrix of ones gives values above one
    half. *)
Definition ones_stay_above_half
           (interp : Mat F32.float -> Z -> Z -> Z -> Z -> F32.float) : Prop :=
  forall m w h r c,
    0 < rows m -> 0 < cols m -> all_px F32.one m ->
    0 <= r < h -> 0 <= c < w ->
    F32.gtb (interp m w h r c) F32.half = true.

(** A pixel of the decoded mask: 255 where the resized mask exceeds the
    threshold inside the box, 0 elsewhere. *)
Definition decoded_px
           (interp : Mat F32.float -> Z -> Z -> Z -> Z -> F32.float)
           (mask : Mat F32.float) (y1 x1 y2 x2 r c : Z) : Z :=
  if in_rect y1 x1 y2 x2 r c
  then if F32.gtb (interp mask (x2 - x1) (y2 - y1) (r - y1) (c - x1)) F32.half
       then 255 else 0
  else 0.

(** Number of pixels of [m] that satisfy [p]. *)
Definition count_px {A : Type} (p : A -> bool) (m : Mat A) : Z :=
  Z.of_nat (length (filter (fun rc : Z * Z => p (px m (fst rc) (snd rc)))
                           (list_prod (zrange (rows m)) (zrange (cols m))))).

(** ** Concrete inputs *)

Module Examples.
(** A 100 x 100 image whose pixels all hold 7. *)
Definition image100 : Mat Z := const_mat 100 100 7.

(** A 600 x 800 image. *)
Definition image600x800 : Mat Z := const_mat 600 800 7.

(** A 10 x 10 mask and the scales 1/4 and 10. *)
Definition mask10 : Mat Z := const_mat 10 10 1.
Definition quarter : F32.float := Eval cbv in F32.div (F32.of_Z 1) (F32.of_Z 4).
Definition ten : F32.float := Eval cbv in F32.of_Z 10.
Definition no_padding : Padding := mkPadding 0 0 0 0 0 0.

(** A 2 x 2 low-resolution mask of ones. *)
Definition ones2 : Mat F32.float := const_mat 2 2 F32.one.
(** Detections: a row [y1, x1, y2, x2, class_id, score] of integers with
    score one half. *)
Definition detection (a b c d cls : Z) : Detection :=
  mkDetection (F32.of_Z a) (F32.of_Z b) (F32.of_Z c) (F32.of_Z d)
              (F32.of_Z cls) F32.half.

(** Low-resolution masks for [n] detections and three classes. *)
Definition mask_stack (n : nat) : list (list (Mat F32.float)) :=
  repeat [ones2; ones2; ones2] n.

(** An image 5 wide and 4 high, molded without scaling or padding. *)
Definition shape5x4 : Size := mkSize 5 4.
Definition window5x4 : Window := mkWindow 0 0 4 5.

(** A row of the zero padding. *)
Definition padding_row : Detection :=
  mkDetection F32.zero F32.zero F32.zero F32.zero F32.zero F32.zero.

(** Two real detections followed by a row of padding. *)
Definition two_boxes : list Detection :=
  [detection 0 0 2 2 1; detection 1 1 3 4 2; padding_row].

(** Two real detections whose boxes have no area. *)
Definition two_empty_boxes : list Detection :=
  [detection 0 0 0 0 1; detection 2 2 2 2 2].

(** Two real detections whose boxes reach beyond the 5 x 4 image. *)
Definition two_large_boxes : list Detection :=
  [detection 0 0 20 20 1; detection 1 1 30 40 2].

(** 256 real detections followed by one row of padding. *)
Definition buffer257 : list Detection :=
  repeat (detection 0 0 1 1 1) 256 ++ [padding_row].
End Examples.

(** ** Molding: three-channel images and the network input *)

(** A pixel of a three-channel matrix, channels in storage order. *)
Record Vec3 (A : Type) : Type := mkVec3 { ch0 : A; ch1 : A; ch2 : A }.
Arguments mkVec3 {A} ch0 ch1 ch2.
Arguments ch0 {A} v.
Arguments ch1 {A} v.
Arguments ch2 {A} v.

Definition channel {A : Type} (k : Z) (v : Vec3 A) : A :=
  if k =? 0 then ch0 v else if k =? 1 then ch1 v else ch2 v.

(** Plane [k] of [cv::split(image, planes)]. *)
Definition split_channel {A : Type} (k : Z) (m : Mat (Vec3 A)) : Mat A :=
  mkMat (rows m) (cols m) (fun r c => channel k (px m r c)).

(** [cv::vconcat(a, b, dst)]: [b] below [a]; asserts equal widths. *)
Definition vconcat {A : Type} (a b : Mat A) : result (Mat A) :=
  if cols a =? cols b
  then Ok (mkMat (rows a + rows b) (cols a)
             (fun r c => if r <? rows a then px a r c else px b (r - rows a) c))
  else Err CvAssert.

(** Element [k] of the row-major buffer of a continuous matrix. *)
Definition buffer_at {A : Type} (m : Mat A) (k : Z) : A :=
  px m (k / cols m) (k mod cols m).

(** A float tensor of three dimensions: its sizes and the element at
    (channel, row, column). *)
Record Tensor3 : Type := mkTensor3 {
  t_channels : Z; t_height : Z; t_width : Z;
  t_at : Z -> Z -> Z -> F32.float
}.

(** [torch::from_blob(m.data, {c, h, w}, float).clone()]: the buffer of
    [m] read as a contiguous tensor of the given sizes. *)
Definition from_blob (m : Mat F32.float) (c h w : Z) : Tensor3 :=
  mkTensor3 c h w (fun ci r x => buffer_at m ((ci * h + r) * w + x)).

(** [CvImageToTensor] on an image whose elements are floats, as
    [MoldInputs] passes it: the blob given to [from_blob] is the one of
    [channelsConcatenated], read as floats.  The channel count is 3 by
    the type of the pixels; a matrix just created is continuous. *)
Definition CvImageToTensor (image : Mat (Vec3 F32.float)) : result Tensor3 :=
  let bgr (k : Z) := split_channel k image in
  channelsConcatenated <- vconcat (bgr 2) (bgr 1) ;;
  channelsConcatenated <- vconcat channelsConcatenated (bgr 0) ;;
  Ok (from_blob channelsConcatenated 3 (rows image) (cols image)).

(** Modelled from the spec: [Config] is declared outside the sources; its
    fields are the ones this file reads, with the types the specification
    gives ([mean_pixel] is three floats, [mean_pixel_k] standing for
    [mean_pixel[k]]; [num_classes] is a count). *)
Record Config : Type := mkConfig {
  image_min_dim : Z;
  image_max_dim : Z;
  image_padding : bool;
  mean_pixel_0 : F32.float;
  mean_pixel_1 : F32.float;
  mean_pixel_2 : F32.float;
  num_classes : nat;
  gpu_count : Z
}.

(** [MoldImage]: [image -= cv::Scalar(mean_pixel[2], mean_pixel[1],
    mean_pixel[0])], channel by channel. *)
Definition MoldImage (image : Mat (Vec3 F32.float)) (config : Config)
  : Mat (Vec3 F32.float) :=
  let mean := mkVec3 (mean_pixel_2 config) (mean_pixel_1 config)
                     (mean_pixel_0 config) in
  mkMat (rows image) (cols image)
        (fun r c => mkVec3 (F32.sub (ch0 (px image r c)) (ch0 mean))
                           (F32.sub (ch1 (px image r c)) (ch1 mean))
                           (F32.sub (ch2 (px image r c)) (ch2 mean))).

(** [m.convertTo(m, CV_32FC3)] on an image of 8-bit samples. *)
Definition convert_to_float (m : Mat (Vec3 Z)) : Mat (Vec3 F32.float) :=
  mkMat (rows m) (cols m)
        (fun r c => mkVec3 (F32.of_Z (ch0 (px m r c)))
                           (F32.of_Z (ch1 (px m r c)))
                           (F32.of_Z (ch2 (px m r c)))).

(** Modelled from the spec: [ImageMeta] (imageutils.h) is not part of the
    sources; it is built positionally from a zero, the rows and columns of
    the image as decoded, the window, and [num_classes] zeros. *)
Record ImageMeta : Type := mkImageMeta {
  image_id : Z;
  image_height : Z;
  image_width : Z;
  meta_window : Window;
  active_class_ids : list Z
}.

(** A batch: a float tensor of four dimensions. *)
Record Batch : Type := mkBatch {
  batch_size : Z; batch_channels : Z; batch_height : Z; batch_width : Z;
  batch_at : Z -> Z -> Z -> Z -> F32.float
}.

Definition same_shape (a b : Tensor3) : bool :=
  (t_channels a =? t_channels b) && (t_height a =? t_height b)
  && (t_width a =? t_width b).

(** [torch::stack(tensors)]: raises on an empty list and on tensors of
    different sizes. *)
Definition stack (tensors : list Tensor3) : result Batch :=
  match tensors with
  | [] => Err TorchError
  | t :: rest =>
      if forallb (same_shape t) rest
      then Ok (mkBatch (Z.of_nat (length tensors))
                 (t_channels t) (t_height t) (t_width t)
                 (fun i c r x =>
                    match nth_error tensors (Z.to_nat i) with
                    | Some ti => t_at ti c r x
                    | None => F32.zero
                    end))
      else Err TorchError
  end.

Section Mold.
(** The kernel of [cv::resize] on three-channel 8-bit images. *)
Variable interp : Mat (Vec3 Z) -> Z -> Z -> Z -> Z -> Vec3 Z.

(** [tensor.cuda()]: the transfer to device memory, done by libtorch. *)
Variable to_cuda : Batch -> result Batch.

(** The body of the loop of [MoldInputs] for one image: the tensor, the
    meta and the window appended for it. *)
Definition mold_input (config : Config) (image : Mat (Vec3 Z))
  : result (Tensor3 * ImageMeta * Window) :=
  (* Resize image to fit the model expected size *)
  resized <- ResizeImage (mkVec3 0 0 0) interp image (image_min_dim config)
               (image_max_dim config) (image_padding config) ;;
  let '(molded_image, window, _, _) := resized in
  let molded_image := convert_to_float molded_image in
  let molded_image := MoldImage molded_image config in
  (* Build image_meta *)
  let image_meta := mkImageMeta 0 (rows image) (cols image) window
                                (repeat 0 (num_classes config)) in
  (* To tensor *)
  img_t <- CvImageToTensor molded_image ;;
  Ok (img_t, image_meta, window).

Definition MoldInputs (images : list (Mat (Vec3 Z))) (config : Config)
  : result (Batch * list ImageMeta * list Window) :=
  molded <- mapM (mold_input config) images ;;
  let molded_images := map (fun m => fst (fst m)) molded in
  let image_metas := map (fun m => snd (fst m)) molded in
  let windows := map (fun m => snd m) molded in
  (* Pack into arrays *)
  tensor_images <- stack molded_images ;;
  (* To GPU *)
  tensor_images <- (if 0 <? gpu_count config then to_cuda tensor_images
                    else Ok tensor_images) ;;
  Ok (tensor_images, image_metas, windows).
End Mold.

(** Inputs for running the molding functions. *)
Module MoldExamples.
(** A 2 x 3 image whose pixel at (r, c) holds (10 r + c, 100, 200). *)
Definition image2x3 : Mat (Vec3 Z) :=
  mkMat 2 3 (fun r c => mkVec3 (10 * r + c) 100 200).

(** A 3 x 2 image. *)
Definition image3x2 : Mat (Vec3 Z) :=
  mkMat 3 2 (fun r c => mkVec3 (10 * r + c) 100 200).

(** No scaling, no padding, means (1, 2, 3), host memory. *)
Definition plain_config : Config :=
  mkConfig 0 0 false (F32.of_Z 1) (F32.of_Z 2) (F32.of_Z 3) 4 0.

(** No scaling, padding to 4 x 4. *)
Definition padded_config : Config :=
  mkConfig 0 4 true (F32.of_Z 1) (F32.of_Z 2) (F32.of_Z 3) 4 0.

(** A transfer that never succeeds (no device). *)
Definition no_device (b : Batch) : result Batch := @Err Batch TorchError.
End MoldExamples.

(** Inputs for running the unmolding functions. *)
Module UnmoldExamples.
(** Two real detections, of which only the first has a box with area. *)
Definition one_good_box : list Detection :=
  [Examples.detection 0 0 2 2 1; Examples.detection 1 1 1 4 2].

(** Two real detections, a row of padding, and a leftover row after it. *)
Definition leftover_after_padding : list Detection :=
  [Examples.detection 0 0 2 2 1; Examples.detection 1 1 3 4 2;
   Examples.padding_row; Examples.detection 5 5 9 9 1].
End UnmoldExamples.

(** * Properties *)

(** ** Bookkeeping lemmas *)

Lemma bind_ok {A B : Type} (r : result A) (k : A -> result B) (b : B) :
  bind r k = Ok b -> exists a, r = Ok a /\ k a = Ok b.
Proof.
  destruct r as [a | e]; simpl; intros H; [exists a; auto | discriminate].
Qed.

Lemma check_in_range (z : Z) :
  Int32.min_signed <= z <= Int32.max_signed -> Int32.check z = Ok z.
Proof.
  intros [Hlo Hhi]. unfold Int32.check, Int32.in_range.
  apply Z.leb_le in Hlo. apply Z.leb_le in Hhi.
  now rewrite Hlo, Hhi.
Qed.

Lemma check_ok (z v : Z) :
  Int32.check z = Ok v -> v = z /\ Int32.min_signed <= z <= Int32.max_signed.
Proof.
  unfold Int32.check, Int32.in_range.
  destruct (Int32.min_signed <=? z) eqn:Hlo; destruct (z <=? Int32.max_signed) eqn:Hhi;
    simpl; intros H; inversion H; subst.
  apply Z.leb_le in Hlo. apply Z.leb_le in Hhi. auto.
Qed.

(** Tactics for the tests and range checks of the model. *)

Ltac leb_true a b :=
  replace (a <=? b) with true by (symmetry; apply Z.leb_le; lia).

Ltac ltb_true a b :=
  replace (a <? b) with true by (symmetry; apply Z.ltb_lt; lia).

Ltac in_range z :=
  rewrite (check_in_range z)
    by (unfold Int32.min_signed, Int32.max_signed; lia).

Ltac tests_to_props :=
  repeat match goal with
         | H : _ && _ = true |- _ => apply andb_true_iff in H as [? ?]
         | H : (_ <=? _) = true |- _ => apply Z.leb_le in H
         | H : (_ <? _) = true |- _ => apply Z.ltb_lt in H
         | H : (_ =? _) = true |- _ => apply Z.eqb_eq in H
         end.

(** ** Comparison of floats *)

Lemma compare_cont_swap (p q : positive) :
  Pos.compare_cont Eq q p = CompOpp (Pos.compare_cont Eq p q).
Proof. symmetry. exact (Pos.compare_cont_antisym p q Eq). Qed.

Lemma SFcompare_antisym (a b : spec_float) :
  SFcompare b a = option_map CompOpp (SFcompare a b).
Proof.
  destruct a as [sa | sa | | sa ma ea], b as [sb | sb | | sb mb eb];
    simpl; try reflexivity;
    try (destruct sa; reflexivity); try (destruct sb; reflexivity);
    try (destruct sa, sb; reflexivity).
  destruct sa, sb; simpl; try reflexivity;
    rewrite (Z.compare_antisym ea eb); destruct (ea ?= eb) eqn:He; simpl;
      try reflexivity; f_equal.
  - now rewrite (compare_cont_swap ma mb).
  - now rewrite (compare_cont_swap ma mb).
Qed.

Lemma leb_not_gtb (a b : F32.float) :
  F32.leb a b = true -> F32.gtb a b = false.
Proof.
  unfold F32.leb, F32.gtb, F32.ltb, SFleb, SFltb.
  rewrite (SFcompare_antisym a b).
  destruct (SFcompare a b) as [[ | | ] | ]; simpl; congruence.
Qed.

Lemma ltb_leb (a b : F32.float) : F32.ltb a b = true -> F32.leb a b = true.
Proof.
  unfold F32.leb, F32.ltb, SFleb, SFltb.
  destruct (SFcompare a b) as [[ | | ] | ]; congruence.
Qed.

Lemma max_one_ge (x : F32.float) : F32.leb F32.one (F32.max F32.one x) = true.
Proof.
  unfold F32.max. destruct (F32.ltb F32.one x) eqn:H.
  - now apply ltb_leb.
  - reflexivity.
Qed.

(** ** ResizeImage: the scale *)

(** C5: the scale [ResizeImage] returns for an [h] x [w] image is
    computed as follows.  With [min_dim] nonzero it is first
    [max(1, min_dim / min(h, w))], which is never below 1; with [max_dim]
    nonzero, when [round(max(h, w) * scale)] exceeds [max_dim] the scale
    becomes [max_dim / max(h, w)], and when it is at most [max_dim] (or
    [max_dim] is zero) the scale is left as it was. *)
Theorem resize_scale_spec {A : Type} (zero : A)
        (interp : Mat A -> Z -> Z -> Z -> Z -> A) (image : Mat A)
        (min_dim max_dim : Z) (do_padding : bool) :
  let h := rows image in
  let w := cols image in
  let s := scale_after_min_dim h w min_dim in
  (forall out window scale padding,
      ResizeImage zero interp image min_dim max_dim do_padding
      = Ok (out, window, scale, padding) ->
      scale = resize_scale h w min_dim max_dim)
  /\ (min_dim <> 0 ->
      s = F32.max F32.one (F32.div (F32.of_Z min_dim) (F32.of_Z (Z.min h w))))
  /\ F32.leb F32.one s = true
  /\ (max_dim <> 0 ->
      F32.gtb (rounded_long_side h w s) (F32.of_Z max_dim) = true ->
      resize_scale h w min_dim max_dim = max_dim_scale h w max_dim)
  /\ (max_dim <> 0 ->
      F32.leb (rounded_long_side h w s) (F32.of_Z max_dim) = true ->
      resize_scale h w min_dim max_dim = s)
  /\ (max_dim = 0 -> resize_scale h w min_dim max_dim = s).
Proof.
  intros h w s. subst s.
  split.
  { intros out window scale padding H. unfold ResizeImage in H.
    apply bind_ok in H as (resized & _ & H).
    destruct do_padding.
    - repeat (apply bind_ok in H as (? & _ & H)). now inversion H.
    - now inversion H. }
  unfold scale_after_min_dim, resize_scale, rounded_long_side,
    max_dim_scale, min_dim_scale.
  split; [ | split; [ | split; [ | split]]].
  - intros Hmin. apply Z.eqb_neq in Hmin. now rewrite Hmin.
  - destruct (min_dim =? 0); [reflexivity | apply max_one_ge].
  - intros Hmax Hgt. apply Z.eqb_neq in Hmax. rewrite Hmax. simpl.
    destruct (min_dim =? 0); simpl in *; now rewrite Hgt.
  - intros Hmax Hle. apply Z.eqb_neq in Hmax. rewrite Hmax. simpl.
    apply leb_not_gtb in Hle.
    destruct (min_dim =? 0); simpl in *; now rewrite Hle.
  - intros ->. simpl. destruct (min_dim =? 0); reflexivity.
Qed.

Lemma resize_scale_spec_witness :
  resize_scale 600 800 800 1024 = max_dim_scale 600 800 1024
  /\ resize_scale 600 800 800 2000 = scale_after_min_dim 600 800 800
  /\ resize_scale 600 800 800 0 = scale_after_min_dim 600 800 800
  /\ scale_after_min_dim 600 800 800
     = F32.max F32.one (F32.div (F32.of_Z 800) (F32.of_Z (Z.min 600 800)))
  /\ exists out window padding,
       ResizeImage 0 nearest Examples.image600x800 800 1024 true
       = Ok (out, window, resize_scale 600 800 800 1024, padding).
Proof.
  destruct (resize_scale_spec 0 nearest Examples.image600x800 800 1024 true)
    as (Hrun & Hmin & _ & Hshrink & _ & _).
  destruct (resize_scale_spec 0 nearest Examples.image600x800 800 2000 true)
    as (_ & _ & _ & _ & Hkeep & _).
  destruct (resize_scale_spec 0 nearest Examples.image600x800 800 0 true)
    as (_ & _ & _ & _ & _ & Hoff).
  split; [apply Hshrink; [lia | reflexivity] | ].
  split; [apply Hkeep; [lia | reflexivity] | ].
  split; [apply Hoff; reflexivity | ].
  split; [apply Hmin; lia | ].
  destruct (ResizeImage 0 nearest Examples.image600x800 800 1024 true)
    as [[[[out window] scale] padding] | e] eqn:Hres.
  - exists out, window, padding. now rewrite (Hrun out window scale padding).
  - exfalso. revert Hres. vm_compute. discriminate.
Defined.

(** ** ResizeImage without padding *)

Lemma resize_step_one {A : Type} (interp : Mat A -> Z -> Z -> Z -> Z -> A)
      (image : Mat A) :
  resize_step interp image F32.one = Ok image.
Proof. reflexivity. Qed.

(** C6: with [min_dim = 0], [max_dim = 0] and no padding requested,
    [ResizeImage] returns the image itself, scale 1, the window
    [{0, 0, h, w}] of the image and the padding [{0, 0, 0, 0}]. *)
Theorem resize_image_disabled {A : Type} (zero : A)
        (interp : Mat A -> Z -> Z -> Z -> Z -> A) (image : Mat A) :
  ResizeImage zero interp image 0 0 false
  = Ok (image, mkWindow 0 0 (rows image) (cols image), F32.one,
        mkPadding 0 0 0 0 0 0).
Proof.
  unfold ResizeImage.
  change (resize_scale (rows image) (cols image) 0 0) with F32.one.
  rewrite resize_step_one. reflexivity.
Qed.

(** Without padding the window is built from the extent of the image as
    it was passed in; the resizing step does not touch it. *)
Lemma resize_image_no_padding {A : Type} (zero : A)
      (interp : Mat A -> Z -> Z -> Z -> Z -> A) (image : Mat A)
      (min_dim max_dim : Z) :
  ResizeImage zero interp image min_dim max_dim false
  = resized <- resize_step interp image
                 (resize_scale (rows image) (cols image) min_dim max_dim) ;;
    Ok (resized, mkWindow 0 0 (rows image) (cols image),
        resize_scale (rows image) (cols image) min_dim max_dim,
        default_padding).
Proof. reflexivity. Qed.

(** C3, at a 100 x 100 image with [min_dim = 200], [max_dim = 0] and no
    padding: the image returned is 200 x 200 and the scale is 2, yet the
    window returned is [{0, 0, 100, 100}], the extent before scaling, not
    the [{0, 0, 200, 200}] of the resized image. *)
Theorem resize_image_window_not_rescaled :
  exists resized,
    ResizeImage 0 nearest Examples.image100 200 0 false
    = Ok (resized, mkWindow 0 0 100 100, F32.of_Z 2, default_padding)
    /\ rows resized = 200 /\ cols resized = 200
    /\ mkWindow 0 0 100 100 <> mkWindow 0 0 (rows resized) (cols resized).
Proof.
  eexists. split; [reflexivity | ].
  split; [reflexivity | ]. split; [reflexivity | ].
  simpl. intros H. inversion H.
Qed.

(** ** ResizeImage with padding *)

(** C7: with padding requested and a resized image of [h] rows and [w]
    columns that fits in [max_dim] both ways, the result is a
    [max_dim] x [max_dim] canvas; the top and left paddings are the floors
    of half the missing rows and columns, the bottom and right paddings
    the rest; the window is [{top, left, h + top, w + left}]; inside the
    window the canvas shows the resized image and everywhere else the zero
    border value. *)
Theorem resize_image_padding {A : Type} (zero : A)
        (interp : Mat A -> Z -> Z -> Z -> Z -> A) (image resized : Mat A)
        (min_dim max_dim : Z) :
  let scale := resize_scale (rows image) (cols image) min_dim max_dim in
  let h := rows resized in
  let w := cols resized in
  let top := (max_dim - h) / 2 in
  let bottom := max_dim - h - top in
  let left := (max_dim - w) / 2 in
  let right := max_dim - w - left in
  resize_step interp image scale = Ok resized ->
  0 <= h <= max_dim -> 0 <= w <= max_dim -> max_dim <= Int32.max_signed ->
  exists canvas,
    ResizeImage zero interp image min_dim max_dim true
    = Ok (canvas, mkWindow top left (h + top) (w + left), scale,
          mkPadding top bottom left right 0 0)
    /\ rows canvas = max_dim /\ cols canvas = max_dim
    /\ 0 <= top /\ top <= bottom <= top + 1
    /\ 0 <= left /\ left <= right <= left + 1
    /\ (forall r c,
          px canvas r c
          = if in_rect top left (h + top) (w + left) r c
            then px resized (r - top) (c - left) else zero).
Proof.
  intros scale h w top bottom left right Hstep Hh Hw Hmax.
  assert (Htop : Z.quot (max_dim - h) 2 = top)
    by (apply Z.quot_div_nonneg; lia).
  assert (Hleft : Z.quot (max_dim - w) 2 = left)
    by (apply Z.quot_div_nonneg; lia).
  assert (Htop2 : 2 * top <= max_dim - h < 2 * top + 2)
    by (unfold top; pose proof (Z.mul_div_le (max_dim - h) 2);
        pose proof (Z.mul_succ_div_gt (max_dim - h) 2); lia).
  assert (Hleft2 : 2 * left <= max_dim - w < 2 * left + 2)
    by (unfold left; pose proof (Z.mul_div_le (max_dim - w) 2);
        pose proof (Z.mul_succ_div_gt (max_dim - w) 2); lia).
  unfold Int32.max_signed in Hmax.
  unfold ResizeImage. fold scale. rewrite Hstep. simpl bind.
  fold h w. unfold Int32.sub, Int32.add, Int32.div. simpl (2 =? 0).
  cbv iota.
  in_range (max_dim - h). in_range (max_dim - w). simpl bind.
  rewrite Htop, Hleft.
  in_range top. simpl bind. in_range (max_dim - h - top). simpl bind.
  in_range left. simpl bind. in_range (max_dim - w - left). simpl bind.
  unfold copyMakeBorder. fold h w bottom right.
  leb_true 0 top. leb_true 0 bottom. leb_true 0 left. leb_true 0 right.
  simpl bind.
  in_range (h + top). in_range (w + left). simpl bind.
  eexists. split; [reflexivity | ]. simpl.
  repeat split; try lia.
  intros r c.
  replace (top + h) with (h + top) by lia.
  replace (left + w) with (w + left) by lia.
  reflexivity.
Qed.

Lemma resize_image_padding_witness :
  exists canvas,
    ResizeImage 0 nearest Examples.image600x800 800 1024 true
    = Ok (canvas, mkWindow 128 0 896 1024,
          resize_scale 600 800 800 1024, mkPadding 128 128 0 0 0 0)
    /\ rows canvas = 1024 /\ cols canvas = 1024.
Proof.
  destruct (resize_image_padding 0 nearest Examples.image600x800
              (mkMat 768 1024 (nearest Examples.image600x800 1024 768))
              800 1024)
    as (canvas & Hrun & Hrows & Hcols & _);
    [reflexivity | simpl; lia | simpl; lia
     | unfold Int32.max_signed; lia | ].
  exists canvas. split; [exact Hrun | split; assumption].
Defined.

(** ** Lists, ranges and counting *)

Lemma mapM_Forall2 {A B : Type} (f : A -> result B) (l : list A) (out : list B) :
  mapM f l = Ok out <-> Forall2 (fun a b => f a = Ok b) l out.
Proof.
  revert out. induction l as [ | a l IH]; intros out; simpl.
  - split; intros H; [inversion H; constructor | inversion H; reflexivity].
  - split.
    + intros H. apply bind_ok in H as (b & Hb & H).
      apply bind_ok in H as (bs & Hbs & H). inversion H; subst.
      constructor; [assumption | now apply IH].
    + intros H. inversion H as [ | a' b l' bs Hb Hbs]; subst.
      rewrite Hb. simpl. apply IH in Hbs. rewrite Hbs. reflexivity.
Qed.

Lemma mapM_total {A B : Type} (f : A -> result B) (l : list A) :
  Forall (fun a => exists b, f a = Ok b) l -> exists out, mapM f l = Ok out.
Proof.
  induction 1 as [ | a l [b Hb] _ [out Hout]]; simpl.
  - now exists [].
  - exists (b :: out). now rewrite Hb, Hout.
Qed.

Lemma in_zrange (n z : Z) : In z (zrange n) <-> 0 <= z < n.
Proof.
  unfold zrange. rewrite in_map_iff. split.
  - intros (k & <- & Hk). apply in_seq in Hk. lia.
  - intros Hz. exists (Z.to_nat z). split; [lia | apply in_seq; lia].
Qed.

Lemma length_zrange (n : Z) : length (zrange n) = Z.to_nat n.
Proof. unfold zrange. now rewrite length_map, length_seq. Qed.

Lemma count_interval_seq (a b : Z) (n : nat) :
  0 <= a ->
  length (filter (fun z => (a <=? z) && (z <? b)) (map Z.of_nat (seq 0 n)))
  = Z.to_nat (Z.min b (Z.of_nat n) - a).
Proof.
  intros Ha. induction n as [ | n IH].
  - simpl. lia.
  - rewrite seq_S, map_app, filter_app, length_app, IH. simpl.
    destruct (a <=? Z.of_nat n) eqn:H1; destruct (Z.of_nat n <? b) eqn:H2;
      simpl;
      try apply Z.leb_le in H1; try apply Z.leb_gt in H1;
      try apply Z.ltb_lt in H2; try apply Z.ltb_ge in H2; lia.
Qed.

Lemma count_interval (a b n : Z) :
  0 <= a -> a <= b -> b <= n ->
  length (filter (fun z => (a <=? z) && (z <? b)) (zrange n)) = Z.to_nat (b - a).
Proof.
  intros Ha Hab Hbn. unfold zrange. rewrite count_interval_seq by assumption.
  f_equal. lia.
Qed.

Lemma count_product {A B : Type} (f : A -> bool) (g : B -> bool)
      (la : list A) (lb : list B) :
  length (filter (fun ab : A * B => f (fst ab) && g (snd ab)) (list_prod la lb))
  = (length (filter f la) * length (filter g lb))%nat.
Proof.
  induction la as [ | a la IH]; simpl; [reflexivity | ].
  rewrite filter_app, length_app, IH.
  assert (Hrow : length (filter (fun ab : A * B => f (fst ab) && g (snd ab))
                                (map (fun y => (a, y)) lb))
                 = if f a then length (filter g lb) else 0%nat).
  { clear IH. induction lb as [ | b lb IHb]; simpl.
    - now destruct (f a).
    - destruct (f a); simpl in *; [ | assumption].
      destruct (g b); simpl; now rewrite IHb. }
  rewrite Hrow. destruct (f a); simpl; lia.
Qed.

(** Pixels inside a rectangle that lies in the extent of a matrix. *)
Lemma count_px_rect {A : Type} (p : A -> bool) (m : Mat A) (top left bottom right : Z) :
  0 <= top -> top <= bottom -> bottom <= rows m ->
  0 <= left -> left <= right -> right <= cols m ->
  (forall r c, p (px m r c) = in_rect top left bottom right r c) ->
  count_px p m = (bottom - top) * (right - left).
Proof.
  intros Ht Htb Hb Hl Hlr Hr Hp. unfold count_px.
  rewrite (filter_ext _ (fun rc : Z * Z =>
             ((top <=? fst rc) && (fst rc <? bottom))
             && ((left <=? snd rc) && (snd rc <? right)))).
  - rewrite (count_product (fun r => (top <=? r) && (r <? bottom))
                           (fun c => (left <=? c) && (c <? right))).
    rewrite !count_interval by assumption.
    rewrite Nat2Z.inj_mul, !Z2Nat.id by lia. reflexivity.
  - intros [r c]. simpl. rewrite Hp. unfold in_rect.
    now rewrite <- !andb_assoc.
Qed.

(** ** UnmoldMask *)

Lemma unmold_mask_unfold
      (interp : Mat F32.float -> Z -> Z -> Z -> Z -> F32.float)
      (mask : Mat F32.float) (y1 x1 y2 x2 : Z) (image_shape : Size) :
  UnmoldMask interp mask [y1; x1; y2; x2] image_shape
  = bw <- Int32.sub x2 x1 ;;
    bh <- Int32.sub y2 y1 ;;
    cv_mask <- cv_resize interp mask (mkSize bw bh) ;;
    full_mask <- mat_zeros image_shape ;;
    full_mask <- copy_to_roi
                   (mat_scale (F32.of_Z 255)
                      (threshold_binary mask_threshold F32.one cv_mask))
                   full_mask (mkRect x1 y1 bw bh) ;;
    Ok (convert_u8 full_mask).
Proof. reflexivity. Qed.

(** [UnmoldMask] succeeds on a box inside the image, and its output is
    the decoded mask on a canvas of the image size. *)
Lemma unmold_mask_defined
      (interp : Mat F32.float -> Z -> Z -> Z -> Z -> F32.float)
      (mask : Mat F32.float) (y1 x1 y2 x2 : Z) (image_shape : Size) :
  0 < rows mask -> 0 < cols mask ->
  box_in_image image_shape y1 x1 y2 x2 ->
  width image_shape <= Int32.max_signed ->
  height image_shape <= Int32.max_signed ->
  exists full,
    UnmoldMask interp mask [y1; x1; y2; x2] image_shape = Ok full
    /\ rows full = height image_shape /\ cols full = width image_shape
    /\ forall r c, px full r c = decoded_px interp mask y1 x1 y2 x2 r c.
Proof.
  intros Hrows Hcols (Hx1 & Hx & Hx2 & Hy1 & Hy & Hy2) HW HH.
  unfold Int32.max_signed in *.
  rewrite unmold_mask_unfold. unfold Int32.sub.
  in_range (x2 - x1). in_range (y2 - y1).
  simpl bind. unfold cv_resize. simpl width. simpl height.
  ltb_true 0 (x2 - x1). ltb_true 0 (y2 - y1).
  ltb_true 0 (rows mask). ltb_true 0 (cols mask).
  simpl bind. unfold mat_zeros.
  leb_true 0 (width image_shape). leb_true 0 (height image_shape).
  simpl bind. unfold copy_to_roi, Int32.add. simpl rx. simpl ry.
  simpl rwidth. simpl rheight.
  in_range (x1 + (x2 - x1)). in_range (y1 + (y2 - y1)).
  simpl bind. simpl rows. simpl cols.
  leb_true 0 x1. leb_true 0 (x2 - x1).
  leb_true (x1 + (x2 - x1)) (width image_shape).
  leb_true 0 y1. leb_true 0 (y2 - y1).
  leb_true (y1 + (y2 - y1)) (height image_shape).
  rewrite !Z.eqb_refl. simpl bind.
  eexists. split; [reflexivity | ].
  split; [reflexivity | ]. split; [reflexivity | ].
  intros r c. simpl. unfold decoded_px.
  replace (y1 + (y2 - y1)) with y2 by lia.
  replace (x1 + (x2 - x1)) with x2 by lia.
  destruct (in_rect y1 x1 y2 x2 r c); [ | reflexivity].
  unfold mask_threshold.
  destruct (F32.gtb (interp mask (x2 - x1) (y2 - y1) (r - y1) (c - x1)) F32.half);
    reflexivity.
Qed.

(** [UnmoldMask] is defined only on such a box. *)
Lemma unmold_mask_only_defined
      (interp : Mat F32.float -> Z -> Z -> Z -> Z -> F32.float)
      (mask : Mat F32.float) (y1 x1 y2 x2 : Z) (image_shape : Size)
      (full : Mat Z) :
  UnmoldMask interp mask [y1; x1; y2; x2] image_shape = Ok full ->
  box_in_image image_shape y1 x1 y2 x2.
Proof.
  rewrite unmold_mask_unfold. intros H.
  apply bind_ok in H as (bw & Hbw & H). apply check_ok in Hbw as [-> _].
  apply bind_ok in H as (bh & Hbh & H). apply check_ok in Hbh as [-> _].
  apply bind_ok in H as (cv_mask & Hcv & H).
  apply bind_ok in H as (canvas & Hcanvas & H).
  apply bind_ok in H as (pasted & Hpaste & _).
  unfold cv_resize in Hcv. simpl width in Hcv. simpl height in Hcv.
  destruct ((0 <? x2 - x1) && (0 <? y2 - y1) && (0 <? rows mask)
            && (0 <? cols mask)) eqn:Hsize; [ | discriminate].
  unfold mat_zeros in Hcanvas.
  destruct ((0 <=? width image_shape) && (0 <=? height image_shape));
    [ | discriminate].
  inversion Hcanvas; subst canvas; clear Hcanvas.
  unfold copy_to_roi in Hpaste. simpl rx in Hpaste. simpl ry in Hpaste.
  simpl rwidth in Hpaste. simpl rheight in Hpaste.
  apply bind_ok in Hpaste as (right & Hright & Hpaste).
  apply check_ok in Hright as [-> _].
  apply bind_ok in Hpaste as (bottom & Hbottom & Hpaste).
  apply check_ok in Hbottom as [-> _].
  simpl rows in Hpaste. simpl cols in Hpaste.
  match type of Hpaste with
  | (if ?cond then _ else _) = _ => destruct cond eqn:Hroi; [ | discriminate]
  end.
  tests_to_props. unfold box_in_image. lia.
Qed.

(** C8: for a box with positive sides [bw], [bh] inside the image,
    [UnmoldMask] resizes the low-resolution mask to [bw] x [bh] and yields
    a single-channel mask of the image size whose pixels are 0 or 255:
    inside the box 255 exactly where the resized mask exceeds 0.5, and 0
    everywhere outside the box.  For a low-resolution mask of ones (whose
    interpolation stays above one half) exactly [bw * bh] pixels are 255,
    namely those of the box. *)
Theorem unmold_mask_spec
        (interp : Mat F32.float -> Z -> Z -> Z -> Z -> F32.float)
        (mask : Mat F32.float) (y1 x1 y2 x2 : Z) (image_shape : Size) :
  0 < rows mask -> 0 < cols mask ->
  box_in_image image_shape y1 x1 y2 x2 ->
  width image_shape <= Int32.max_signed ->
  height image_shape <= Int32.max_signed ->
  let bw := x2 - x1 in
  let bh := y2 - y1 in
  exists full resized,
    UnmoldMask interp mask [y1; x1; y2; x2] image_shape = Ok full
    /\ cv_resize interp mask (mkSize bw bh) = Ok resized
    /\ rows resized = bh /\ cols resized = bw
    /\ rows full = height image_shape /\ cols full = width image_shape
    /\ (forall r c, px full r c = 0 \/ px full r c = 255)
    /\ (forall r c, in_rect y1 x1 y2 x2 r c = false -> px full r c = 0)
    /\ (forall r c, in_rect y1 x1 y2 x2 r c = true ->
          px full r c
          = if F32.gtb (px resized (r - y1) (c - x1)) mask_threshold
            then 255 else 0)
    /\ (all_px F32.one mask -> ones_stay_above_half interp ->
        count_px (Z.eqb 255) full = bw * bh
        /\ forall r c, px full r c = 255 <-> in_rect y1 x1 y2 x2 r c = true).
Proof.
  intros Hrows Hcols Hbox HW HH bw bh.
  destruct (unmold_mask_defined interp mask y1 x1 y2 x2 image_shape
              Hrows Hcols Hbox HW HH) as (full & Hrun & Hr & Hc & Hpx).
  destruct Hbox as (Hx1 & Hx & Hx2 & Hy1 & Hy & Hy2).
  exists full, (mkMat bh bw (interp mask bw bh)).
  split; [exact Hrun | ].
  split.
  { unfold cv_resize. simpl width. simpl height. subst bw bh.
    ltb_true 0 (x2 - x1). ltb_true 0 (y2 - y1).
    ltb_true 0 (rows mask). ltb_true 0 (cols mask).
    reflexivity. }
  split; [reflexivity | ]. split; [reflexivity | ].
  split; [exact Hr | ]. split; [exact Hc | ].
  split; [ | split; [ | split]].
  - intros r c. rewrite Hpx. unfold decoded_px.
    destruct (in_rect y1 x1 y2 x2 r c); [ | now left].
    destruct (F32.gtb _ F32.half); [now right | now left].
  - intros r c Hout. rewrite Hpx. unfold decoded_px. now rewrite Hout.
  - intros r c Hin. rewrite Hpx. unfold decoded_px. now rewrite Hin.
  - intros Hones Hkernel.
    assert (Hall : forall r c,
               px full r c = if in_rect y1 x1 y2 x2 r c then 255 else 0).
    { intros r c. rewrite Hpx. unfold decoded_px.
      destruct (in_rect y1 x1 y2 x2 r c) eqn:Hin; [ | reflexivity].
      unfold in_rect in Hin. tests_to_props.
      rewrite Hkernel by (try assumption; lia). reflexivity. }
    split.
    + rewrite (count_px_rect (Z.eqb 255) full y1 x1 y2 x2) by
        (try lia; intros r c; rewrite Hall;
         destruct (in_rect y1 x1 y2 x2 r c); reflexivity).
      unfold bw, bh. lia.
    + intros r c. rewrite Hall.
      destruct (in_rect y1 x1 y2 x2 r c); split; intros H;
        try reflexivity; discriminate.
Qed.

Lemma nearest_ones : ones_stay_above_half nearest.
Proof.
  intros m w h r c Hrows Hcols Hones Hr Hc. unfold nearest.
  rewrite Hones; [reflexivity | | ].
  - split; [apply Z.div_pos; nia | apply Z.div_lt_upper_bound; nia].
  - split; [apply Z.div_pos; nia | apply Z.div_lt_upper_bound; nia].
Qed.

Lemma unmold_mask_spec_witness :
  exists full,
    UnmoldMask nearest Examples.ones2 [1; 1; 3; 4] (mkSize 5 4) = Ok full
    /\ rows full = 4 /\ cols full = 5
    /\ count_px (Z.eqb 255) full = 6.
Proof.
  destruct (unmold_mask_spec nearest Examples.ones2 1 1 3 4 (mkSize 5 4))
    as (full & resized & Hrun & _ & _ & _ & Hr & Hc & _ & _ & _ & Hones);
    [reflexivity | reflexivity | unfold box_in_image; simpl; lia
     | unfold Int32.max_signed; simpl; lia
     | unfold Int32.max_signed; simpl; lia | ].
  destruct Hones as [Hcount _];
    [intros r c _ _; reflexivity | exact nearest_ones | ].
  exists full. repeat split; assumption.
Defined.

(** ** ResizeMasks *)

Lemma scaled_size_dims {A : Type} (m : Mat A) (scale : F32.float) (sz : Size) :
  scaled_size m scale = Ok sz <->
  scaled_dim (cols m) scale = Ok (width sz)
  /\ scaled_dim (rows m) scale = Ok (height sz).
Proof.
  unfold scaled_size, scaled_dim. split.
  - intros H. apply bind_ok in H as (w' & Hw & H).
    apply bind_ok in H as (h' & Hh & H). inversion H; subst. simpl. auto.
  - intros [Hw Hh]. rewrite Hw, Hh. simpl. now destruct sz.
Qed.

(** One mask through [ResizeMasks]: its sides are scaled and rounded, then
    the padding is added around it with zero fill. *)
Lemma resize_mask_ok {A : Type} (zero : A)
      (interp : Mat A -> Z -> Z -> Z -> Z -> A)
      (scale : F32.float) (padding : Padding) (mask m : Mat A) :
  resize_mask zero interp scale padding mask = Ok m ->
  exists w' h',
    scaled_dim (cols mask) scale = Ok w'
    /\ scaled_dim (rows mask) scale = Ok h'
    /\ cols m = w' + left_pad padding + right_pad padding
    /\ rows m = h' + top_pad padding + bottom_pad padding
    /\ forall r c,
         px m r c
         = if in_rect (top_pad padding) (left_pad padding)
                      (top_pad padding + h') (left_pad padding + w') r c
           then interp mask w' h' (r - top_pad padding) (c - left_pad padding)
           else zero.
Proof.
  unfold resize_mask, resize_by. intros H.
  apply bind_ok in H as (resized & Hres & H).
  apply bind_ok in Hres as (sz & Hsz & Hres).
  apply scaled_size_dims in Hsz as [Hw Hh].
  unfold cv_resize in Hres.
  match type of Hres with
  | (if ?cond then _ else _) = _ => destruct cond; [ | discriminate]
  end.
  inversion Hres; subst resized; clear Hres.
  unfold copyMakeBorder in H.
  match type of H with
  | (if ?cond then _ else _) = _ => destruct cond; [ | discriminate]
  end.
  inversion H; subst m; clear H.
  exists (width sz), (height sz). simpl. auto.
Qed.

Lemma resize_mask_total {A : Type} (zero : A)
      (interp : Mat A -> Z -> Z -> Z -> Z -> A)
      (scale : F32.float) (padding : Padding) (mask : Mat A) (w' h' : Z) :
  0 < rows mask -> 0 < cols mask ->
  scaled_dim (cols mask) scale = Ok w' -> scaled_dim (rows mask) scale = Ok h' ->
  0 < w' -> 0 < h' ->
  0 <= top_pad padding -> 0 <= bottom_pad padding ->
  0 <= left_pad padding -> 0 <= right_pad padding ->
  exists m, resize_mask zero interp scale padding mask = Ok m.
Proof.
  intros Hr Hc Hw Hh Hw' Hh' Ht Hb Hl Hri.
  unfold resize_mask, resize_by.
  rewrite (proj2 (scaled_size_dims mask scale (mkSize w' h')) (conj Hw Hh)).
  simpl bind. unfold cv_resize. simpl width. simpl height.
  ltb_true 0 w'. ltb_true 0 h'. ltb_true 0 (rows mask). ltb_true 0 (cols mask).
  simpl bind. unfold copyMakeBorder.
  leb_true 0 (top_pad padding). leb_true 0 (bottom_pad padding).
  leb_true 0 (left_pad padding). leb_true 0 (right_pad padding).
  simpl. eexists. reflexivity.
Qed.

Lemma Forall2_compose {A B C : Type} (R : A -> B -> Prop) (S : B -> C -> Prop)
      (T : A -> C -> Prop) :
  (forall a b c, R a b -> S b c -> T a c) ->
  forall la lb lc, Forall2 R la lb -> Forall2 S lb lc -> Forall2 T la lc.
Proof.
  intros HT la lb lc HR. revert lc.
  induction HR as [ | a b la lb Hab _ IH]; intros lc HS; inversion HS; subst.
  - constructor.
  - constructor; [eapply HT; eassumption | now apply IH].
Qed.

(** C9 (as amended): [ResizeMasks] handles every mask on its own and in
    input order, so the output has the length of the input; each mask is
    resized to [round(cols * scale)] x [round(rows * scale)] and then
    padded with zeros by the given amounts; it returns whenever every mask
    can be resized and no padding amount is negative.  Applied with [s1]
    and then [s2] without padding, the sides of each result are the sides
    of the input scaled and rounded twice. *)
Theorem resize_masks_spec {A : Type} (zero : A)
        (interp : Mat A -> Z -> Z -> Z -> Z -> A)
        (masks : list (Mat A)) (scale : F32.float) (padding : Padding) :
  (forall out,
      ResizeMasks zero interp masks scale padding = Ok out <->
      Forall2 (fun mask m => resize_mask zero interp scale padding mask = Ok m)
              masks out)
  /\ (forall out,
        ResizeMasks zero interp masks scale padding = Ok out ->
        length out = length masks)
  /\ (forall mask m,
        resize_mask zero interp scale padding mask = Ok m ->
        exists w' h',
          scaled_dim (cols mask) scale = Ok w'
          /\ scaled_dim (rows mask) scale = Ok h'
          /\ cols m = w' + left_pad padding + right_pad padding
          /\ rows m = h' + top_pad padding + bottom_pad padding
          /\ forall r c,
               px m r c
               = if in_rect (top_pad padding) (left_pad padding)
                            (top_pad padding + h') (left_pad padding + w') r c
                 then interp mask w' h' (r - top_pad padding)
                             (c - left_pad padding)
                 else zero)
  /\ (0 <= top_pad padding -> 0 <= bottom_pad padding ->
      0 <= left_pad padding -> 0 <= right_pad padding ->
      Forall (resizable scale) masks ->
      exists out, ResizeMasks zero interp masks scale padding = Ok out)
  /\ (forall s2 out1 out2,
        ResizeMasks zero interp masks scale (mkPadding 0 0 0 0 0 0) = Ok out1 ->
        ResizeMasks zero interp out1 s2 (mkPadding 0 0 0 0 0 0) = Ok out2 ->
        Forall2 (fun mask m2 =>
                   scaled_twice (cols mask) scale s2 = Ok (cols m2)
                   /\ scaled_twice (rows mask) scale s2 = Ok (rows m2))
                masks out2).
Proof.
  split; [ | split; [ | split; [ | split]]].
  - intros out. apply mapM_Forall2.
  - intros out H. apply mapM_Forall2 in H.
    symmetry. eapply Forall2_length. exact H.
  - intros mask m. apply resize_mask_ok.
  - intros Ht Hb Hl Hr Hall. apply mapM_total.
    eapply Forall_impl; [ | exact Hall].
    intros mask (Hrows & Hcols & w' & h' & Hw & Hh & Hw' & Hh').
    eapply resize_mask_total; eassumption.
  - intros s2 out1 out2 H1 H2.
    apply mapM_Forall2 in H1. apply mapM_Forall2 in H2.
    eapply Forall2_compose; [ | exact H1 | exact H2].
    intros mask m1 m2 Hm1 Hm2. simpl in Hm1, Hm2.
    apply resize_mask_ok in Hm1 as (w1 & h1 & Hw1 & Hh1 & Hc1 & Hr1 & _).
    apply resize_mask_ok in Hm2 as (w2 & h2 & Hw2 & Hh2 & Hc2 & Hr2 & _).
    simpl in Hc1, Hr1, Hc2, Hr2.
    rewrite !Z.add_0_r in Hc1, Hr1, Hc2, Hr2.
    unfold scaled_twice. rewrite Hw1, Hh1. simpl bind.
    rewrite <- Hc1, <- Hr1, Hc2, Hr2. auto.
Qed.

Lemma resize_masks_spec_witness :
  exists out1 out2,
    ResizeMasks 0 nearest [Examples.mask10] Examples.quarter
                Examples.no_padding = Ok out1
    /\ ResizeMasks 0 nearest out1 Examples.ten Examples.no_padding = Ok out2
    /\ length out1 = 1%nat
    /\ Forall2 (fun mask m2 =>
                  scaled_twice (cols mask) Examples.quarter Examples.ten
                  = Ok (cols m2)
                  /\ scaled_twice (rows mask) Examples.quarter Examples.ten
                     = Ok (rows m2))
               [Examples.mask10] out2.
Proof.
  destruct (resize_masks_spec 0 nearest [Examples.mask10] Examples.quarter
              Examples.no_padding) as (_ & Hlen & _ & Htotal & Htwice).
  destruct Htotal as [out1 Hout1];
    [simpl; lia | simpl; lia | simpl; lia | simpl; lia | | ].
  { constructor; [ | constructor].
    split; [reflexivity | split; [reflexivity | ]].
    exists 3, 3. repeat split; reflexivity. }
  destruct (resize_masks_spec 0 nearest out1 Examples.ten Examples.no_padding)
    as (_ & _ & _ & Htotal2 & _).
  pose proof (Hlen out1 Hout1) as Hlen1.
  destruct out1 as [ | m1 [ | ? ?]]; try discriminate Hlen1.
  pose proof Hout1 as Hm1. simpl in Hm1.
  apply bind_ok in Hm1 as (m1' & Hm1 & Heq). inversion Heq; subst m1'.
  apply resize_mask_ok in Hm1 as (w1 & h1 & Hw1 & Hh1 & Hc1 & Hr1 & _).
  vm_compute in Hw1. vm_compute in Hh1. inversion Hw1; inversion Hh1; subst.
  simpl in Hc1, Hr1.
  destruct Htotal2 as [out2 Hout2];
    [simpl; lia | simpl; lia | simpl; lia | simpl; lia | | ].
  { constructor; [ | constructor].
    split; [lia | split; [lia | ]].
    exists 30, 30. rewrite Hc1, Hr1. repeat split; reflexivity. }
  exists [m1], out2. split; [exact Hout1 | ]. split; [exact Hout2 | ].
  split; [reflexivity | ].
  now apply (Htwice Examples.ten [m1] out2).
Defined.

(** C9 as stated fails: a 10 x 10 mask scaled by 1/4 and then by 10 is
    30 x 30, while one call with the scale 1/4 * 10 gives 25 x 25, five
    pixels apart on each side. *)
Lemma resize_masks_twice_counterexample :
  exists m1 m2 m,
    ResizeMasks 0 nearest [Examples.mask10] Examples.quarter
                Examples.no_padding = Ok [m1]
    /\ ResizeMasks 0 nearest [m1] Examples.ten Examples.no_padding = Ok [m2]
    /\ ResizeMasks 0 nearest [Examples.mask10]
                   (F32.mul Examples.quarter Examples.ten)
                   Examples.no_padding = Ok [m]
    /\ cols m2 = 30 /\ rows m2 = 30 /\ cols m = 25 /\ rows m = 25
    /\ ~ Z.abs (cols m2 - cols m) <= 1
    /\ ~ Z.abs (rows m2 - rows m) <= 1.
Proof.
  eexists. eexists. eexists.
  split; [reflexivity | ]. split; [reflexivity | ]. split; [reflexivity | ].
  simpl. repeat split; lia.
Qed.

(** ** Tensor operations on well-shaped tensors *)

Lemma mapM_map_ok {A B C : Type} (f : B -> result C) (h : A -> B) (g : A -> C)
      (l : list A) :
  (forall a, f (h a) = Ok (g a)) -> mapM f (map h l) = Ok (map g l).
Proof.
  intros H. induction l as [ | a l IH]; simpl; [reflexivity | ].
  now rewrite H, IH.
Qed.

Lemma mapM_length {A B : Type} (f : A -> result B) (l : list A) (out : list B) :
  mapM f l = Ok out -> length out = length l.
Proof.
  intros H. apply mapM_Forall2 in H. symmetry. eapply Forall2_length; eassumption.
Qed.

Lemma map2_map {A B C D : Type} (f : B -> C -> D) (g : A -> B) (h : A -> C)
      (l : list A) :
  map2 f (map g l) (map h l) = map (fun a => f (g a) (h a)) l.
Proof.
  unfold map2. induction l as [ | a l IH]; simpl; [reflexivity | now rewrite IH].
Qed.

Lemma concat_singletons {A : Type} (l : list A) :
  concat (map (fun a => [a]) l) = l.
Proof. induction l as [ | a l IH]; simpl; [reflexivity | now rewrite IH]. Qed.

Lemma squeeze_column {A : Type} (l : list A) :
  squeeze (map (fun a => [a]) l)
  = match l with
    | [a] => Scalar0 a
    | _ => Vec1 l
    end.
Proof.
  destruct l as [ | a [ | b l]]; try reflexivity.
  unfold squeeze. simpl map. cbv iota. f_equal.
  apply (concat_singletons (a :: b :: l)).
Qed.

Lemma elements_squeeze_column {A : Type} (l : list A) :
  elements (squeeze (map (fun a => [a]) l)) = l.
Proof.
  rewrite squeeze_column. destruct l as [ | a [ | b l]]; reflexivity.
Qed.

Lemma nonzero_column_from (k : nat) (bs : list bool) :
  flat_map (fun ir : Z * list bool =>
              flat_map (fun jb : Z * bool =>
                          if snd jb then [[fst ir; fst jb]] else [])
                       (indexed (snd ir)))
           (combine (map Z.of_nat (seq k (length bs))) (map (fun b => [b]) bs))
  = map (fun i => [i; 0]) (positions_from (Z.of_nat k) bs).
Proof.
  revert k. induction bs as [ | b bs IH]; intros k; [reflexivity | ].
  simpl length. simpl seq. simpl map. simpl combine. simpl flat_map.
  rewrite IH, Nat2Z.inj_succ. destruct b; reflexivity.
Qed.

Lemma nonzero_column (bs : list bool) :
  nonzero (map (fun b => [b]) bs) = map (fun i => [i; 0]) (positions_from 0 bs).
Proof.
  unfold nonzero, indexed at 2, zrange.
  rewrite length_map, Nat2Z.id. apply (nonzero_column_from 0).
Qed.

Lemma select_app {A : Type} (pre l : list A) (a : A) :
  select (pre ++ a :: l) (Z.of_nat (length pre)) = Ok a.
Proof.
  unfold select. rewrite length_app. simpl length.
  replace (0 <=? Z.of_nat (length pre)) with true by (symmetry; apply Z.leb_le; lia).
  replace (Z.of_nat (length pre) <? Z.of_nat (length pre + S (length l)))
    with true by (symmetry; apply Z.ltb_lt; lia).
  simpl. rewrite Nat2Z.id, nth_error_app2 by lia.
  now rewrite Nat.sub_diag.
Qed.

Lemma index_select_positions_from {A B : Type} (g : A -> B) (p : A -> bool)
      (pre l : list A) :
  mapM (select (map g (pre ++ l)))
       (positions_from (Z.of_nat (length pre)) (map p l))
  = Ok (map g (filter p l)).
Proof.
  revert pre. induction l as [ | a l IH]; intros pre; [reflexivity | ].
  simpl map at 2. simpl positions_from. simpl filter.
  assert (Hnext : mapM (select (map g (pre ++ a :: l)))
                       (positions_from (Z.succ (Z.of_nat (length pre))) (map p l))
                  = Ok (map g (filter p l))).
  { specialize (IH (pre ++ [a])).
    rewrite <- app_assoc, length_app in IH. simpl in IH.
    rewrite Nat.add_1_r, Nat2Z.inj_succ in IH. exact IH. }
  destruct (p a); [ | exact Hnext].
  simpl mapM. rewrite Hnext.
  rewrite map_app. simpl map. rewrite <- (length_map g pre), select_app.
  reflexivity.
Qed.

(** Selecting the positions of the entries that satisfy [p] is filtering
    by [p]. *)
Lemma index_select_positions {A B : Type} (g : A -> B) (p : A -> bool)
      (l : list A) :
  index_select0 (map g l) (positions_from 0 (map p l)) = Ok (map g (filter p l)).
Proof. apply (index_select_positions_from g p [] l). Qed.

Lemma length_positions_from (k : Z) (bs : list bool) :
  length (positions_from k bs) = length (filter (fun b => b) bs).
Proof.
  revert k. induction bs as [ | b bs IH]; intros k; [reflexivity | ].
  simpl. destruct b; simpl; now rewrite IH.
Qed.

Lemma filter_map_flags {A : Type} (p : A -> bool) (l : list A) :
  length (filter (fun b => b) (map p l)) = length (filter p l).
Proof.
  induction l as [ | a l IH]; [reflexivity | ].
  simpl. destruct (p a); simpl; now rewrite IH.
Qed.

Lemma tensor_mapM_column {A B C : Type} (f : B -> result C) (g : A -> B)
      (l : list A) :
  tensor_mapM f (map (fun a => [g a]) l)
  = zs <- mapM (fun a => f (g a)) l ;; Ok (map (fun z => [z]) zs).
Proof.
  unfold tensor_mapM. induction l as [ | a l IH]; [reflexivity | ].
  simpl. rewrite IH. destruct (f (g a)); [ | reflexivity].
  simpl. destruct (mapM (fun a0 => f (g a0)) l); reflexivity.
Qed.

Lemma narrow0_map_inv {A B : Type} (g : A -> B) (l : list A) (start len : Z)
      (t : list B) :
  narrow0 (map g l) start len = Ok t ->
  exists l', narrow0 l start len = Ok l' /\ t = map g l'.
Proof.
  unfold narrow0. rewrite length_map.
  destruct ((0 <=? start) && (0 <=? len) && (start + len <=? Z.of_nat (length l)));
    [ | discriminate].
  intros H. inversion H; subst. eexists. split; [reflexivity | ].
  now rewrite skipn_map, firstn_map.
Qed.

Lemma narrow0_prefix {A : Type} (l l' : list A) (n : Z) :
  narrow0 l 0 n = Ok l' ->
  0 <= n <= Z.of_nat (length l) /\ l' = firstn (Z.to_nat n) l
  /\ Z.of_nat (length l') = n.
Proof.
  unfold narrow0. simpl (0 <=? 0). simpl (0 + n). simpl (Z.to_nat 0).
  destruct (0 <=? n) eqn:H0; destruct (n <=? Z.of_nat (length l)) eqn:H1;
    simpl; try discriminate.
  apply Z.leb_le in H0. apply Z.leb_le in H1.
  intros H. inversion H; subst. split; [lia | ]. split; [reflexivity | ].
  rewrite length_firstn. lia.
Qed.

Section WellShaped.
Variable data_u8 : Z -> result Z.

Lemma narrow_boxes (l : list Detection) :
  narrow1 (map row_of l) 0 4
  = Ok (map (fun d => [det_y1 d; det_x1 d; det_y2 d; det_x2 d]) l).
Proof. unfold narrow1. apply mapM_map_ok. reflexivity. Qed.

Lemma narrow_class (l : list Detection) :
  narrow1 (map row_of l) 4 1 = Ok (map (fun d => [det_class_id d]) l).
Proof. unfold narrow1. apply mapM_map_ok. reflexivity. Qed.

Lemma narrow_scores (l : list Detection) :
  narrow1 (map row_of l) 5 1 = Ok (map (fun d => [det_score d]) l).
Proof. unfold narrow1. apply mapM_map_ok. reflexivity. Qed.

Lemma narrow_box_column (k : Z) (get : IntBox -> Z) (l : list IntBox) :
  (forall b, narrow0 (box_row b) k 1 = Ok [get b]) ->
  narrow1 (map box_row l) k 1 = Ok (map (fun b => [get b]) l).
Proof. intros H. unfold narrow1. now apply mapM_map_ok. Qed.

Lemma first_zero_position (k : Z) (ds : list Detection) :
  match positions_from k
          (map (fun d => F32.eqb (det_class_id d) F32.zero) ds) with
  | [] => valid_count ds = Z.of_nat (length ds)
  | i :: _ => i = k + valid_count ds /\ valid_count ds < Z.of_nat (length ds)
  end.
Proof.
  revert k. induction ds as [ | d ds IH]; intros k; [reflexivity | ].
  simpl map. simpl positions_from. simpl valid_count.
  destruct (F32.eqb (det_class_id d) F32.zero).
  - simpl length. lia.
  - specialize (IH (Z.succ k)).
    destruct (positions_from (Z.succ k)
                (map (fun d0 => F32.eqb (det_class_id d0) F32.zero) ds));
      simpl length; lia.
Qed.

Lemma valid_count_range (ds : list Detection) :
  0 <= valid_count ds <= Z.of_nat (length ds).
Proof.
  induction ds as [ | d ds IH]; simpl valid_count; simpl length; [lia | ].
  destruct (F32.eqb (det_class_id d) F32.zero); lia.
Qed.

(** The count found by the code: [valid_count] read through the
    [uint8_t] accessor when a zero row exists, the number of rows
    otherwise. *)
Lemma detection_count_spec (ds : list Detection) :
  detection_count data_u8 (detections_tensor ds)
  = if valid_count ds <? Z.of_nat (length ds)
    then data_u8 (valid_count ds)
    else Ok (Z.of_nat (length ds)).
Proof.
  unfold detection_count, detections_tensor.
  rewrite narrow_class. cbn [bind].
  replace (tensor_map (fun v => F32.eqb v F32.zero)
                      (map (fun d => [det_class_id d]) ds))
    with (map (fun b : bool => [b])
              (map (fun d => F32.eqb (det_class_id d) F32.zero) ds))
    by (unfold tensor_map; now rewrite !map_map).
  rewrite nonzero_column, length_map.
  pose proof (first_zero_position 0 ds) as Hpos.
  destruct (positions_from 0
              (map (fun d => F32.eqb (det_class_id d) F32.zero) ds))
    as [ | i rest].
  - simpl map. rewrite Hpos, Z.ltb_irrefl. reflexivity.
  - destruct Hpos as [-> Hlt]. apply Z.ltb_lt in Hlt. rewrite Hlt.
    reflexivity.
Qed.

Lemma remap_pipeline (sy sx scale : F32.float) (l : list Detection) :
  tensor_mapM F32.to_int32
    (broadcast_map2 F32.mul
       (broadcast_map2 F32.sub
          (map (fun d => [det_y1 d; det_x1 d; det_y2 d; det_x2 d]) l)
          [sy; sx; sy; sx])
       [scale; scale; scale; scale])
  = boxes <- mapM (remap_box_with sy sx scale) l ;; Ok (map box_row boxes).
Proof.
  unfold tensor_mapM, broadcast_map2. rewrite !map_map.
  induction l as [ | d l IH]; [reflexivity | ].
  simpl map. simpl mapM. rewrite IH. clear IH.
  unfold remap_box_with, remap_coord, map2. simpl.
  destruct (F32.to_int32 (F32.mul (F32.sub (det_y1 d) sy) scale));
    [ | reflexivity].
  destruct (F32.to_int32 (F32.mul (F32.sub (det_x1 d) sx) scale));
    [ | reflexivity].
  destruct (F32.to_int32 (F32.mul (F32.sub (det_y2 d) sy) scale));
    [ | reflexivity].
  destruct (F32.to_int32 (F32.mul (F32.sub (det_x2 d) sx) scale));
    [ | reflexivity].
  simpl.
  destruct (mapM _ l); reflexivity.
Qed.

Lemma area_flags (l : list IntBox) :
  tensor_map (fun a => 0 <? a)
    (tensor_map2 Int32.wmul
       (tensor_map2 Int32.wsub (map (fun b => [b_y2 b]) l)
                    (map (fun b => [b_y1 b]) l))
       (tensor_map2 Int32.wsub (map (fun b => [b_x2 b]) l)
                    (map (fun b => [b_x1 b]) l)))
  = map (fun f : bool => [f]) (map positive_area l).
Proof.
  unfold tensor_map, tensor_map2. rewrite !map2_map, !map_map. reflexivity.
Qed.
End WellShaped.

(** ** The state of UnmoldDetections at the mask loop *)

Lemma index_select_2d_length {A : Type} (row_ix col_ix : list Z)
      (t : list (list A)) (out : list A) :
  index_select_2d row_ix col_ix t = Ok out -> length out = length row_ix.
Proof.
  unfold index_select_2d.
  destruct (Nat.eqb (length row_ix) (length col_ix)) eqn:Hlen; [ | discriminate].
  apply Nat.eqb_eq in Hlen. intros H. apply mapM_length in H.
  rewrite H, length_combine. lia.
Qed.

(** What [select_detections] computed when it returns: the count [N], the
    first [N] rows, their remapped boxes, and either every box (no box
    passed the area filter) or the boxes that passed it (at least two
    did). *)
Lemma select_detections_inv (data_u8 : Z -> result Z) (ds : list Detection)
      (mrcnn_mask : list (list (Mat F32.float)))
      (image_shape : Size) (window : Window) (sel : Selection) :
  select_detections data_u8 (detections_tensor ds) mrcnn_mask image_shape window
  = Ok sel ->
  exists N firstN boxes,
    detection_count data_u8 (detections_tensor ds) = Ok N
    /\ narrow0 ds 0 N = Ok firstN
    /\ mapM (remap_box image_shape window) firstN = Ok boxes
    /\ Z.of_nat (length (sel_masks sel)) = sel_N sel
    /\ Z.of_nat (length (sel_boxes sel)) = sel_N sel
    /\ ((filter positive_area boxes = []
         /\ sel_boxes sel = map box_row boxes /\ sel_N sel = N)
        \/ ((2 <= length (filter positive_area boxes))%nat
            /\ sel_boxes sel = map box_row (filter positive_area boxes))).
Proof.
  unfold select_detections. intros H.
  apply bind_ok in H as (N & HN & H).
  apply bind_ok in H as (t & Ht & H).
  apply narrow0_map_inv in Ht as (firstN & HfirstN & ->).
  rewrite narrow_boxes, narrow_class, narrow_scores in H. cbn [bind] in H.
  rewrite tensor_mapM_column in H.
  apply bind_ok in H as (class_t & Hclass & H).
  apply bind_ok in Hclass as (class_long & Hlong & Hclass).
  inversion Hclass; subst class_t; clear Hclass.
  rewrite elements_squeeze_column in H.
  apply bind_ok in H as (masks & Hmasks & H).
  apply bind_ok in H as (dy & Hdy & H). apply check_ok in Hdy as [-> _].
  apply bind_ok in H as (dx & Hdx & H). apply check_ok in Hdx as [-> _].
  rewrite remap_pipeline in H.
  apply bind_ok in H as (boxes_t & Hboxes & H).
  apply bind_ok in Hboxes as (boxes & Hremap & Hboxes).
  inversion Hboxes; subst boxes_t; clear Hboxes.
  rewrite (narrow_box_column 2 b_y2), (narrow_box_column 0 b_y1),
    (narrow_box_column 3 b_x2), (narrow_box_column 1 b_x1) in H
    by reflexivity.
  cbn [bind] in H. rewrite area_flags, nonzero_column in H.
  unfold narrow1 in H at 1.
  rewrite (mapM_map_ok _ _ (fun i : Z => [i])) in H by reflexivity.
  cbn [bind] in H. rewrite squeeze_column in H.
  pose proof (index_select_positions box_row positive_area boxes) as Hsel.
  pose proof (length_positions_from 0 (map positive_area boxes)) as Hlen.
  rewrite filter_map_flags in Hlen.
  apply narrow0_prefix in HfirstN as Hprefix. destruct Hprefix as (HNr & _ & HlenN).
  pose proof (mapM_length _ _ _ Hremap) as Hlb.
  pose proof (mapM_length _ _ _ Hlong) as Hlc.
  pose proof (index_select_2d_length _ _ _ _ Hmasks) as Hlm.
  rewrite length_zrange in Hlm.
  exists N, firstN, boxes.
  split; [exact HN | ]. split; [exact HfirstN | ]. split; [exact Hremap | ].
  destruct (positions_from 0 (map positive_area boxes)) as [ | i [ | j rest]].
  - (* no box passed the filter *)
    cbn in H. inversion H; subst sel; clear H. simpl.
    rewrite length_map.
    split; [lia | ]. split; [lia | ]. left.
    split; [ | split; reflexivity].
    apply length_zero_iff_nil. now rewrite <- Hlen.
  - (* exactly one box: the index tensor is zero-dimensional *)
    cbn in H. discriminate.
  - (* two boxes or more *)
    cbn [size0 bind elements] in H.
    match type of H with
    | (if ?c then _ else _) = _ => replace c with true in H
        by (symmetry; apply Z.ltb_lt; simpl length; lia)
    end.
    rewrite Hsel in H. cbn [bind] in H.
    apply bind_ok in H as (class_sel & Hcs & H).
    apply bind_ok in H as (scores_sel & Hss & H).
    apply bind_ok in H as (masks_sel & Hms & H).
    cbn [size0 bind] in H. inversion H; subst sel; clear H. simpl.
    apply mapM_length in Hcs. apply mapM_length in Hms.
    rewrite length_map.
    split; [congruence | ]. split; [rewrite <- Hlen, Hcs; reflexivity | ].
    right. split; [rewrite <- Hlen; simpl; lia | reflexivity].
Qed.

Lemma unmold_detections_inv
      (interp : Mat F32.float -> Z -> Z -> Z -> Z -> F32.float)
      (data_u8 : Z -> result Z) (detections : list (list F32.float))
      (mrcnn_mask : list (list (Mat F32.float)))
      (image_shape : Size) (window : Window)
      (boxes : list (list Z)) (class_ids : Squeezed Z)
      (scores : list (list F32.float)) (full_masks : list (Mat Z)) :
  UnmoldDetections interp data_u8 detections mrcnn_mask image_shape window
  = Ok (boxes, class_ids, scores, full_masks) ->
  exists sel,
    select_detections data_u8 detections mrcnn_mask image_shape window = Ok sel
    /\ unmold_masks interp sel image_shape = Ok full_masks
    /\ boxes = sel_boxes sel /\ class_ids = sel_class_ids sel
    /\ scores = sel_scores sel.
Proof.
  unfold UnmoldDetections. intros H.
  apply bind_ok in H as (sel & Hsel & H).
  apply bind_ok in H as (masks & Hmasks & H).
  inversion H; subst. exists sel. auto.
Qed.

Lemma remap_box_inv (image_shape : Size) (window : Window) (d : Detection)
      (b : IntBox) :
  remap_box image_shape window d = Ok b ->
  let scale := unmold_scale image_shape window in
  F32.to_int32 (F32.mul (F32.sub (det_y1 d) (F32.of_Z (y1 window))) scale)
  = Ok (b_y1 b)
  /\ F32.to_int32 (F32.mul (F32.sub (det_x1 d) (F32.of_Z (x1 window))) scale)
     = Ok (b_x1 b)
  /\ F32.to_int32 (F32.mul (F32.sub (det_y2 d) (F32.of_Z (y1 window))) scale)
     = Ok (b_y2 b)
  /\ F32.to_int32 (F32.mul (F32.sub (det_x2 d) (F32.of_Z (x1 window))) scale)
     = Ok (b_x2 b).
Proof.
  unfold remap_box, remap_box_with, remap_coord. intros H.
  apply bind_ok in H as (a & Ha & H). apply bind_ok in H as (b' & Hb & H).
  apply bind_ok in H as (c & Hc & H). apply bind_ok in H as (e & He & H).
  inversion H; subst. simpl. auto.
Qed.

Lemma subseq_refl {A : Type} (l : list A) : subseq l l.
Proof. induction l; constructor; assumption. Qed.

Lemma Forall2_filter_right {A B : Type} (R : A -> B -> Prop) (p : B -> bool)
      (la : list A) (lb : list B) :
  Forall2 R la lb ->
  exists kept, subseq kept la /\ Forall2 R kept (filter p lb).
Proof.
  induction 1 as [ | a b la lb Hab _ (kept & Hsub & Hkept)].
  - exists []. split; constructor.
  - simpl. destruct (p b).
    + exists (a :: kept). split; constructor; assumption.
    + exists kept. split; [constructor | ]; assumption.
Qed.

Lemma Forall2_map_right {A B C : Type} (R : A -> C -> Prop) (g : B -> C)
      (la : list A) (lb : list B) :
  Forall2 (fun a b => R a (g b)) la lb -> Forall2 R la (map g lb).
Proof. induction 1; simpl; constructor; assumption. Qed.

(** ** UnmoldDetections: the remapping of boxes *)

(** C4: every box that [UnmoldDetections] returns is the box of one of
    the first [N] detection rows (in their order), with
    [(window.y1, window.x1, window.y1, window.x1)] subtracted, multiplied
    by the single scale [min(h_scale, w_scale)], where
    [h_scale = height / (window.y2 - window.y1)] and
    [w_scale = width / (window.x2 - window.x1)], and truncated to an
    integer. *)
Theorem unmold_boxes_remapped
        (interp : Mat F32.float -> Z -> Z -> Z -> Z -> F32.float)
        (data_u8 : Z -> result Z) (ds : list Detection)
        (mrcnn_mask : list (list (Mat F32.float)))
        (image_shape : Size) (window : Window)
        (boxes : list (list Z)) (class_ids : Squeezed Z)
        (scores : list (list F32.float)) (full_masks : list (Mat Z)) :
  UnmoldDetections interp data_u8 (detections_tensor ds) mrcnn_mask
                   image_shape window
  = Ok (boxes, class_ids, scores, full_masks) ->
  let h_scale := F32.div (F32.of_Z (height image_shape))
                         (F32.of_Z (y2 window - y1 window)) in
  let w_scale := F32.div (F32.of_Z (width image_shape))
                         (F32.of_Z (x2 window - x1 window)) in
  let scale := F32.min h_scale w_scale in
  let remapped (shift : Z) (v : F32.float) : result Z :=
    F32.to_int32 (F32.mul (F32.sub v (F32.of_Z shift)) scale) in
  exists N kept,
    detection_count data_u8 (detections_tensor ds) = Ok N
    /\ subseq kept (firstn (Z.to_nat N) ds)
    /\ Forall2 (fun d box =>
                  exists a b c e,
                    box = [a; b; c; e]
                    /\ remapped (y1 window) (det_y1 d) = Ok a
                    /\ remapped (x1 window) (det_x1 d) = Ok b
                    /\ remapped (y1 window) (det_y2 d) = Ok c
                    /\ remapped (x1 window) (det_x2 d) = Ok e)
               kept boxes.
Proof.
  intros Hrun h_scale w_scale scale remapped.
  apply unmold_detections_inv in Hrun as (sel & Hsel & _ & -> & _ & _).
  apply select_detections_inv in Hsel
    as (N & firstN & ibs & HN & HfirstN & Hremap & _ & _ & Hcases).
  apply narrow0_prefix in HfirstN as (_ & -> & _).
  apply mapM_Forall2 in Hremap.
  assert (Hform : forall d b,
             remap_box image_shape window d = Ok b ->
             exists a b' c e,
               box_row b = [a; b'; c; e]
               /\ remapped (y1 window) (det_y1 d) = Ok a
               /\ remapped (x1 window) (det_x1 d) = Ok b'
               /\ remapped (y1 window) (det_y2 d) = Ok c
               /\ remapped (x1 window) (det_x2 d) = Ok e).
  { intros d b Hb. apply remap_box_inv in Hb as (Ha & Hb' & Hc & He).
    exists (b_y1 b), (b_x1 b), (b_y2 b), (b_x2 b). repeat split; assumption. }
  exists N.
  destruct Hcases as [(_ & -> & _) | (_ & ->)].
  - exists (firstn (Z.to_nat N) ds). split; [exact HN | ].
    split; [apply subseq_refl | ].
    apply Forall2_map_right.
    eapply Forall2_impl; [ | exact Hremap]. exact Hform.
  - destruct (Forall2_filter_right _ positive_area _ _ Hremap)
      as (kept & Hsub & Hkept).
    exists kept. split; [exact HN | ]. split; [exact Hsub | ].
    apply Forall2_map_right.
    eapply Forall2_impl; [ | exact Hkept]. exact Hform.
Qed.

Lemma unmold_boxes_remapped_witness :
  exists N kept,
    detection_count data_u8_low_byte (detections_tensor Examples.two_boxes)
    = Ok N
    /\ subseq kept (firstn (Z.to_nat N) Examples.two_boxes)
    /\ Forall2 (fun d box =>
                  exists a b c e,
                    box = [a; b; c; e]
                    /\ F32.to_int32 (F32.mul (F32.sub (det_y1 d) (F32.of_Z 0))
                                             F32.one) = Ok a
                    /\ F32.to_int32 (F32.mul (F32.sub (det_x1 d) (F32.of_Z 0))
                                             F32.one) = Ok b
                    /\ F32.to_int32 (F32.mul (F32.sub (det_y2 d) (F32.of_Z 0))
                                             F32.one) = Ok c
                    /\ F32.to_int32 (F32.mul (F32.sub (det_x2 d) (F32.of_Z 0))
                                             F32.one) = Ok e)
               kept [[0; 0; 2; 2]; [1; 1; 3; 4]].
Proof.
  eapply (unmold_boxes_remapped nearest data_u8_low_byte Examples.two_boxes
            (Examples.mask_stack 3) Examples.shape5x4 Examples.window5x4).
  reflexivity.
Defined.

(** ** UnmoldDetections: the area filter *)

Lemma wrap_zero : Int32.wrap 0 = 0.
Proof. reflexivity. Qed.

(** A box that passes the area filter has no side of length zero. *)
Lemma positive_area_sides (b : IntBox) :
  positive_area b = true -> b_y2 b <> b_y1 b /\ b_x2 b <> b_x1 b.
Proof.
  unfold positive_area, Int32.wmul, Int32.wsub. intros H.
  split; intros Heq; rewrite Heq, Z.sub_diag, wrap_zero in H.
  - rewrite Z.mul_0_l, wrap_zero in H. discriminate.
  - rewrite Z.mul_0_r, wrap_zero in H. discriminate.
Qed.

Lemma Forall2_in_left {A B : Type} (R : A -> B -> Prop) (la : list A)
      (lb : list B) (a : A) :
  Forall2 R la lb -> In a la -> exists b, In b lb /\ R a b.
Proof.
  induction 1 as [ | a' b la lb Hab _ IH]; intros Hin; [contradiction | ].
  destruct Hin as [-> | Hin].
  - exists b. split; [now left | assumption].
  - destruct (IH Hin) as (b' & Hb' & HR). exists b'. split; [now right | assumption].
Qed.

(** C10 (as amended): [UnmoldMask] is defined exactly on boxes with
    [0 <= x1 < x2 <= width] and [0 <= y1 < y2 <= height] (for a non-empty
    low-resolution mask).  When at least one of the first [N] detections
    passes the area filter, every box that [UnmoldDetections] hands to
    [UnmoldMask] has a positive 32-bit area product, hence no side of
    length zero; such a box meets the precondition as soon as it is not
    inverted and lies inside the image, which the filter does not check. *)
Theorem unmold_calls_spec
        (interp : Mat F32.float -> Z -> Z -> Z -> Z -> F32.float)
        (data_u8 : Z -> result Z) (ds : list Detection)
        (mrcnn_mask : list (list (Mat F32.float)))
        (image_shape : Size) (window : Window) (sel : Selection) (N : Z) :
  select_detections data_u8 (detections_tensor ds) mrcnn_mask image_shape window
  = Ok sel ->
  detection_count data_u8 (detections_tensor ds) = Ok N ->
  (exists d, In d (firstn (Z.to_nat N) ds)
             /\ retained image_shape window d = true) ->
  (forall mask y1 x1 y2 x2 full,
      UnmoldMask interp mask [y1; x1; y2; x2] image_shape = Ok full ->
      box_in_image image_shape y1 x1 y2 x2)
  /\ (forall mask y1 x1 y2 x2,
        0 < rows mask -> 0 < cols mask ->
        width image_shape <= Int32.max_signed ->
        height image_shape <= Int32.max_signed ->
        box_in_image image_shape y1 x1 y2 x2 ->
        exists full,
          UnmoldMask interp mask [y1; x1; y2; x2] image_shape = Ok full)
  /\ Z.of_nat (length (sel_boxes sel)) = sel_N sel
  /\ Forall (fun row =>
               exists b,
                 row = box_row b
                 /\ positive_area b = true
                 /\ b_y2 b <> b_y1 b /\ b_x2 b <> b_x1 b
                 /\ (0 <= b_y1 b <= b_y2 b -> b_y2 b <= height image_shape ->
                     0 <= b_x1 b <= b_x2 b -> b_x2 b <= width image_shape ->
                     box_in_image image_shape (b_y1 b) (b_x1 b) (b_y2 b) (b_x2 b)))
            (sel_boxes sel).
Proof.
  intros Hsel HN (d & Hd & Hkept).
  split; [intros mask y1 x1 y2 x2 full; apply unmold_mask_only_defined | ].
  split.
  { intros mask y1 x1 y2 x2 Hr Hc HW HH Hbox.
    destruct (unmold_mask_defined interp mask y1 x1 y2 x2 image_shape
                Hr Hc Hbox HW HH) as (full & Hfull & _).
    now exists full. }
  apply select_detections_inv in Hsel
    as (N' & firstN & boxes & HN' & HfirstN & Hremap & _ & Hlen & Hcases).
  rewrite HN in HN'. inversion HN'; subst N'; clear HN'.
  apply narrow0_prefix in HfirstN as (_ & -> & _).
  split; [exact Hlen | ].
  apply mapM_Forall2 in Hremap.
  destruct (Forall2_in_left _ _ _ _ Hremap Hd) as (b & Hb & Hdb).
  unfold retained in Hkept. rewrite Hdb in Hkept.
  assert (Hin : In b (filter positive_area boxes))
    by (apply filter_In; split; assumption).
  destruct Hcases as [(Hnone & _ & _) | (_ & ->)].
  - rewrite Hnone in Hin. contradiction.
  - apply Forall_map. apply Forall_forall. intros b' Hb'.
    apply filter_In in Hb' as [_ Hpos].
    exists b'. split; [reflexivity | ]. split; [exact Hpos | ].
    destruct (positive_area_sides b' Hpos) as [Hy Hx].
    split; [exact Hy | ]. split; [exact Hx | ].
    intros Hy1 Hy2 Hx1 Hx2. unfold box_in_image. lia.
Qed.

Lemma unmold_calls_spec_witness :
  Forall (fun row =>
            exists b,
              row = box_row b /\ positive_area b = true
              /\ box_in_image Examples.shape5x4
                              (b_y1 b) (b_x1 b) (b_y2 b) (b_x2 b))
         [[0; 0; 2; 2]; [1; 1; 3; 4]].
Proof.
  assert (Hsel : select_detections data_u8_low_byte
                   (detections_tensor Examples.two_boxes)
                   (Examples.mask_stack 3) Examples.shape5x4 Examples.window5x4
                 = Ok (mkSelection [[0; 0; 2; 2]; [1; 1; 3; 4]] (Vec1 [1; 2])
                         [[F32.half]; [F32.half]]
                         [Examples.ones2; Examples.ones2] 2))
    by reflexivity.
  destruct (unmold_calls_spec nearest data_u8_low_byte Examples.two_boxes
              (Examples.mask_stack 3) Examples.shape5x4 Examples.window5x4
              _ 2 Hsel eq_refl) as (_ & _ & _ & Hall).
  - exists (Examples.detection 0 0 2 2 1). split; [now left | reflexivity].
  - simpl sel_boxes in Hall.
    inversion Hall as [ | r1 l1 (b1 & E1 & P1 & _ & _ & I1) Hall1]; subst.
    inversion Hall1 as [ | r2 l2 (b2 & E2 & P2 & _ & _ & I2) _]; subst.
    destruct b1 as [a1 a2 a3 a4], b2 as [c1 c2 c3 c4].
    unfold box_row in E1, E2. simpl in E1, E2.
    inversion E1; inversion E2; subst.
    constructor; [ | constructor; [ | constructor]].
    + exists (mkIntBox 0 0 2 2). split; [reflexivity | ].
      split; [exact P1 | ]. apply I1; simpl; lia.
    + exists (mkIntBox 1 1 3 4). split; [reflexivity | ].
      split; [exact P2 | ]. apply I2; simpl; lia.
Defined.

(** C10 as stated fails: both of these detections pass the area filter,
    and the first box handed to [UnmoldMask] is [0, 0, 20, 20] for an
    image 5 wide and 4 high. *)
Lemma unmold_calls_counterexample :
  exists sel mask,
    select_detections data_u8_low_byte
      (detections_tensor Examples.two_large_boxes)
      (Examples.mask_stack 2) Examples.shape5x4 Examples.window5x4 = Ok sel
    /\ sel_N sel = 2
    /\ select (sel_boxes sel) 0 = Ok [0; 0; 20; 20]
    /\ select (sel_masks sel) 0 = Ok mask
    /\ positive_area (mkIntBox 0 0 20 20) = true
    /\ ~ box_in_image Examples.shape5x4 0 0 20 20
    /\ UnmoldMask nearest mask [0; 0; 20; 20] Examples.shape5x4 = Err CvAssert.
Proof.
  eexists. eexists.
  split; [reflexivity | ]. split; [reflexivity | ]. split; [reflexivity | ].
  split; [reflexivity | ]. split; [reflexivity | ].
  split; [ | reflexivity].
  unfold box_in_image. simpl. lia.
Qed.

(** C1, at two real detections whose boxes have no area: no box passes
    the filter, the branch that would "make empty tensors" does nothing,
    so both boxes are still present with [N = 2] when the mask loop
    starts, and the call ends in the assertion of [cv::resize] instead of
    returning empty outputs. *)
Theorem unmold_all_filtered_not_empty
        (interp : Mat F32.float -> Z -> Z -> Z -> Z -> F32.float)
        (data_u8 : Z -> result Z) :
  (exists sel,
      select_detections data_u8 (detections_tensor Examples.two_empty_boxes)
        (Examples.mask_stack 2) Examples.shape5x4 Examples.window5x4 = Ok sel
      /\ sel_boxes sel = [[0; 0; 0; 0]; [2; 2; 2; 2]]
      /\ sel_class_ids sel = Vec1 [1; 2]
      /\ length (sel_scores sel) = 2%nat
      /\ length (sel_masks sel) = 2%nat
      /\ sel_N sel = 2)
  /\ UnmoldDetections interp data_u8
       (detections_tensor Examples.two_empty_boxes)
       (Examples.mask_stack 2) Examples.shape5x4 Examples.window5x4
     = Err CvAssert.
Proof.
  split; [ | reflexivity].
  eexists. split; [reflexivity | ]. repeat split.
Qed.

(** C2, at 256 real detections followed by a zero row: the first zero
    class id is in row 256, but the index is read through a [uint8_t]
    pointer, which yields 0 (its low byte), or raises where the accessor
    checks the element type; in neither case is the count 256. *)
Theorem detection_count_reads_one_byte :
  valid_count Examples.buffer257 = 256
  /\ length Examples.buffer257 = 257%nat
  /\ detection_count data_u8_low_byte (detections_tensor Examples.buffer257)
     = Ok 0
  /\ detection_count data_u8_checked (detections_tensor Examples.buffer257)
     = Err TorchError.
Proof.
  rewrite !detection_count_spec.
  assert (Hcount : valid_count Examples.buffer257 = 256) by (vm_compute; reflexivity).
  rewrite Hcount. repeat split.
Qed.

(** ** Where the counted rows and the filter do agree with the intent *)

(** Without a zero row the count is the number of rows, whatever the
    accessor does. *)
Lemma detection_count_no_zero_row (data_u8 : Z -> result Z) (ds : list Detection) :
  valid_count ds = Z.of_nat (length ds) ->
  detection_count data_u8 (detections_tensor ds) = Ok (Z.of_nat (length ds)).
Proof.
  intros H. rewrite detection_count_spec, H, Z.ltb_irrefl. reflexivity.
Qed.

(** Read as a byte, the count is right while the first zero row is among
    the first 256 rows. *)
Lemma detection_count_low_byte (ds : list Detection) :
  valid_count ds < 256 ->
  detection_count data_u8_low_byte (detections_tensor ds) = Ok (valid_count ds).
Proof.
  intros H. rewrite detection_count_spec.
  pose proof (valid_count_range ds) as Hrange.
  destruct (valid_count ds <? Z.of_nat (length ds)) eqn:Hlt.
  - unfold data_u8_low_byte. rewrite Z.mod_small by (simpl; lia). reflexivity.
  - apply Z.ltb_ge in Hlt. f_equal. lia.
Qed.

Lemma select_nth {A : Type} (l : list A) (n : nat) (a b : A) :
  nth_error l n = Some a -> select l (Z.of_nat n) = Ok b -> b = a.
Proof.
  unfold select. intros Hn.
  destruct ((0 <=? Z.of_nat n) && (Z.of_nat n <? Z.of_nat (length l)));
    [ | discriminate].
  rewrite Nat2Z.id, Hn. intros H. now inversion H.
Qed.

(** Every box of the selection goes through [UnmoldMask]. *)
Lemma unmold_masks_calls
      (interp : Mat F32.float -> Z -> Z -> Z -> Z -> F32.float)
      (sel : Selection) (image_shape : Size) (full_masks : list (Mat Z)) :
  unmold_masks interp sel image_shape = Ok full_masks ->
  Z.of_nat (length (sel_boxes sel)) = sel_N sel ->
  Z.of_nat (length full_masks) = sel_N sel
  /\ Forall (fun row => exists mask full,
                 UnmoldMask interp mask row image_shape = Ok full)
            (sel_boxes sel).
Proof.
  unfold unmold_masks. intros Hrun Hlen.
  split.
  - apply mapM_length in Hrun. rewrite Hrun, length_zrange.
    rewrite <- Hlen. lia.
  - apply mapM_Forall2 in Hrun. apply Forall_forall. intros row Hrow.
    apply In_nth_error in Hrow as (n & Hn).
    assert (Hin : In (Z.of_nat n) (zrange (sel_N sel))).
    { apply in_zrange. rewrite <- Hlen.
      assert (n < length (sel_boxes sel))%nat
        by (apply nth_error_Some; congruence).
      lia. }
    destruct (Forall2_in_left _ _ _ _ Hrun Hin) as (full & _ & Hcall).
    apply bind_ok in Hcall as (mask & _ & Hcall).
    apply bind_ok in Hcall as (bbox & Hbbox & Hcall).
    apply (select_nth _ _ _ _ Hn) in Hbbox. subst bbox.
    now exists mask, full.
Qed.

(** When [UnmoldDetections] returns, there are at most [N] boxes, one
    full mask per box, and every box has positive sides inside the
    image. *)
Lemma unmold_outputs_in_image
      (interp : Mat F32.float -> Z -> Z -> Z -> Z -> F32.float)
      (data_u8 : Z -> result Z) (ds : list Detection)
      (mrcnn_mask : list (list (Mat F32.float)))
      (image_shape : Size) (window : Window)
      (boxes : list (list Z)) (class_ids : Squeezed Z)
      (scores : list (list F32.float)) (full_masks : list (Mat Z)) :
  UnmoldDetections interp data_u8 (detections_tensor ds) mrcnn_mask
                   image_shape window
  = Ok (boxes, class_ids, scores, full_masks) ->
  exists N,
    detection_count data_u8 (detections_tensor ds) = Ok N
    /\ Z.of_nat (length boxes) <= N
    /\ length full_masks = length boxes
    /\ Forall (fun row =>
                 exists b, row = box_row b
                           /\ box_in_image image_shape
                                (b_y1 b) (b_x1 b) (b_y2 b) (b_x2 b))
              boxes.
Proof.
  intros Hrun.
  apply unmold_detections_inv in Hrun as (sel & Hsel & Hmasks & -> & _ & _).
  apply select_detections_inv in Hsel
    as (N & firstN & ibs & HN & HfirstN & Hremap & _ & Hlen & Hcases).
  destruct (unmold_masks_calls interp sel image_shape full_masks Hmasks Hlen)
    as (Hfull & Hcalls).
  apply narrow0_prefix in HfirstN as (_ & _ & HlenN).
  apply mapM_length in Hremap.
  exists N. split; [exact HN | ].
  assert (Hrows : exists bs, sel_boxes sel = map box_row bs
                             /\ (length bs <= length ibs)%nat).
  { destruct Hcases as [(_ & -> & _) | (_ & ->)].
    - exists ibs. split; [reflexivity | lia].
    - exists (filter positive_area ibs). split; [reflexivity | ].
      apply filter_length_le. }
  destruct Hrows as (bs & Hbs & Hle).
  split; [rewrite Hbs, length_map; lia | ].
  split; [lia | ].
  rewrite Hbs in Hcalls |- *.
  apply Forall_map. rewrite Forall_map in Hcalls.
  eapply Forall_impl; [ | exact Hcalls].
  intros b (mask & full & Hcall). exists b. split; [reflexivity | ].
  eapply unmold_mask_only_defined. exact Hcall.
Qed.

(** ** UnmoldDetections returns on well-formed detections *)

Lemma narrow0_map {A B : Type} (g : A -> B) (l l' : list A) (start len : Z) :
  narrow0 l start len = Ok l' -> narrow0 (map g l) start len = Ok (map g l').
Proof.
  unfold narrow0. rewrite length_map.
  destruct ((0 <=? start) && (0 <=? len) && (start + len <=? Z.of_nat (length l)));
    [ | discriminate].
  intros H. inversion H; subst. now rewrite skipn_map, firstn_map.
Qed.

Lemma positions_from_range (k : Z) (bs : list bool) :
  Forall (fun i => k <= i < k + Z.of_nat (length bs)) (positions_from k bs).
Proof.
  revert k. induction bs as [ | b bs IH]; intros k; [constructor | ].
  simpl positions_from. simpl length.
  assert (Hrest : Forall (fun i => k <= i < k + Z.of_nat (S (length bs)))
                         (positions_from (Z.succ k) bs)).
  { eapply Forall_impl; [ | apply IH]. simpl. intros i Hi. lia. }
  destruct b; [constructor; [lia | exact Hrest] | exact Hrest].
Qed.

Lemma select_total {A : Type} (t : list A) (i : Z) :
  0 <= i < Z.of_nat (length t) -> exists a, select t i = Ok a /\ In a t.
Proof.
  intros Hi. unfold select.
  leb_true 0 i. ltb_true i (Z.of_nat (length t)). simpl.
  destruct (nth_error t (Z.to_nat i)) as [a | ] eqn:Hnth.
  - exists a. split; [reflexivity | eapply nth_error_In; eassumption].
  - apply nth_error_None in Hnth. lia.
Qed.

Lemma index_select0_total {A : Type} (t : list A) (index : list Z) :
  Forall (fun i => 0 <= i < Z.of_nat (length t)) index ->
  exists out, index_select0 t index = Ok out
              /\ length out = length index /\ Forall (fun a => In a t) out.
Proof.
  unfold index_select0.
  induction 1 as [ | i index Hi _ (out & Hout & Hlen & Hin)].
  - exists []. repeat split; constructor.
  - destruct (select_total t i Hi) as (a & Ha & Hat).
    exists (a :: out). simpl. rewrite Ha, Hout. simpl.
    split; [reflexivity | ]. split; [now rewrite Hlen | now constructor].
Qed.

(** X13: with at least two boxes passing the area filter, all of them
    inside the image, [UnmoldDetections] returns exactly those boxes, in
    order, and one full mask for each. *)
Lemma unmold_detections_returns
      (interp : Mat F32.float -> Z -> Z -> Z -> Z -> F32.float)
      (data_u8 : Z -> result Z) (ds firstN : list Detection)
      (mrcnn_mask : list (list (Mat F32.float)))
      (image_shape : Size) (window : Window) (N : Z)
      (class_long : list Z) (masks : list (Mat F32.float))
      (boxes : list IntBox) :
  detection_count data_u8 (detections_tensor ds) = Ok N ->
  narrow0 ds 0 N = Ok firstN ->
  mapM (fun d => F32.to_int64 (det_class_id d)) firstN = Ok class_long ->
  index_select_2d (zrange N) class_long mrcnn_mask = Ok masks ->
  Forall (fun m => 0 < rows m /\ 0 < cols m) masks ->
  Int32.min_signed <= y2 window - y1 window <= Int32.max_signed ->
  Int32.min_signed <= x2 window - x1 window <= Int32.max_signed ->
  mapM (remap_box image_shape window) firstN = Ok boxes ->
  (2 <= length (filter positive_area boxes))%nat ->
  Forall (fun b => box_in_image image_shape (b_y1 b) (b_x1 b) (b_y2 b) (b_x2 b))
         (filter positive_area boxes) ->
  width image_shape <= Int32.max_signed ->
  height image_shape <= Int32.max_signed ->
  exists class_ids scores full_masks,
    UnmoldDetections interp data_u8 (detections_tensor ds) mrcnn_mask
                     image_shape window
    = Ok (map box_row (filter positive_area boxes), class_ids, scores,
          full_masks)
    /\ length full_masks = length (filter positive_area boxes).
Proof.
  intros HN HfirstN Hlong Hmasks Hnonempty Hdy Hdx Hremap Htwo Hinside HW HH.
  pose proof (mapM_length _ _ _ Hremap) as Hlb.
  pose proof (mapM_length _ _ _ Hlong) as Hlc.
  pose proof (index_select_2d_length _ _ _ _ Hmasks) as Hlm.
  rewrite length_zrange in Hlm.
  apply narrow0_prefix in HfirstN as Hprefix.
  destruct Hprefix as (HNr & _ & HlenN).
  pose proof (positions_from_range 0 (map positive_area boxes)) as Hrange.
  rewrite length_map in Hrange.
  pose proof (length_positions_from 0 (map positive_area boxes)) as Hlen.
  rewrite filter_map_flags in Hlen.
  pose proof (index_select_positions box_row positive_area boxes) as Hsel.
  destruct (index_select0_total class_long
              (positions_from 0 (map positive_area boxes)))
    as (class_sel & Hcs & Hcslen & _);
    [eapply Forall_impl; [ | exact Hrange]; simpl; intros i Hi; lia | ].
  destruct (index_select0_total (map (fun d => [det_score d]) firstN)
              (positions_from 0 (map positive_area boxes)))
    as (scores_sel & Hss & _ & _);
    [eapply Forall_impl; [ | exact Hrange]; simpl; intros i Hi;
     rewrite length_map; lia | ].
  destruct (index_select0_total masks
              (positions_from 0 (map positive_area boxes)))
    as (masks_sel & Hms & Hmslen & Hmsin);
    [eapply Forall_impl; [ | exact Hrange]; simpl; intros i Hi; lia | ].
  (* the state at the mask loop *)
  assert (Hstate :
            select_detections data_u8 (detections_tensor ds) mrcnn_mask
                              image_shape window
            = Ok (mkSelection (map box_row (filter positive_area boxes))
                    (Vec1 class_sel) scores_sel masks_sel
                    (Z.of_nat (length class_sel)))).
  { unfold select_detections. rewrite HN. cbn [bind].
    unfold detections_tensor. rewrite (narrow0_map row_of _ _ _ _ HfirstN).
    cbn [bind]. rewrite narrow_boxes, narrow_class, narrow_scores.
    cbn [bind]. rewrite tensor_mapM_column, Hlong. cbn [bind].
    rewrite elements_squeeze_column, Hmasks. cbn [bind].
    unfold Int32.sub. rewrite (check_in_range _ Hdy), (check_in_range _ Hdx).
    cbn [bind]. rewrite remap_pipeline.
    assert (Hremap' :
              mapM (remap_box_with (F32.of_Z (y1 window)) (F32.of_Z (x1 window))
                      (F32.min
                         (F32.div (F32.of_Z (height image_shape))
                                  (F32.of_Z (y2 window - y1 window)))
                         (F32.div (F32.of_Z (width image_shape))
                                  (F32.of_Z (x2 window - x1 window)))))
                   firstN = Ok boxes) by exact Hremap.
    rewrite Hremap'. cbn [bind].
    rewrite (narrow_box_column 2 b_y2), (narrow_box_column 0 b_y1),
      (narrow_box_column 3 b_x2), (narrow_box_column 1 b_x1) by reflexivity.
    cbn [bind]. rewrite area_flags, nonzero_column.
    unfold narrow1 at 1.
    rewrite (mapM_map_ok _ _ (fun i : Z => [i])) by reflexivity.
    cbn [bind]. rewrite squeeze_column.
    destruct (positions_from 0 (map positive_area boxes))
      as [ | i [ | j rest]] eqn:Hpos; simpl in Hlen; try lia.
    cbn [size0 bind elements].
    match goal with
    | |- (if ?c then _ else _) = _ =>
        replace c with true by (symmetry; apply Z.ltb_lt; simpl length; lia)
    end.
    rewrite Hsel, Hcs, Hss, Hms. reflexivity. }
  (* the mask loop *)
  assert (Hloop : exists full_masks,
             unmold_masks interp
               (mkSelection (map box_row (filter positive_area boxes))
                  (Vec1 class_sel) scores_sel masks_sel
                  (Z.of_nat (length class_sel))) image_shape
             = Ok full_masks).
  { unfold unmold_masks. simpl. apply mapM_total.
    apply Forall_forall. intros i Hi. apply in_zrange in Hi.
    destruct (select_total masks_sel i) as (mask & Hmask & Hmask_in);
      [lia | ].
    destruct (select_total (map box_row (filter positive_area boxes)) i)
      as (row & Hrow & Hrow_in); [rewrite length_map; lia | ].
    rewrite Hmask, Hrow. cbn [bind].
    apply in_map_iff in Hrow_in as (b & <- & Hb).
    rewrite Forall_forall in Hinside, Hmsin, Hnonempty.
    destruct (Hnonempty mask (Hmsin mask Hmask_in)) as [Hr Hc].
    destruct (unmold_mask_defined interp mask (b_y1 b) (b_x1 b) (b_y2 b)
                (b_x2 b) image_shape Hr Hc (Hinside b Hb) HW HH)
      as (full & Hfull & _).
    exists full. exact Hfull. }
  destruct Hloop as (full_masks & Hloop).
  exists (Vec1 class_sel), scores_sel, full_masks.
  unfold UnmoldDetections. rewrite Hstate. cbn [bind]. rewrite Hloop.
  split; [reflexivity | ].
  apply mapM_length in Hloop. rewrite Hloop, length_zrange. simpl.
  rewrite Nat2Z.id. congruence.
Qed.

(** * Further properties of the code *)

(** ** CvImageToTensor *)

Lemma plane_index (c h r w x : Z) :
  0 <= x < w ->
  ((c * h + r) * w + x) / w = c * h + r /\ ((c * h + r) * w + x) mod w = x.
Proof.
  intros Hx. split.
  - rewrite Z.div_add_l by lia. rewrite Z.div_small by lia. lia.
  - rewrite Z.add_comm, Z.mod_add by lia. apply Z.mod_small. lia.
Qed.

(** The tensor built from a float image: channel [c] of the tensor is
    channel [2 - c] of the image. *)
Lemma cv_image_to_tensor_run (image : Mat (Vec3 F32.float)) :
  exists t,
    CvImageToTensor image = Ok t
    /\ t_channels t = 3 /\ t_height t = rows image /\ t_width t = cols image
    /\ forall c r x,
         0 <= c < 3 -> 0 <= r < rows image -> 0 <= x < cols image ->
         t_at t c r x = channel (2 - c) (px image r x).
Proof.
  unfold CvImageToTensor, vconcat. simpl. rewrite Z.eqb_refl. simpl.
  rewrite Z.eqb_refl. simpl.
  eexists. split; [reflexivity | ]. simpl.
  split; [reflexivity | ]. split; [reflexivity | ]. split; [reflexivity | ].
  intros c r x Hc Hr Hx. unfold buffer_at. simpl.
  destruct (plane_index c (rows image) r (cols image) x Hx) as [-> ->].
  assert (Hcases : c = 0 \/ c = 1 \/ c = 2) by lia.
  destruct Hcases as [-> | [-> | ->]].
  - replace (0 * rows image + r <? rows image + rows image) with true
      by (symmetry; apply Z.ltb_lt; lia).
    replace (0 * rows image + r <? rows image) with true
      by (symmetry; apply Z.ltb_lt; lia).
    replace (0 * rows image + r) with r by lia. reflexivity.
  - replace (1 * rows image + r <? rows image + rows image) with true
      by (symmetry; apply Z.ltb_lt; lia).
    replace (1 * rows image + r <? rows image) with false
      by (symmetry; apply Z.ltb_ge; lia).
    replace (1 * rows image + r - rows image) with r by lia. reflexivity.
  - replace (2 * rows image + r <? rows image + rows image) with false
      by (symmetry; apply Z.ltb_ge; lia).
    replace (2 * rows image + r - (rows image + rows image)) with r by lia.
    reflexivity.
Qed.

(** X1: [CvImageToTensor] always returns on a three-channel float image;
    the tensor has the sizes [3, rows, cols], and its planes 0, 1, 2 are
    the image's channels 2, 1, 0: the channel order is reversed and the
    interleaved pixels become planes. *)
Theorem cv_image_to_tensor_planes (image : Mat (Vec3 F32.float)) :
  exists t,
    CvImageToTensor image = Ok t
    /\ (t_channels t, t_height t, t_width t) = (3, rows image, cols image)
    /\ forall r x,
         0 <= r < rows image -> 0 <= x < cols image ->
         t_at t 0 r x = ch2 (px image r x)
         /\ t_at t 1 r x = ch1 (px image r x)
         /\ t_at t 2 r x = ch0 (px image r x).
Proof.
  destruct (cv_image_to_tensor_run image) as (t & Hrun & Hc & Hh & Hw & Hat).
  exists t. split; [exact Hrun | ].
  split; [now rewrite Hc, Hh, Hw | ].
  intros r x Hr Hx.
  split; [ | split].
  - now rewrite (Hat 0 r x) by lia.
  - now rewrite (Hat 1 r x) by lia.
  - now rewrite (Hat 2 r x) by lia.
Qed.

Lemma cv_image_to_tensor_planes_witness :
  exists t,
    CvImageToTensor (convert_to_float MoldExamples.image2x3) = Ok t
    /\ t_at t 0 1 2 = F32.of_Z 200
    /\ t_at t 1 1 2 = F32.of_Z 100
    /\ t_at t 2 1 2 = F32.of_Z 12.
Proof.
  destruct (cv_image_to_tensor_planes (convert_to_float MoldExamples.image2x3))
    as (t & Hrun & _ & Hat).
  exists t. split; [exact Hrun | ].
  destruct (Hat 1 2) as (H0 & H1 & H2); [simpl; lia | simpl; lia | ].
  rewrite H0, H1, H2. repeat split.
Defined.

(** ** MoldInputs *)

Lemma Forall2_nth_left {A B : Type} (R : A -> B -> Prop) (la : list A)
      (lb : list B) (i : nat) (a : A) :
  Forall2 R la lb -> nth_error la i = Some a ->
  exists b, nth_error lb i = Some b /\ R a b.
Proof.
  intros H. revert i. induction H as [ | a' b la lb Hab _ IH]; intros i Hi.
  - destruct i; discriminate.
  - destruct i as [ | i]; simpl in *.
    + inversion Hi; subst. now exists b.
    + now apply IH.
Qed.

Lemma mold_input_inv
      (interp : Mat (Vec3 Z) -> Z -> Z -> Z -> Z -> Vec3 Z)
      (config : Config) (image : Mat (Vec3 Z))
      (t : Tensor3) (meta : ImageMeta) (window : Window) :
  mold_input interp config image = Ok (t, meta, window) ->
  exists molded scale padding,
    ResizeImage (mkVec3 0 0 0) interp image (image_min_dim config)
                (image_max_dim config) (image_padding config)
    = Ok (molded, window, scale, padding)
    /\ meta = mkImageMeta 0 (rows image) (cols image) window
                          (repeat 0 (num_classes config))
    /\ CvImageToTensor (MoldImage (convert_to_float molded) config) = Ok t.
Proof.
  unfold mold_input. intros H.
  apply bind_ok in H as ([[[molded window'] scale] padding] & Hres & H).
  apply bind_ok in H as (t' & Ht & H). inversion H; subst.
  exists molded, scale, padding. auto.
Qed.

(** What [torch::stack] returns: as many entries as tensors, at least one,
    all of the size of the batch. *)
Lemma stack_inv (tensors : list Tensor3) (b : Batch) :
  stack tensors = Ok b ->
  batch_size b = Z.of_nat (length tensors)
  /\ 0 < batch_size b
  /\ forall i t,
       nth_error tensors i = Some t ->
       t_channels t = batch_channels b /\ t_height t = batch_height b
       /\ t_width t = batch_width b
       /\ forall c r x, batch_at b (Z.of_nat i) c r x = t_at t c r x.
Proof.
  unfold stack. destruct tensors as [ | t0 rest]; [discriminate | ].
  destruct (forallb (same_shape t0) rest) eqn:Hsame; [ | discriminate].
  intros H. inversion H; subst b; clear H. simpl batch_size.
  split; [reflexivity | ]. split; [simpl length; lia | ].
  intros i t Hi. simpl.
  assert (Hshape : t_channels t = t_channels t0 /\ t_height t = t_height t0
                   /\ t_width t = t_width t0).
  { destruct i as [ | i]; simpl in Hi.
    - inversion Hi; subst. auto.
    - apply nth_error_In in Hi. rewrite forallb_forall in Hsame.
      specialize (Hsame t Hi). unfold same_shape in Hsame.
      tests_to_props. auto. }
  destruct Hshape as (Hc & Hh & Hw).
  split; [exact Hc | ]. split; [exact Hh | ]. split; [exact Hw | ].
  intros c r x. rewrite Nat2Z.id.
  change (nth_error (t0 :: rest) i) with (nth_error (t0 :: rest) i).
  now rewrite Hi.
Qed.

Lemma stack_total (tensors : list Tensor3) (c h w : Z) :
  tensors <> [] ->
  Forall (fun t => t_channels t = c /\ t_height t = h /\ t_width t = w) tensors ->
  exists b, stack tensors = Ok b
            /\ batch_size b = Z.of_nat (length tensors)
            /\ batch_channels b = c /\ batch_height b = h /\ batch_width b = w.
Proof.
  intros Hne Hall. destruct tensors as [ | t0 rest]; [contradiction | ].
  inversion Hall as [ | ? ? (Hc & Hh & Hw) Hrest]; subst.
  unfold stack.
  assert (Hsame : forallb (same_shape t0) rest = true).
  { apply forallb_forall. intros t Ht. rewrite Forall_forall in Hrest.
    destruct (Hrest t Ht) as (Hc' & Hh' & Hw'). unfold same_shape.
    rewrite Hc', Hh', Hw', !Z.eqb_refl. reflexivity. }
  rewrite Hsame. eexists. split; [reflexivity | ]. simpl. auto.
Qed.

Lemma mold_inputs_inv
      (interp : Mat (Vec3 Z) -> Z -> Z -> Z -> Z -> Vec3 Z)
      (to_cuda : Batch -> result Batch)
      (images : list (Mat (Vec3 Z))) (config : Config)
      (batch : Batch) (metas : list ImageMeta) (windows : list Window) :
  MoldInputs interp to_cuda images config = Ok (batch, metas, windows) ->
  exists molded host,
    Forall2 (fun image m => mold_input interp config image = Ok m) images molded
    /\ stack (map (fun m => fst (fst m)) molded) = Ok host
    /\ (if 0 <? gpu_count config then to_cuda host else Ok host) = Ok batch
    /\ metas = map (fun m => snd (fst m)) molded
    /\ windows = map (fun m => snd m) molded.
Proof.
  unfold MoldInputs. intros H.
  apply bind_ok in H as (molded & Hmolded & H).
  apply bind_ok in H as (host & Hhost & H).
  apply bind_ok in H as (batch' & Hbatch & H). inversion H; subst.
  exists molded, host. apply mapM_Forall2 in Hmolded. auto.
Qed.

(** X2: [MoldInputs] on an empty list of images raises: there is nothing
    for [torch::stack] to stack.  This holds for every configuration and
    before any transfer to the device. *)
Theorem mold_inputs_empty_batch
        (interp : Mat (Vec3 Z) -> Z -> Z -> Z -> Z -> Vec3 Z)
        (to_cuda : Batch -> result Batch) (config : Config) :
  MoldInputs interp to_cuda [] config = Err TorchError
  /\ forall images batch metas windows,
       MoldInputs interp to_cuda images config = Ok (batch, metas, windows) ->
       images <> [].
Proof.
  split; [reflexivity | ].
  intros images batch metas windows H Hnil. subst images.
  discriminate H.
Qed.

Lemma mold_inputs_empty_batch_witness :
  exists batch metas windows,
    MoldInputs nearest MoldExamples.no_device
               [MoldExamples.image2x3] MoldExamples.plain_config
    = Ok (batch, metas, windows)
    /\ [MoldExamples.image2x3] <> [].
Proof.
  assert (Hrun : exists batch metas windows,
             MoldInputs nearest MoldExamples.no_device
                        [MoldExamples.image2x3] MoldExamples.plain_config
             = Ok (batch, metas, windows))
    by (do 3 eexists; reflexivity).
  destruct Hrun as (batch & metas & windows & Hrun).
  exists batch, metas, windows. split; [exact Hrun | ].
  destruct (mold_inputs_empty_batch nearest MoldExamples.no_device
              MoldExamples.plain_config) as [_ Hne].
  eapply Hne. exact Hrun.
Defined.

(** X3: when [MoldInputs] returns, it returns one meta and one window per
    image, in the order of the images: the meta holds 0, the rows and
    columns of the image as it was passed in (before resizing),
    [num_classes] zeros, and the very window that [ResizeImage] returned
    for that image, which is also the entry of the window list. *)
Theorem mold_inputs_metas
        (interp : Mat (Vec3 Z) -> Z -> Z -> Z -> Z -> Vec3 Z)
        (to_cuda : Batch -> result Batch)
        (images : list (Mat (Vec3 Z))) (config : Config)
        (batch : Batch) (metas : list ImageMeta) (windows : list Window) :
  MoldInputs interp to_cuda images config = Ok (batch, metas, windows) ->
  length metas = length images
  /\ windows = map meta_window metas
  /\ Forall2 (fun image meta =>
                image_id meta = 0
                /\ image_height meta = rows image
                /\ image_width meta = cols image
                /\ active_class_ids meta = repeat 0 (num_classes config)
                /\ exists molded scale padding,
                     ResizeImage (mkVec3 0 0 0) interp image
                       (image_min_dim config) (image_max_dim config)
                       (image_padding config)
                     = Ok (molded, meta_window meta, scale, padding))
             images metas.
Proof.
  intros H.
  apply mold_inputs_inv in H as (molded & host & Hmolded & _ & _ & -> & ->).
  split; [rewrite length_map; symmetry; eapply Forall2_length; eassumption | ].
  assert (Hper : Forall2 (fun image m =>
                            exists molded_image scale padding,
                              ResizeImage (mkVec3 0 0 0) interp image
                                (image_min_dim config) (image_max_dim config)
                                (image_padding config)
                              = Ok (molded_image, snd m, scale, padding)
                              /\ snd (fst m)
                                 = mkImageMeta 0 (rows image) (cols image) (snd m)
                                               (repeat 0 (num_classes config)))
                         images molded).
  { eapply Forall2_impl; [ | exact Hmolded].
    intros image [[t meta] window] Hm. simpl.
    apply mold_input_inv in Hm as (mi & scale & padding & Hres & Hmeta & _).
    exists mi, scale, padding. auto. }
  clear Hmolded. split.
  - rewrite map_map. induction Hper as [ | image m images molded Hm _ IH];
      [reflexivity | ].
    simpl. rewrite <- IH.
    destruct Hm as (_ & _ & _ & _ & ->). reflexivity.
  - apply Forall2_map_right.
    eapply Forall2_impl; [ | exact Hper].
    intros image m (mi & scale & padding & Hres & Hmeta). rewrite Hmeta. simpl.
    repeat split. exists mi, scale, padding. exact Hres.
Qed.

Lemma mold_inputs_metas_witness :
  exists batch metas,
    MoldInputs nearest MoldExamples.no_device
               [MoldExamples.image2x3; MoldExamples.image3x2]
               MoldExamples.padded_config
    = Ok (batch, metas, [mkWindow 1 0 3 3; mkWindow 0 1 3 3])
    /\ map meta_window metas = [mkWindow 1 0 3 3; mkWindow 0 1 3 3]
    /\ length metas = 2%nat.
Proof.
  assert (Hrun : exists batch metas,
             MoldInputs nearest MoldExamples.no_device
                        [MoldExamples.image2x3; MoldExamples.image3x2]
                        MoldExamples.padded_config
             = Ok (batch, metas, [mkWindow 1 0 3 3; mkWindow 0 1 3 3]))
    by (do 2 eexists; reflexivity).
  destruct Hrun as (batch & metas & Hrun).
  destruct (mold_inputs_metas _ _ _ _ _ _ _ Hrun) as (Hlen & Hwin & _).
  exists batch, metas. split; [exact Hrun | ].
  split; [now rewrite <- Hwin | exact Hlen].
Defined.

(** X4: when [MoldInputs] returns without a device transfer, the batch
    has one entry per image and three channels, every image was brought
    to the height and width of the batch by [ResizeImage], and plane [c]
    of entry [i] holds channel [2 - c] of that resized (and padded) image
    converted to float, minus [mean_pixel[c]]. *)
Theorem mold_inputs_batch
        (interp : Mat (Vec3 Z) -> Z -> Z -> Z -> Z -> Vec3 Z)
        (to_cuda : Batch -> result Batch)
        (images : list (Mat (Vec3 Z))) (config : Config)
        (batch : Batch) (metas : list ImageMeta) (windows : list Window) :
  MoldInputs interp to_cuda images config = Ok (batch, metas, windows) ->
  gpu_count config <= 0 ->
  batch_size batch = Z.of_nat (length images)
  /\ 0 < batch_size batch
  /\ batch_channels batch = 3
  /\ forall i image,
       nth_error images i = Some image ->
       exists molded window scale padding,
         ResizeImage (mkVec3 0 0 0) interp image (image_min_dim config)
                     (image_max_dim config) (image_padding config)
         = Ok (molded, window, scale, padding)
         /\ rows molded = batch_height batch
         /\ cols molded = batch_width batch
         /\ forall r x,
              0 <= r < rows molded -> 0 <= x < cols molded ->
              batch_at batch (Z.of_nat i) 0 r x
              = F32.sub (F32.of_Z (ch2 (px molded r x))) (mean_pixel_0 config)
              /\ batch_at batch (Z.of_nat i) 1 r x
                 = F32.sub (F32.of_Z (ch1 (px molded r x))) (mean_pixel_1 config)
              /\ batch_at batch (Z.of_nat i) 2 r x
                 = F32.sub (F32.of_Z (ch0 (px molded r x))) (mean_pixel_2 config).
Proof.
  intros H Hgpu.
  apply mold_inputs_inv in H as (molded & host & Hmolded & Hstack & Hcuda & _ & _).
  replace (0 <? gpu_count config) with false in Hcuda
    by (symmetry; apply Z.ltb_ge; exact Hgpu).
  inversion Hcuda; subst host; clear Hcuda.
  destruct (stack_inv _ _ Hstack) as (Hsize & Hpos & Hentries).
  rewrite length_map in Hsize.
  rewrite <- (Forall2_length Hmolded) in Hsize.
  assert (Hentry : forall i image,
             nth_error images i = Some image ->
             exists molded_image window scale padding t,
               ResizeImage (mkVec3 0 0 0) interp image (image_min_dim config)
                           (image_max_dim config) (image_padding config)
               = Ok (molded_image, window, scale, padding)
               /\ CvImageToTensor (MoldImage (convert_to_float molded_image) config)
                  = Ok t
               /\ t_channels t = batch_channels batch
               /\ t_height t = batch_height batch
               /\ t_width t = batch_width batch
               /\ forall c r x, batch_at batch (Z.of_nat i) c r x = t_at t c r x).
  { intros i image Hi.
    destruct (Forall2_nth_left _ _ _ _ _ Hmolded Hi) as ([[t meta] window] & Hm & Hrun).
    apply mold_input_inv in Hrun as (mi & scale & padding & Hres & _ & Ht).
    apply (map_nth_error (fun m : Tensor3 * ImageMeta * Window => fst (fst m)))
      in Hm.
    destruct (Hentries i t Hm) as (Hc & Hh & Hw & Hat).
    exists mi, window, scale, padding, t. auto 10. }
  split; [exact Hsize | ]. split; [exact Hpos | ].
  split.
  - destruct images as [ | image0 rest]; [simpl in Hsize; lia | ].
    destruct (Hentry 0%nat image0 eq_refl)
      as (mi & window & scale & padding & t & _ & Ht & Hc & _).
    destruct (cv_image_to_tensor_run (MoldImage (convert_to_float mi) config))
      as (t' & Ht' & Hc' & _).
    rewrite Ht in Ht'. inversion Ht'; subst t'. congruence.
  - intros i image Hi.
    destruct (Hentry i image Hi)
      as (mi & window & scale & padding & t & Hres & Ht & _ & Hh & Hw & Hat).
    destruct (cv_image_to_tensor_run (MoldImage (convert_to_float mi) config))
      as (t' & Ht' & _ & Hh' & Hw' & Hat').
    rewrite Ht in Ht'. inversion Ht'; subst t'.
    simpl in Hh', Hw'.
    exists mi, window, scale, padding.
    split; [exact Hres | ]. split; [congruence | ]. split; [congruence | ].
    intros r x Hr Hx.
    rewrite !Hat, !Hat' by (simpl; lia). simpl. repeat split.
Qed.

Lemma mold_inputs_batch_witness :
  exists batch metas windows,
    MoldInputs nearest MoldExamples.no_device
               [MoldExamples.image2x3; MoldExamples.image3x2]
               MoldExamples.padded_config
    = Ok (batch, metas, windows)
    /\ batch_size batch = 2 /\ batch_channels batch = 3.
Proof.
  assert (Hrun : exists batch metas windows,
             MoldInputs nearest MoldExamples.no_device
                        [MoldExamples.image2x3; MoldExamples.image3x2]
                        MoldExamples.padded_config
             = Ok (batch, metas, windows))
    by (do 3 eexists; reflexivity).
  destruct Hrun as (batch & metas & windows & Hrun).
  destruct (mold_inputs_batch _ _ _ _ _ _ _ Hrun) as (Hsize & _ & Hc & _);
    [simpl; lia | ].
  exists batch, metas, windows. split; [exact Hrun | ].
  split; [exact Hsize | exact Hc].
Defined.

Lemma mapM_total_with {A B : Type} (f : A -> result B) (P : B -> Prop)
      (l : list A) :
  Forall (fun a => exists b, f a = Ok b /\ P b) l ->
  exists out, mapM f l = Ok out /\ Forall P out /\ length out = length l.
Proof.
  induction 1 as [ | a l (b & Hb & HP) _ (out & Hout & Hall & Hlen)]; simpl.
  - exists []. repeat split. constructor.
  - exists (b :: out). rewrite Hb, Hout. simpl.
    split; [reflexivity | ]. split; [now constructor | now rewrite Hlen].
Qed.

(** [ResizeImage] with padding on an image that fits: a square canvas. *)
Lemma resize_image_padded_run {A : Type} (zero : A)
      (interp : Mat A -> Z -> Z -> Z -> Z -> A) (image resized : Mat A)
      (min_dim max_dim : Z) :
  resize_step interp image
              (resize_scale (rows image) (cols image) min_dim max_dim)
  = Ok resized ->
  0 <= rows resized <= max_dim -> 0 <= cols resized <= max_dim ->
  max_dim <= Int32.max_signed ->
  exists canvas window scale padding,
    ResizeImage zero interp image min_dim max_dim true
    = Ok (canvas, window, scale, padding)
    /\ rows canvas = max_dim /\ cols canvas = max_dim.
Proof.
  intros Hstep Hh Hw Hmax. unfold Int32.max_signed in Hmax.
  set (h := rows resized) in *. set (w := cols resized) in *.
  assert (Htop : Z.quot (max_dim - h) 2 = (max_dim - h) / 2)
    by (apply Z.quot_div_nonneg; lia).
  assert (Hleft : Z.quot (max_dim - w) 2 = (max_dim - w) / 2)
    by (apply Z.quot_div_nonneg; lia).
  pose proof (Z.mul_div_le (max_dim - h) 2).
  pose proof (Z.mul_succ_div_gt (max_dim - h) 2).
  pose proof (Z.mul_div_le (max_dim - w) 2).
  pose proof (Z.mul_succ_div_gt (max_dim - w) 2).
  unfold ResizeImage. rewrite Hstep. simpl bind. fold h w.
  unfold Int32.sub, Int32.add, Int32.div. simpl (2 =? 0). cbv iota.
  in_range (max_dim - h). in_range (max_dim - w). simpl bind.
  rewrite Htop, Hleft.
  in_range ((max_dim - h) / 2). simpl bind.
  in_range (max_dim - h - (max_dim - h) / 2). simpl bind.
  in_range ((max_dim - w) / 2). simpl bind.
  in_range (max_dim - w - (max_dim - w) / 2). simpl bind.
  unfold copyMakeBorder. fold h w.
  leb_true 0 ((max_dim - h) / 2).
  leb_true 0 (max_dim - h - (max_dim - h) / 2).
  leb_true 0 ((max_dim - w) / 2).
  leb_true 0 (max_dim - w - (max_dim - w) / 2).
  simpl bind.
  in_range (h + (max_dim - h) / 2). in_range (w + (max_dim - w) / 2).
  simpl bind.
  do 4 eexists. split; [reflexivity | ]. simpl. lia.
Qed.

(** X5: with padding configured, no device transfer, and at least one
    image, [MoldInputs] returns as soon as every image, after the resizing
    step, fits in [image_max_dim] both ways; the batch then has the sizes
    [n, 3, image_max_dim, image_max_dim], whatever the sizes of the
    images were. *)
Theorem mold_inputs_padded_returns
        (interp : Mat (Vec3 Z) -> Z -> Z -> Z -> Z -> Vec3 Z)
        (to_cuda : Batch -> result Batch)
        (images : list (Mat (Vec3 Z))) (config : Config) :
  images <> [] ->
  image_padding config = true ->
  gpu_count config <= 0 ->
  image_max_dim config <= Int32.max_signed ->
  Forall (fun image =>
            exists resized,
              resize_step interp image
                (resize_scale (rows image) (cols image)
                              (image_min_dim config) (image_max_dim config))
              = Ok resized
              /\ 0 <= rows resized <= image_max_dim config
              /\ 0 <= cols resized <= image_max_dim config)
         images ->
  exists batch metas windows,
    MoldInputs interp to_cuda images config = Ok (batch, metas, windows)
    /\ batch_size batch = Z.of_nat (length images)
    /\ batch_channels batch = 3
    /\ batch_height batch = image_max_dim config
    /\ batch_width batch = image_max_dim config.
Proof.
  intros Hne Hpad Hgpu Hmax Hfit.
  destruct (mapM_total_with (mold_input interp config)
              (fun m => t_channels (fst (fst m)) = 3
                        /\ t_height (fst (fst m)) = image_max_dim config
                        /\ t_width (fst (fst m)) = image_max_dim config)
              images) as (molded & Hmolded & Hshapes & Hlen).
  { eapply Forall_impl; [ | exact Hfit].
    intros image (resized & Hstep & Hh & Hw).
    destruct (resize_image_padded_run (mkVec3 0 0 0) interp image resized
                (image_min_dim config) (image_max_dim config) Hstep Hh Hw Hmax)
      as (canvas & window & scale & padding & Hres & Hrows & Hcols).
    destruct (cv_image_to_tensor_run
                (MoldImage (convert_to_float canvas) config))
      as (t & Ht & Hc & Hth & Htw & _).
    simpl in Hth, Htw.
    exists (t, mkImageMeta 0 (rows image) (cols image) window
                 (repeat 0 (num_classes config)), window).
    split; [ | simpl; split; [exact Hc | split; congruence]].
    unfold mold_input. rewrite Hpad, Hres. simpl bind. rewrite Ht.
    reflexivity. }
  destruct (stack_total (map (fun m : Tensor3 * ImageMeta * Window => fst (fst m))
                             molded)
              3 (image_max_dim config) (image_max_dim config))
    as (batch & Hstack & Hsize & Hc & Hh & Hw).
  { intros Hnil. apply map_eq_nil in Hnil. subst molded.
    destruct images; [contradiction | discriminate]. }
  { apply Forall_map. exact Hshapes. }
  exists batch, (map (fun m => snd (fst m)) molded), (map (fun m => snd m) molded).
  unfold MoldInputs. rewrite Hmolded. simpl bind. rewrite Hstack. simpl bind.
  replace (0 <? gpu_count config) with false
    by (symmetry; apply Z.ltb_ge; exact Hgpu).
  simpl bind. split; [reflexivity | ].
  rewrite length_map, Hlen in Hsize. auto.
Qed.

Lemma mold_inputs_padded_returns_witness :
  exists batch metas windows,
    MoldInputs nearest MoldExamples.no_device
               [MoldExamples.image2x3; MoldExamples.image3x2]
               MoldExamples.padded_config
    = Ok (batch, metas, windows)
    /\ batch_size batch = 2 /\ batch_channels batch = 3
    /\ batch_height batch = 4 /\ batch_width batch = 4.
Proof.
  apply (mold_inputs_padded_returns nearest MoldExamples.no_device
           [MoldExamples.image2x3; MoldExamples.image3x2]
           MoldExamples.padded_config).
  - discriminate.
  - reflexivity.
  - simpl. lia.
  - unfold Int32.max_signed. simpl. lia.
  - constructor; [ | constructor; [ | constructor]].
    + exists MoldExamples.image2x3. split; [reflexivity | simpl; lia].
    + exists MoldExamples.image3x2. split; [reflexivity | simpl; lia].
Defined.

(** ** ResizeImage and ResizeMasks: calls that raise *)

(** X6: [ResizeImage] with padding never crops: when the image, after the
    resizing step, is higher or wider than [max_dim], a padding amount
    comes out negative and the call ends in the assertion of
    [cv::copyMakeBorder]. *)
Theorem resize_image_padding_rejects_large {A : Type} (zero : A)
        (interp : Mat A -> Z -> Z -> Z -> Z -> A) (image resized : Mat A)
        (min_dim max_dim : Z) :
  resize_step interp image
              (resize_scale (rows image) (cols image) min_dim max_dim)
  = Ok resized ->
  0 <= rows resized <= Int32.max_signed ->
  0 <= cols resized <= Int32.max_signed ->
  0 <= max_dim <= Int32.max_signed ->
  max_dim < rows resized \/ max_dim < cols resized ->
  ResizeImage zero interp image min_dim max_dim true = Err CvAssert.
Proof.
  intros Hstep Hh Hw Hmax Hlarge. unfold Int32.max_signed in *.
  set (h := rows resized) in *. set (w := cols resized) in *.
  assert (Hqh : - 2 ^ 31 < Z.quot (max_dim - h) 2 < 2 ^ 31
                /\ - 2 ^ 31 < max_dim - h - Z.quot (max_dim - h) 2 < 2 ^ 31
                /\ (max_dim < h ->
                    Z.quot (max_dim - h) 2 < 0
                    \/ max_dim - h - Z.quot (max_dim - h) 2 < 0))
    by (Z.to_euclidean_division_equations; lia).
  assert (Hqw : - 2 ^ 31 < Z.quot (max_dim - w) 2 < 2 ^ 31
                /\ - 2 ^ 31 < max_dim - w - Z.quot (max_dim - w) 2 < 2 ^ 31
                /\ (max_dim < w ->
                    Z.quot (max_dim - w) 2 < 0
                    \/ max_dim - w - Z.quot (max_dim - w) 2 < 0))
    by (Z.to_euclidean_division_equations; lia).
  unfold ResizeImage. rewrite Hstep. simpl bind. fold h w.
  unfold Int32.sub, Int32.add, Int32.div. simpl (2 =? 0). cbv iota.
  in_range (max_dim - h). in_range (max_dim - w). simpl bind.
  set (qh := Z.quot (max_dim - h) 2) in *.
  set (qw := Z.quot (max_dim - w) 2) in *.
  clearbody qh qw.
  in_range qh. simpl bind. in_range (max_dim - h - qh). simpl bind.
  in_range qw. simpl bind. in_range (max_dim - w - qw). simpl bind.
  unfold copyMakeBorder.
  destruct (Z.leb_spec 0 qh); destruct (Z.leb_spec 0 (max_dim - h - qh));
    destruct (Z.leb_spec 0 qw); destruct (Z.leb_spec 0 (max_dim - w - qw));
    simpl; try reflexivity.
  exfalso. lia.
Qed.

Lemma resize_image_padding_rejects_large_witness :
  ResizeImage 0 nearest Examples.image100 0 0 true = Err CvAssert.
Proof.
  apply (resize_image_padding_rejects_large 0 nearest Examples.image100
           Examples.image100 0 0).
  - reflexivity.
  - unfold Int32.max_signed. simpl. lia.
  - unfold Int32.max_signed. simpl. lia.
  - unfold Int32.max_signed. lia.
  - left. simpl. lia.
Defined.

Lemma mapM_err {A B : Type} (f : A -> result B) (l : list A) (a : A) (e : error) :
  In a l -> f a = Err e -> exists e', mapM f l = Err e'.
Proof.
  intros Hin Ha. induction l as [ | a' l IH]; [contradiction | ].
  simpl. destruct Hin as [-> | Hin].
  - rewrite Ha. now exists e.
  - destruct (f a') as [b | e1]; [ | now exists e1].
    destruct (IH Hin) as (e' & He'). simpl. rewrite He'. now exists e'.
Qed.

(** X7: [ResizeMasks] gives no partial result: if one mask of the list is
    empty, or (for a non-empty list) a padding amount is negative, the
    whole call raises, whatever the other masks are. *)
Theorem resize_masks_all_or_nothing {A : Type} (zero : A)
        (interp : Mat A -> Z -> Z -> Z -> Z -> A)
        (masks : list (Mat A)) (scale : F32.float) (padding : Padding)
        (mask : Mat A) :
  In mask masks ->
  rows mask <= 0 \/ cols mask <= 0
  \/ top_pad padding < 0 \/ bottom_pad padding < 0
  \/ left_pad padding < 0 \/ right_pad padding < 0 ->
  exists e, ResizeMasks zero interp masks scale padding = Err e.
Proof.
  intros Hin Hbad.
  assert (Hmask : exists e, resize_mask zero interp scale padding mask = Err e).
  { unfold resize_mask, resize_by.
    destruct (scaled_size mask scale) as [sz | e]; [ | now exists e].
    simpl bind. unfold cv_resize.
    destruct ((0 <? width sz) && (0 <? height sz) && (0 <? rows mask)
              && (0 <? cols mask)) eqn:Hsize; [ | now exists CvAssert].
    simpl bind. unfold copyMakeBorder.
    destruct ((0 <=? top_pad padding) && (0 <=? bottom_pad padding)
              && (0 <=? left_pad padding) && (0 <=? right_pad padding))
      eqn:Hpad; [ | now exists CvAssert].
    exfalso. tests_to_props. lia. }
  destruct Hmask as (e & He).
  unfold ResizeMasks. eapply mapM_err; eassumption.
Qed.

Lemma resize_masks_all_or_nothing_witness :
  exists e,
    ResizeMasks 0 nearest [Examples.mask10; const_mat 0 5 1] Examples.ten
                Examples.no_padding = Err e.
Proof.
  apply (resize_masks_all_or_nothing 0 nearest
           [Examples.mask10; const_mat 0 5 1] Examples.ten
           Examples.no_padding (const_mat 0 5 1)).
  - right. now left.
  - left. simpl. lia.
Defined.

(** ** UnmoldDetections: the cases of the area filter *)

(** [select_detections] once the extraction and the remapping have
    succeeded: what happens depends on how many boxes pass the filter. *)
Lemma select_detections_run (data_u8 : Z -> result Z)
      (ds firstN : list Detection) (mrcnn_mask : list (list (Mat F32.float)))
      (image_shape : Size) (window : Window) (N : Z)
      (class_long : list Z) (masks : list (Mat F32.float))
      (boxes : list IntBox) :
  detection_count data_u8 (detections_tensor ds) = Ok N ->
  narrow0 ds 0 N = Ok firstN ->
  mapM (fun d => F32.to_int64 (det_class_id d)) firstN = Ok class_long ->
  index_select_2d (zrange N) class_long mrcnn_mask = Ok masks ->
  Int32.min_signed <= y2 window - y1 window <= Int32.max_signed ->
  Int32.min_signed <= x2 window - x1 window <= Int32.max_signed ->
  mapM (remap_box image_shape window) firstN = Ok boxes ->
  select_detections data_u8 (detections_tensor ds) mrcnn_mask image_shape window
  = match positions_from 0 (map positive_area boxes) with
    | [] =>
        Ok (mkSelection (map box_row boxes)
              (squeeze (map (fun z => [z]) class_long))
              (map (fun d => [det_score d]) firstN) masks N)
    | [_] => Err TorchError
    | keep =>
        boxes' <- index_select0 (map box_row boxes) keep ;;
        class_sel <- index_select0 class_long keep ;;
        scores' <- index_select0 (map (fun d => [det_score d]) firstN) keep ;;
        masks' <- index_select0 masks keep ;;
        Ok (mkSelection boxes' (Vec1 class_sel) scores' masks'
                        (Z.of_nat (length class_sel)))
    end.
Proof.
  intros HN HfirstN Hlong Hmasks Hdy Hdx Hremap.
  unfold select_detections. rewrite HN. cbn [bind].
  unfold detections_tensor. rewrite (narrow0_map row_of _ _ _ _ HfirstN).
  cbn [bind]. rewrite narrow_boxes, narrow_class, narrow_scores.
  cbn [bind]. rewrite tensor_mapM_column, Hlong. cbn [bind].
  rewrite elements_squeeze_column, Hmasks. cbn [bind].
  unfold Int32.sub. rewrite (check_in_range _ Hdy), (check_in_range _ Hdx).
  cbn [bind]. rewrite remap_pipeline.
  assert (Hremap' :
            mapM (remap_box_with (F32.of_Z (y1 window)) (F32.of_Z (x1 window))
                    (F32.min
                       (F32.div (F32.of_Z (height image_shape))
                                (F32.of_Z (y2 window - y1 window)))
                       (F32.div (F32.of_Z (width image_shape))
                                (F32.of_Z (x2 window - x1 window)))))
                 firstN = Ok boxes) by exact Hremap.
  rewrite Hremap'. cbn [bind].
  rewrite (narrow_box_column 2 b_y2), (narrow_box_column 0 b_y1),
    (narrow_box_column 3 b_x2), (narrow_box_column 1 b_x1) by reflexivity.
  cbn [bind]. rewrite area_flags, nonzero_column.
  unfold narrow1 at 1.
  rewrite (mapM_map_ok _ _ (fun i : Z => [i])) by reflexivity.
  cbn [bind]. rewrite squeeze_column.
  destruct (positions_from 0 (map positive_area boxes)) as [ | i [ | j rest]];
    reflexivity.
Qed.

(** The stages that succeeded when [select_detections] returns. *)
Lemma select_detections_stages (data_u8 : Z -> result Z) (ds : list Detection)
      (mrcnn_mask : list (list (Mat F32.float)))
      (image_shape : Size) (window : Window) (sel : Selection) :
  select_detections data_u8 (detections_tensor ds) mrcnn_mask image_shape window
  = Ok sel ->
  exists N firstN class_long masks boxes,
    detection_count data_u8 (detections_tensor ds) = Ok N
    /\ narrow0 ds 0 N = Ok firstN
    /\ mapM (fun d => F32.to_int64 (det_class_id d)) firstN = Ok class_long
    /\ index_select_2d (zrange N) class_long mrcnn_mask = Ok masks
    /\ Int32.min_signed <= y2 window - y1 window <= Int32.max_signed
    /\ Int32.min_signed <= x2 window - x1 window <= Int32.max_signed
    /\ mapM (remap_box image_shape window) firstN = Ok boxes.
Proof.
  unfold select_detections. intros H.
  apply bind_ok in H as (N & HN & H).
  apply bind_ok in H as (t & Ht & H).
  apply narrow0_map_inv in Ht as (firstN & HfirstN & ->).
  rewrite narrow_boxes, narrow_class, narrow_scores in H. cbn [bind] in H.
  rewrite tensor_mapM_column in H.
  apply bind_ok in H as (class_t & Hclass & H).
  apply bind_ok in Hclass as (class_long & Hlong & Hclass).
  inversion Hclass; subst class_t; clear Hclass.
  rewrite elements_squeeze_column in H.
  apply bind_ok in H as (masks & Hmasks & H).
  apply bind_ok in H as (dy & Hdy & H). apply check_ok in Hdy as [-> Hdy].
  apply bind_ok in H as (dx & Hdx & H). apply check_ok in Hdx as [-> Hdx].
  rewrite remap_pipeline in H.
  apply bind_ok in H as (boxes_t & Hboxes & _).
  apply bind_ok in Hboxes as (boxes & Hremap & _).
  exists N, firstN, class_long, masks, boxes. auto 10.
Qed.

(** X8: when exactly one of the first [N] detections passes the area
    filter, [UnmoldDetections] raises: [squeeze()] turns the single index
    into a zero-dimensional tensor, and [include_ix.size(0)] has no
    dimension to read. *)
Theorem unmold_single_detection_raises
        (interp : Mat F32.float -> Z -> Z -> Z -> Z -> F32.float)
        (data_u8 : Z -> result Z) (ds firstN : list Detection)
        (mrcnn_mask : list (list (Mat F32.float)))
        (image_shape : Size) (window : Window) (N : Z)
        (class_long : list Z) (masks : list (Mat F32.float))
        (boxes : list IntBox) :
  detection_count data_u8 (detections_tensor ds) = Ok N ->
  narrow0 ds 0 N = Ok firstN ->
  mapM (fun d => F32.to_int64 (det_class_id d)) firstN = Ok class_long ->
  index_select_2d (zrange N) class_long mrcnn_mask = Ok masks ->
  Int32.min_signed <= y2 window - y1 window <= Int32.max_signed ->
  Int32.min_signed <= x2 window - x1 window <= Int32.max_signed ->
  mapM (remap_box image_shape window) firstN = Ok boxes ->
  length (filter positive_area boxes) = 1%nat ->
  UnmoldDetections interp data_u8 (detections_tensor ds) mrcnn_mask
                   image_shape window
  = Err TorchError.
Proof.
  intros HN HfirstN Hlong Hmasks Hdy Hdx Hremap Hone.
  unfold UnmoldDetections.
  rewrite (select_detections_run data_u8 ds firstN mrcnn_mask image_shape
             window N class_long masks boxes HN HfirstN Hlong Hmasks Hdy Hdx
             Hremap).
  pose proof (length_positions_from 0 (map positive_area boxes)) as Hlen.
  rewrite filter_map_flags, Hone in Hlen.
  destruct (positions_from 0 (map positive_area boxes)) as [ | i [ | j rest]];
    try discriminate Hlen.
  reflexivity.
Qed.

Lemma unmold_single_detection_raises_witness :
  UnmoldDetections nearest data_u8_low_byte
    (detections_tensor UnmoldExamples.one_good_box)
    (Examples.mask_stack 2) Examples.shape5x4 Examples.window5x4
  = Err TorchError.
Proof.
  apply (unmold_single_detection_raises nearest data_u8_low_byte
           UnmoldExamples.one_good_box UnmoldExamples.one_good_box
           (Examples.mask_stack 2) Examples.shape5x4 Examples.window5x4 2
           [1; 2] [Examples.ones2; Examples.ones2]
           [mkIntBox 0 0 2 2; mkIntBox 1 1 1 4]).
  - reflexivity.
  - reflexivity.
  - reflexivity.
  - reflexivity.
  - unfold Int32.min_signed, Int32.max_signed. simpl. lia.
  - unfold Int32.min_signed, Int32.max_signed. simpl. lia.
  - reflexivity.
  - reflexivity.
Defined.

(** X9: when the count of detections is 0 (an empty tensor, or a first
    row of padding whose index the accessor reads back as 0),
    [UnmoldDetections] returns empty boxes, class ids, scores and masks,
    whatever the masks of the network are. *)
Theorem unmold_no_detections
        (interp : Mat F32.float -> Z -> Z -> Z -> Z -> F32.float)
        (data_u8 : Z -> result Z) (detections : list (list F32.float))
        (mrcnn_mask : list (list (Mat F32.float)))
        (image_shape : Size) (window : Window) :
  detection_count data_u8 detections = Ok 0 ->
  Int32.min_signed <= y2 window - y1 window <= Int32.max_signed ->
  Int32.min_signed <= x2 window - x1 window <= Int32.max_signed ->
  UnmoldDetections interp data_u8 detections mrcnn_mask image_shape window
  = Ok ([], Vec1 [], [], []).
Proof.
  intros HN Hdy Hdx. unfold UnmoldDetections, select_detections.
  rewrite HN. cbn [bind]. unfold narrow0 at 1.
  replace (0 + 0 <=? Z.of_nat (length detections)) with true
    by (symmetry; apply Z.leb_le; lia).
  simpl. unfold Int32.sub.
  rewrite (check_in_range _ Hdy), (check_in_range _ Hdx). reflexivity.
Qed.

Lemma unmold_no_detections_witness :
  UnmoldDetections nearest data_u8_low_byte
    (detections_tensor [Examples.padding_row; Examples.detection 0 0 2 2 1])
    (Examples.mask_stack 2) Examples.shape5x4 Examples.window5x4
  = Ok ([], Vec1 [], [], [])
  /\ UnmoldDetections nearest data_u8_checked []
       (Examples.mask_stack 2) Examples.shape5x4 Examples.window5x4
     = Ok ([], Vec1 [], [], []).
Proof.
  split; apply unmold_no_detections;
    try reflexivity;
    unfold Int32.min_signed, Int32.max_signed; simpl; lia.
Defined.

(** The four parts of the selection have one length. *)
Lemma select_detections_lengths (data_u8 : Z -> result Z) (ds : list Detection)
      (mrcnn_mask : list (list (Mat F32.float)))
      (image_shape : Size) (window : Window) (sel : Selection) :
  select_detections data_u8 (detections_tensor ds) mrcnn_mask image_shape window
  = Ok sel ->
  length (elements (sel_class_ids sel)) = length (sel_boxes sel)
  /\ length (sel_scores sel) = length (sel_boxes sel)
  /\ length (sel_masks sel) = length (sel_boxes sel).
Proof.
  intros H.
  destruct (select_detections_stages _ _ _ _ _ _ H)
    as (N & firstN & class_long & masks & boxes & HN & HfirstN & Hlong
        & Hmasks & Hdy & Hdx & Hremap).
  rewrite (select_detections_run data_u8 ds firstN mrcnn_mask image_shape
             window N class_long masks boxes HN HfirstN Hlong Hmasks Hdy Hdx
             Hremap) in H.
  apply narrow0_prefix in HfirstN as (_ & _ & HlenN).
  apply mapM_length in Hremap. apply mapM_length in Hlong.
  apply index_select_2d_length in Hmasks. rewrite length_zrange in Hmasks.
  destruct (positions_from 0 (map positive_area boxes)) as [ | i [ | j rest]].
  - inversion H; subst sel; clear H. simpl.
    rewrite elements_squeeze_column, !length_map. lia.
  - discriminate.
  - apply bind_ok in H as (boxes' & Hb & H).
    apply bind_ok in H as (class_sel & Hc & H).
    apply bind_ok in H as (scores' & Hs & H).
    apply bind_ok in H as (masks' & Hm & H).
    inversion H; subst sel; clear H. simpl.
    apply mapM_length in Hb. apply mapM_length in Hc.
    apply mapM_length in Hs. apply mapM_length in Hm. lia.
Qed.

(** X10: when [UnmoldDetections] returns, its four outputs are aligned
    (as many class ids, scores and full masks as boxes), there are at
    most [N] of them, and every returned box has positive sides and lies
    inside the original image. *)
Theorem unmold_outputs_aligned
        (interp : Mat F32.float -> Z -> Z -> Z -> Z -> F32.float)
        (data_u8 : Z -> result Z) (ds : list Detection)
        (mrcnn_mask : list (list (Mat F32.float)))
        (image_shape : Size) (window : Window)
        (boxes : list (list Z)) (class_ids : Squeezed Z)
        (scores : list (list F32.float)) (full_masks : list (Mat Z)) :
  UnmoldDetections interp data_u8 (detections_tensor ds) mrcnn_mask
                   image_shape window
  = Ok (boxes, class_ids, scores, full_masks) ->
  exists N,
    detection_count data_u8 (detections_tensor ds) = Ok N
    /\ Z.of_nat (length boxes) <= N
    /\ length (elements class_ids) = length boxes
    /\ length scores = length boxes
    /\ length full_masks = length boxes
    /\ Forall (fun row =>
                 exists y1 x1 y2 x2,
                   row = [y1; x1; y2; x2]
                   /\ 0 <= x1 /\ x1 < x2 /\ x2 <= width image_shape
                   /\ 0 <= y1 /\ y1 < y2 /\ y2 <= height image_shape)
              boxes.
Proof.
  intros Hrun.
  destruct (unmold_outputs_in_image _ _ _ _ _ _ _ _ _ _ Hrun)
    as (N & HN & Hle & Hfull & Hin).
  apply unmold_detections_inv in Hrun as (sel & Hsel & _ & -> & -> & ->).
  destruct (select_detections_lengths _ _ _ _ _ _ Hsel) as (Hc & Hs & _).
  exists N. split; [exact HN | ]. split; [exact Hle | ].
  split; [exact Hc | ]. split; [exact Hs | ]. split; [exact Hfull | ].
  eapply Forall_impl; [ | exact Hin].
  intros row (b & -> & Hbox).
  exists (b_y1 b), (b_x1 b), (b_y2 b), (b_x2 b).
  split; [reflexivity | exact Hbox].
Qed.

Lemma unmold_outputs_aligned_witness :
  exists boxes class_ids scores full_masks,
    UnmoldDetections nearest data_u8_low_byte
      (detections_tensor Examples.two_boxes)
      (Examples.mask_stack 3) Examples.shape5x4 Examples.window5x4
    = Ok (boxes, class_ids, scores, full_masks)
    /\ length (elements class_ids) = length boxes
    /\ length scores = length boxes
    /\ length full_masks = length boxes.
Proof.
  assert (Hrun : exists boxes class_ids scores full_masks,
             UnmoldDetections nearest data_u8_low_byte
               (detections_tensor Examples.two_boxes)
               (Examples.mask_stack 3) Examples.shape5x4 Examples.window5x4
             = Ok (boxes, class_ids, scores, full_masks))
    by (do 4 eexists; reflexivity).
  destruct Hrun as (boxes & class_ids & scores & full_masks & Hrun).
  destruct (unmold_outputs_aligned _ _ _ _ _ _ _ _ _ _ Hrun)
    as (N & _ & _ & Hc & Hs & Hf & _).
  exists boxes, class_ids, scores, full_masks. auto.
Defined.

(** ** UnmoldDetections: the count and the rows behind it *)

(** X11: the count of real detections is the index of the first row with
    class id zero when that index is below 256 and the accessor reads an
    index below 256 back unchanged, and it is the number of rows when no
    row has class id zero (whatever the accessor does). *)
Theorem detection_count_first_zero (data_u8 : Z -> result Z)
        (ds : list Detection) :
  (valid_count ds = Z.of_nat (length ds) ->
   detection_count data_u8 (detections_tensor ds) = Ok (Z.of_nat (length ds)))
  /\ ((forall i, 0 <= i < 256 -> data_u8 i = Ok i) ->
      valid_count ds < 256 ->
      detection_count data_u8 (detections_tensor ds) = Ok (valid_count ds)
      /\ 0 <= valid_count ds <= Z.of_nat (length ds)).
Proof.
  pose proof (valid_count_range ds) as Hrange.
  split.
  - intros Hall. rewrite detection_count_spec, Hall, Z.ltb_irrefl. reflexivity.
  - intros Hread Hsmall. split; [ | exact Hrange].
    rewrite detection_count_spec.
    destruct (valid_count ds <? Z.of_nat (length ds)) eqn:Hlt.
    + apply Hread. lia.
    + apply Z.ltb_ge in Hlt. f_equal. lia.
Qed.

Lemma detection_count_first_zero_witness :
  detection_count data_u8_low_byte (detections_tensor Examples.two_boxes) = Ok 2
  /\ detection_count data_u8_checked
       (detections_tensor Examples.two_empty_boxes) = Ok 2.
Proof.
  destruct (detection_count_first_zero data_u8_low_byte Examples.two_boxes)
    as [_ Hfirst].
  destruct (detection_count_first_zero data_u8_checked Examples.two_empty_boxes)
    as [Hnone _].
  split.
  - apply Hfirst.
    + intros i Hi. unfold data_u8_low_byte. now rewrite Z.mod_small by lia.
    + vm_compute. reflexivity.
  - apply Hnone. reflexivity.
Defined.

Lemma valid_count_app (real rest : list Detection) (pad : Detection) :
  Forall (fun d => F32.eqb (det_class_id d) F32.zero = false) real ->
  F32.eqb (det_class_id pad) F32.zero = true ->
  valid_count (real ++ pad :: rest) = Z.of_nat (length real).
Proof.
  intros Hreal Hpad. induction Hreal as [ | d real Hd _ IH].
  - simpl. now rewrite Hpad.
  - simpl valid_count. rewrite Hd, IH. simpl length. lia.
Qed.

Lemma narrow0_app_prefix {A : Type} (l rest : list A) (n : Z) :
  0 <= n <= Z.of_nat (length l) ->
  narrow0 (l ++ rest) 0 n = Ok (firstn (Z.to_nat n) l).
Proof.
  intros Hn. unfold narrow0. rewrite length_app.
  replace (0 + n <=? Z.of_nat (length l + length rest)) with true
    by (symmetry; apply Z.leb_le; lia).
  leb_true 0 n. simpl.
  rewrite firstn_app.
  replace (Z.to_nat n - length l)%nat with 0%nat by lia.
  simpl. now rewrite app_nil_r.
Qed.

(** X12: rows behind the first row with class id zero do not matter: two
    buffers that agree up to and including that row give the same result,
    provided the accessor, when it returns a count, returns one that is
    not larger than the index it read. *)
Theorem unmold_ignores_rows_after_padding
        (interp : Mat F32.float -> Z -> Z -> Z -> Z -> F32.float)
        (data_u8 : Z -> result Z)
        (real rest1 rest2 : list Detection) (pad : Detection)
        (mrcnn_mask : list (list (Mat F32.float)))
        (image_shape : Size) (window : Window) :
  (forall i n, 0 <= i -> data_u8 i = Ok n -> 0 <= n <= i) ->
  Forall (fun d => F32.eqb (det_class_id d) F32.zero = false) real ->
  F32.eqb (det_class_id pad) F32.zero = true ->
  UnmoldDetections interp data_u8 (detections_tensor (real ++ pad :: rest1))
                   mrcnn_mask image_shape window
  = UnmoldDetections interp data_u8 (detections_tensor (real ++ pad :: rest2))
                     mrcnn_mask image_shape window.
Proof.
  intros Hread Hreal Hpad.
  assert (Hprefix : forall rest,
             select_detections data_u8
               (detections_tensor (real ++ pad :: rest)) mrcnn_mask
               image_shape window
             = select_detections data_u8
                 (detections_tensor (real ++ [pad])) mrcnn_mask
                 image_shape window).
  { intros rest. unfold select_detections.
    rewrite !detection_count_spec, !valid_count_app by assumption.
    rewrite !length_app. simpl length.
    replace (Z.of_nat (length real) <? Z.of_nat (length real + S (length rest)))
      with true by (symmetry; apply Z.ltb_lt; lia).
    replace (Z.of_nat (length real) <? Z.of_nat (length real + 1))
      with true by (symmetry; apply Z.ltb_lt; lia).
    destruct (data_u8 (Z.of_nat (length real))) as [n | e] eqn:Hn;
      [ | reflexivity].
    cbn [bind]. apply Hread in Hn; [ | lia].
    unfold detections_tensor. rewrite !map_app.
    rewrite !narrow0_app_prefix by (rewrite length_map; lia).
    reflexivity. }
  unfold UnmoldDetections. now rewrite (Hprefix rest1), (Hprefix rest2).
Qed.

Lemma unmold_ignores_rows_after_padding_witness :
  UnmoldDetections nearest data_u8_low_byte
    (detections_tensor UnmoldExamples.leftover_after_padding)
    (Examples.mask_stack 4) Examples.shape5x4 Examples.window5x4
  = UnmoldDetections nearest data_u8_low_byte
      (detections_tensor Examples.two_boxes)
      (Examples.mask_stack 4) Examples.shape5x4 Examples.window5x4.
Proof.
  apply (unmold_ignores_rows_after_padding nearest data_u8_low_byte
           [Examples.detection 0 0 2 2 1; Examples.detection 1 1 3 4 2]
           [Examples.detection 5 5 9 9 1] [] Examples.padding_row).
  - intros i n Hi H. unfold data_u8_low_byte in H. inversion H; subst.
    split; [apply Z.mod_pos_bound; lia | apply Z.mod_le; lia].
  - constructor; [reflexivity | constructor; [reflexivity | constructor]].
  - reflexivity.
Defined.

Lemma unmold_detections_returns_witness :
  exists class_ids scores full_masks,
    UnmoldDetections nearest data_u8_low_byte
      (detections_tensor Examples.two_boxes)
      (Examples.mask_stack 3) Examples.shape5x4 Examples.window5x4
    = Ok ([[0; 0; 2; 2]; [1; 1; 3; 4]], class_ids, scores, full_masks)
    /\ length full_masks = 2%nat.
Proof.
  apply (unmold_detections_returns nearest data_u8_low_byte
           Examples.two_boxes
           [Examples.detection 0 0 2 2 1; Examples.detection 1 1 3 4 2]
           (Examples.mask_stack 3) Examples.shape5x4 Examples.window5x4 2
           [1; 2] [Examples.ones2; Examples.ones2]
           [mkIntBox 0 0 2 2; mkIntBox 1 1 3 4]).
  - reflexivity.
  - reflexivity.
  - reflexivity.
  - reflexivity.
  - repeat constructor.
  - unfold Int32.min_signed, Int32.max_signed. simpl. lia.
  - unfold Int32.min_signed, Int32.max_signed. simpl. lia.
  - reflexivity.
  - simpl. lia.
  - repeat constructor; simpl; lia.
  - unfold Int32.max_signed. simpl. lia.
  - unfold Int32.max_signed. simpl. lia.
Defined.

(** ** The window and the padded frame *)

Lemma resize_step_extent {A : Type} (interp : Mat A -> Z -> Z -> Z -> Z -> A)
      (image resized : Mat A) (scale : F32.float) :
  resize_step interp image scale = Ok resized ->
  0 <= rows image -> 0 <= cols image ->
  0 <= rows resized /\ 0 <= cols resized.
Proof.
  unfold resize_step, resize_by. intros H Hr Hc.
  destruct (F32.neqb scale F32.one).
  - apply bind_ok in H as (sz & _ & H). unfold cv_resize in H.
    destruct ((0 <? width sz) && (0 <? height sz) && (0 <? rows image)
              && (0 <? cols image)) eqn:Hsize; [ | discriminate].
    inversion H; subst. simpl. tests_to_props. lia.
  - inversion H; subst. auto.
Qed.

(** What a returning [ResizeImage] with padding has done. *)
Lemma resize_image_padded_inv {A : Type} (zero : A)
      (interp : Mat A -> Z -> Z -> Z -> Z -> A) (image canvas : Mat A)
      (min_dim max_dim : Z) (window : Window) (scale : F32.float)
      (padding : Padding) :
  ResizeImage zero interp image min_dim max_dim true
  = Ok (canvas, window, scale, padding) ->
  exists resized,
    resize_step interp image
                (resize_scale (rows image) (cols image) min_dim max_dim)
    = Ok resized
    /\ 0 <= top_pad padding /\ 0 <= bottom_pad padding
    /\ 0 <= left_pad padding /\ 0 <= right_pad padding
    /\ top_pad padding + bottom_pad padding = max_dim - rows resized
    /\ left_pad padding + right_pad padding = max_dim - cols resized
    /\ rows canvas = max_dim /\ cols canvas = max_dim
    /\ window = mkWindow (top_pad padding) (left_pad padding)
                         (rows resized + top_pad padding)
                         (cols resized + left_pad padding)
    /\ forall r c,
         px canvas r c
         = if in_rect (y1 window) (x1 window) (y2 window) (x2 window) r c
           then px resized (r - y1 window) (c - x1 window) else zero.
Proof.
  unfold ResizeImage. intros H.
  apply bind_ok in H as (resized & Hstep & H).
  apply bind_ok in H as (top & Htop & H).
  apply bind_ok in Htop as (dh & Hdh & Htop).
  apply check_ok in Hdh as [-> _].
  apply bind_ok in H as (bottom & Hbottom & H).
  apply bind_ok in Hbottom as (dh' & Hdh' & Hbottom).
  apply check_ok in Hdh' as [-> _]. apply check_ok in Hbottom as [-> _].
  apply bind_ok in H as (left & Hleft & H).
  apply bind_ok in Hleft as (dw & Hdw & Hleft).
  apply check_ok in Hdw as [-> _].
  apply bind_ok in H as (right & Hright & H).
  apply bind_ok in Hright as (dw' & Hdw' & Hright).
  apply check_ok in Hdw' as [-> _]. apply check_ok in Hright as [-> _].
  apply bind_ok in H as (bordered & Hborder & H).
  apply bind_ok in H as (y2' & Hy2 & H). apply check_ok in Hy2 as [-> _].
  apply bind_ok in H as (x2' & Hx2 & H). apply check_ok in Hx2 as [-> _].
  inversion H; subst canvas window scale padding; clear H.
  unfold copyMakeBorder in Hborder.
  destruct ((0 <=? top) && (0 <=? max_dim - rows resized - top)
            && (0 <=? left) && (0 <=? max_dim - cols resized - left))
    eqn:Hpads; [ | discriminate].
  inversion Hborder; subst bordered; clear Hborder.
  tests_to_props. exists resized. simpl.
  split; [exact Hstep | ].
  repeat (split; [lia | ]).
  split; [reflexivity | ].
  intros r c.
  replace (top + rows resized) with (rows resized + top) by lia.
  replace (left + cols resized) with (cols resized + left) by lia.
  reflexivity.
Qed.

(** X14: whenever [ResizeImage] with padding returns (for an image of
    non-negative extent), the image returned is [max_dim] x [max_dim], no
    padding amount is negative, and the window is a rectangle inside that
    frame, [0 <= y1 <= y2 <= max_dim] and [0 <= x1 <= x2 <= max_dim], whose
    height and width are those of the resized image. *)
Theorem resize_image_padded_frame {A : Type} (zero : A)
        (interp : Mat A -> Z -> Z -> Z -> Z -> A) (image canvas : Mat A)
        (min_dim max_dim : Z) (window : Window) (scale : F32.float)
        (padding : Padding) :
  ResizeImage zero interp image min_dim max_dim true
  = Ok (canvas, window, scale, padding) ->
  0 <= rows image -> 0 <= cols image ->
  rows canvas = max_dim /\ cols canvas = max_dim
  /\ 0 <= top_pad padding /\ 0 <= bottom_pad padding
  /\ 0 <= left_pad padding /\ 0 <= right_pad padding
  /\ 0 <= y1 window /\ y1 window <= y2 window /\ y2 window <= max_dim
  /\ 0 <= x1 window /\ x1 window <= x2 window /\ x2 window <= max_dim
  /\ exists resized,
       resize_step interp image
                   (resize_scale (rows image) (cols image) min_dim max_dim)
       = Ok resized
       /\ y2 window - y1 window = rows resized
       /\ x2 window - x1 window = cols resized.
Proof.
  intros H Hr Hc.
  apply resize_image_padded_inv in H
    as (resized & Hstep & Ht & Hb & Hl & Hri & Hv & Hh & Hrows & Hcols & -> & _).
  destruct (resize_step_extent interp image resized _ Hstep Hr Hc) as [Hr' Hc'].
  simpl. repeat (split; [lia | ]).
  exists resized. split; [exact Hstep | lia].
Qed.

Lemma resize_image_padded_frame_witness :
  exists canvas window scale padding,
    ResizeImage 0 nearest Examples.image600x800 800 1024 true
    = Ok (canvas, window, scale, padding)
    /\ rows canvas = 1024 /\ cols canvas = 1024
    /\ 0 <= y1 window /\ y2 window <= 1024.
Proof.
  assert (Hrun : exists canvas window scale padding,
             ResizeImage 0 nearest Examples.image600x800 800 1024 true
             = Ok (canvas, window, scale, padding))
    by (do 4 eexists; reflexivity).
  destruct Hrun as (canvas & window & scale & padding & Hrun).
  destruct (resize_image_padded_frame _ _ _ _ _ _ _ _ _ Hrun)
    as (Hrows & Hcols & _ & _ & _ & _ & Hy1 & _ & Hy2 & _);
    [simpl; lia | simpl; lia | ].
  exists canvas, window, scale, padding. auto.
Defined.

Lemma Forall2_nth_right {A B : Type} (R : A -> B -> Prop) (la : list A)
      (lb : list B) (i : nat) (b : B) :
  Forall2 R la lb -> nth_error lb i = Some b ->
  exists a, nth_error la i = Some a /\ R a b.
Proof.
  intros H. revert i. induction H as [ | a b' la lb Hab _ IH]; intros i Hi.
  - destruct i; discriminate.
  - destruct i as [ | i]; simpl in *.
    + inversion Hi; subst. now exists a.
    + now apply IH.
Qed.

(** X15: with padding configured and no device transfer, the windows that
    [MoldInputs] returns tell content from border in the batch: at every
    position of entry [i] outside [windows[i]], plane [c] holds the border
    value [0 - mean_pixel[c]] (the zero border is added before the mean is
    subtracted). *)
Theorem mold_inputs_border
        (interp : Mat (Vec3 Z) -> Z -> Z -> Z -> Z -> Vec3 Z)
        (to_cuda : Batch -> result Batch)
        (images : list (Mat (Vec3 Z))) (config : Config)
        (batch : Batch) (metas : list ImageMeta) (windows : list Window) :
  MoldInputs interp to_cuda images config = Ok (batch, metas, windows) ->
  image_padding config = true ->
  gpu_count config <= 0 ->
  batch_height batch = image_max_dim config
  /\ batch_width batch = image_max_dim config
  /\ forall i window r x,
       nth_error windows i = Some window ->
       0 <= r < batch_height batch -> 0 <= x < batch_width batch ->
       in_rect (y1 window) (x1 window) (y2 window) (x2 window) r x = false ->
       batch_at batch (Z.of_nat i) 0 r x = F32.sub F32.zero (mean_pixel_0 config)
       /\ batch_at batch (Z.of_nat i) 1 r x
          = F32.sub F32.zero (mean_pixel_1 config)
       /\ batch_at batch (Z.of_nat i) 2 r x
          = F32.sub F32.zero (mean_pixel_2 config).
Proof.
  intros H Hpad Hgpu.
  apply mold_inputs_inv in H as (molded & host & Hmolded & Hstack & Hcuda & _ & ->).
  replace (0 <? gpu_count config) with false in Hcuda
    by (symmetry; apply Z.ltb_ge; exact Hgpu).
  inversion Hcuda; subst host; clear Hcuda.
  destruct (stack_inv _ _ Hstack) as (Hsize & Hpos & Hentries).
  assert (Hentry : forall i m,
             nth_error molded i = Some m ->
             exists canvas,
               rows canvas = image_max_dim config
               /\ cols canvas = image_max_dim config
               /\ rows canvas = batch_height batch
               /\ cols canvas = batch_width batch
               /\ (forall r x,
                      in_rect (y1 (snd m)) (x1 (snd m)) (y2 (snd m)) (x2 (snd m))
                              r x = false ->
                      px canvas r x = mkVec3 0 0 0)
               /\ forall c r x,
                    0 <= c < 3 -> 0 <= r < rows canvas -> 0 <= x < cols canvas ->
                    batch_at batch (Z.of_nat i) c r x
                    = channel (2 - c)
                        (px (MoldImage (convert_to_float canvas) config) r x)).
  { intros i [[t meta] window] Hm.
    destruct (Forall2_nth_right _ _ _ _ _ Hmolded Hm) as (image & _ & Hrun).
    apply mold_input_inv in Hrun as (canvas & scale & padding & Hres & _ & Ht).
    rewrite Hpad in Hres.
    apply resize_image_padded_inv in Hres
      as (resized & _ & _ & _ & _ & _ & _ & _ & Hrows & Hcols & _ & Hpx).
    apply (map_nth_error (fun m : Tensor3 * ImageMeta * Window => fst (fst m)))
      in Hm.
    destruct (Hentries i t Hm) as (_ & Hh & Hw & Hat).
    destruct (cv_image_to_tensor_run (MoldImage (convert_to_float canvas) config))
      as (t' & Ht' & _ & Hh' & Hw' & Hat').
    rewrite Ht in Ht'. inversion Ht'; subst t'. simpl in Hh', Hw'.
    exists canvas. simpl snd.
    split; [exact Hrows | ]. split; [exact Hcols | ].
    split; [congruence | ]. split; [congruence | ].
    split.
    - intros r x Hout. rewrite Hpx, Hout. reflexivity.
    - intros c r x Hc Hr Hx. rewrite Hat. apply Hat'; simpl; assumption. }
  assert (Hdims : batch_height batch = image_max_dim config
                  /\ batch_width batch = image_max_dim config).
  { destruct molded as [ | m0 rest]; [discriminate Hstack | ].
    destruct (Hentry 0%nat m0 eq_refl) as (canvas & Hr & Hc & Hh & Hw & _).
    split; congruence. }
  split; [apply Hdims | ]. split; [apply Hdims | ].
  intros i window r x Hi Hr Hx Hout.
  rewrite nth_error_map in Hi.
  destruct (nth_error molded i) as [m | ] eqn:Hm; [ | discriminate].
  simpl in Hi. inversion Hi; subst window; clear Hi.
  destruct (Hentry i m Hm) as (canvas & _ & _ & Hh & Hw & Hzero & Hat).
  rewrite !Hat by lia. simpl. rewrite (Hzero r x Hout). simpl.
  repeat split.
Qed.

Lemma mold_inputs_border_witness :
  exists batch metas,
    MoldInputs nearest MoldExamples.no_device
               [MoldExamples.image2x3; MoldExamples.image3x2]
               MoldExamples.padded_config
    = Ok (batch, metas, [mkWindow 1 0 3 3; mkWindow 0 1 3 3])
    /\ batch_at batch 0 0 0 0 = F32.sub F32.zero (F32.of_Z 1)
    /\ batch_at batch 1 2 3 3 = F32.sub F32.zero (F32.of_Z 3).
Proof.
  assert (Hrun : exists batch metas,
             MoldInputs nearest MoldExamples.no_device
                        [MoldExamples.image2x3; MoldExamples.image3x2]
                        MoldExamples.padded_config
             = Ok (batch, metas, [mkWindow 1 0 3 3; mkWindow 0 1 3 3]))
    by (do 2 eexists; reflexivity).
  destruct Hrun as (batch & metas & Hrun).
  destruct (mold_inputs_border _ _ _ _ _ _ _ Hrun) as (Hh & Hw & Hborder);
    [reflexivity | simpl; lia | ].
  simpl in Hh, Hw.
  exists batch, metas. split; [exact Hrun | ]. split.
  - destruct (Hborder 0%nat (mkWindow 1 0 3 3) 0 0) as (H0 & _ & _);
      [reflexivity | lia | lia | reflexivity | exact H0].
  - destruct (Hborder 1%nat (mkWindow 0 1 3 3) 3 3) as (_ & _ & H2);
      [reflexivity | lia | lia | reflexivity | exact H2].
Defined.
